(** * LASTRO pilot dashboard: load, filter, aggregate

    A shallow embedding of [07_dashboard_app.py].  The script is a linear
    pipeline over a pandas frame: [load_data] coerces the source table, the
    sidebar widgets give the filter parameters, a block of boolean masks
    narrows the frame, and the aggregations feed the page.

    Conventions of the embedding.
    - A frame is its ordered column labels and its rows; a row maps a label
      to a cell.  A boolean-mask selection [f[mask]] is [List.filter].
    - Numbers are an interface [Numeric]; [binary64] (IEEE double, what
      pandas holds) is its instance.
    - Text is a [string] read as a sequence of code points below 256.
    - What pandas, numpy, Streamlit and Python decide and the script does
      not (number and date parsing, [str] of a number, the regular
      expressions of [re], [int] of a number, the order in which the
      default sort leaves equal keys) enters as a variable of the section. *)

From Stdlib Require Import Floats ZArith String Ascii List Sorted.
From Stdlib Require Uint63.
From stdpp Require Import gmap strings list sorting.

Open Scope string_scope.

(** ** Numbers *)

Class Numeric := {
  num : Type;
  nzero : num;
  nadd : num -> num -> num;
  nleb : num -> num -> bool;
  nltb : num -> num -> bool;
  nisnan : num -> bool
}.

(** The whole part of a finite float, towards zero. *)
Definition whole_part (s : bool) (m : positive) (e : Z) : Z :=
  let v := if (0 <=? e)%Z then Z.shiftl (Z.pos m) e
           else Z.shiftr (Z.pos m) (- e) in
  if s then (- v)%Z else v.

(** [int(x)] on a float: OverflowError on an infinity, ValueError on NaN. *)
Definition float_to_int (x : float) : option Z :=
  match Prim2SF x with
  | S754_zero _ => Some 0%Z
  | S754_finite s m e => Some (whole_part s m e)
  | S754_infinity _ | S754_nan => None
  end.

(** float64, the dtype of [net_royalty] and [units] after [pd.to_numeric]. *)
Definition binary64 : Numeric := {|
  num := float;
  nzero := 0%float;
  nadd := PrimFloat.add;
  nleb := PrimFloat.leb;
  nltb := PrimFloat.ltb;
  nisnan := PrimFloat.is_nan
|}.

(** The exact sum of whole numbers, and of their absolute values. *)
Definition zsum (l : list Z) : Z := foldr Z.add 0%Z l.
Definition abs_sum (l : list Z) : Z := zsum (Z.abs <$> l).

(** ** Text *)

Module Text.

Definition code (c : ascii) : N := N_of_ascii c.

(** [str.lower] on one code point below 256: A-Z and the Latin-1
      capitals (C0-DE but D7) move up by 32. *)
Definition lower_char (c : ascii) : ascii :=
    let n := code c in
    if ((65 <=? n) && (n <=? 90) ||
        (192 <=? n) && (n <=? 222) && negb (n =? 215))%N
    then ascii_of_N (n + 32) else c.

Fixpoint lower (s : string) : string :=
    match s with
    | EmptyString => EmptyString
    | String c s' => String (lower_char c) (lower s')
    end.

(** [str.isspace] on one code point below 256. *)
Definition is_space (c : ascii) : bool :=
    let n := code c in
    ((9 <=? n) && (n <=? 13) || (28 <=? n) && (n <=? 32) ||
     (n =? 133) || (n =? 160))%N.

Fixpoint lstrip (s : string) : string :=
    match s with
    | EmptyString => EmptyString
    | String c s' => if is_space c then lstrip s' else s
    end.

Fixpoint rstrip (s : string) : string :=
    match s with
    | EmptyString => EmptyString
    | String c s' =>
        match rstrip s' with
        | EmptyString => if is_space c then EmptyString else String c EmptyString
        | t => String c t
        end
    end.

(** [str.strip()] *)
Definition strip (s : string) : string := rstrip (lstrip s).

(** [needle in hay] *)
Fixpoint contains (hay needle : string) : bool :=
    if String.prefix needle hay then true
    else match hay with
         | EmptyString => false
         | String _ hay' => contains hay' needle
         end.

(** [sep.join(parts)] *)
Definition join (sep : string) (parts : list string) : string :=
    String.concat sep parts.

End Text.

(** ** Regular expressions

    [Series.str.contains(pat)] is called without [regex=False], so pandas
    hands [pat] to [re].  The script is embedded over any engine (the
    variable [regex] below).  Written out here, for the sample tables:
    the patterns made of ordinary characters and the dot. *)

Module Re.

Inductive token := Lit (c : ascii) | AnyChar.

Definition metachars : list ascii :=
    list_ascii_of_string ".^$*+?{}[]\|()".

Definition is_meta (c : ascii) : bool :=
    existsb (Ascii.eqb c) metachars.

(** No metacharacter at all: the pattern stands for itself. *)
Fixpoint plain (p : string) : bool :=
    match p with
    | EmptyString => true
    | String c p' => negb (is_meta c) && plain p'
    end.

Fixpoint compile (p : string) : option (list token) :=
    match p with
    | EmptyString => Some []
    | String c p' =>
        if Ascii.eqb c "."%char then cons AnyChar <$> compile p'
        else if is_meta c then None
        else cons (Lit c) <$> compile p'
    end.

(** The dot takes any character but a newline (no DOTALL flag). *)
Definition accepts (t : token) (c : ascii) : bool :=
    match t with
    | Lit a => Ascii.eqb a c
    | AnyChar => negb (Ascii.eqb c "010"%char)
    end.

Fixpoint match_here (ts : list token) (s : string) : bool :=
    match ts with
    | [] => true
    | t :: ts' =>
        match s with
        | EmptyString => false
        | String c s' => accepts t c && match_here ts' s'
        end
    end.

Fixpoint search_tokens (ts : list token) (s : string) : bool :=
    if match_here ts s then true
    else match s with
         | EmptyString => false
         | String _ s' => search_tokens ts s'
         end.

(** [re.search(pat, s) is not None], on these patterns. *)
Definition search (pat s : string) : option bool :=
    (fun ts => search_tokens ts s) <$> compile pat.

End Re.

(** ** Cells, rows, frames *)

(** A [Timestamp]: its calendar day (proleptic ordinal) and the time of day. *)
Record timestamp := { ts_date : Z; ts_nanos : Z }.

(** What running a piece of the script comes to: a value, [st.stop()], an
    uncaught exception, or an input the embedding does not cover. *)
Inductive outcome (A : Type) : Type :=
| Done (a : A)
| Halted
| Raised
| NotModelled.
Arguments Done {A} a.
Arguments Halted {A}.
Arguments Raised {A}.
Arguments NotModelled {A}.

#[global] Instance outcome_ret : MRet outcome := @Done.
#[global] Instance outcome_bind : MBind outcome := fun A B k m =>
  match m with
  | Done a => k a
  | Halted => Halted
  | Raised => Raised
  | NotModelled => NotModelled
  end.

(** Code-point order on text, the order of [sorted] and of group keys. *)
Definition str_le (a b : string) : Prop := String.leb a b = true.
#[global] Instance str_le_dec : RelDecision str_le :=
  fun a b => decide (String.leb a b = true).

Section Dashboard.
Context {N : Numeric}.

Inductive value :=
  | VNone                       (* None *)
  | VNaT                        (* pd.NaT *)
  | VFloat (x : num)            (* a float64, NaN included *)
  | VStr (s : string)
  | VTimestamp (t : timestamp)
  | VDate (d : Z).              (* datetime.date, as its ordinal *)

Record DataFrame := { columns : list string; rows : list (gmap string value) }.

Definition cell (r : gmap string value) (c : string) : value :=
    default VNone (r !! c).

Definition column (c : string) (df : DataFrame) : list value :=
    (fun r => cell r c) <$> rows df.

Definition has_column (c : string) (df : DataFrame) : bool :=
    bool_decide (c ∈ columns df).

(** [pd.isna] *)
Definition isna (v : value) : bool :=
    match v with
    | VNone | VNaT => true
    | VFloat x => nisnan x
    | _ => false
    end.

(** Labels after [df[c] = ...]: a new label goes last. *)
Definition with_column (c : string) (cols : list string) : list string :=
    if bool_decide (c ∈ cols) then cols else cols ++ [c].

(** [df[c] = g(row)] *)
Definition assign (c : string) (g : gmap string value -> value) (df : DataFrame)
    : DataFrame :=
    {| columns := with_column c (columns df);
       rows := (fun r => <[c := g r]> r) <$> rows df |}.

(** [df[c] = series], cell by cell. *)
Definition assign_series (c : string) (vs : list value) (df : DataFrame)
    : DataFrame :=
    {| columns := with_column c (columns df);
       rows := zip_with (fun r v => <[c := v]> r) (rows df) vs |}.

(** [f[mask]] for a mask computed row by row. *)
Definition select (p : gmap string value -> bool) (f : DataFrame) : DataFrame :=
    {| columns := columns f; rows := List.filter p (rows f) |}.

(** [.fillna(0.0)] on a float *)
Definition fillna0 (x : num) : num := if nisnan x then nzero else x.

(** ** What the libraries decide *)

(** [str(x)] of a cell that is neither text nor null. *)
Variable repr : value -> string.
(** [re.compile(pat)] and, on the compiled pattern, [.search(s) is not
    None], as [Series.str.contains(pat)] runs them with its default
    [regex=True]: the matcher of a pattern, or [None] where [re] raises
    [re.error]. *)
Variable regex : string -> option (string -> bool).
(** [pd.to_numeric(_, errors="coerce")] on one cell; NaN where it fails. *)
Variable to_numeric : value -> num.
(** [pd.to_datetime(_, errors="coerce")] on a column; [None] is NaT. *)
Variable to_datetime : list value -> list (option timestamp).
(** The indexer [sort_values(by, ascending=False)] computes from the key
    column with the default [kind] ("quicksort"): position [i] of the
    result holds the input row numbered [argsort_desc keys !! i]. *)
Variable argsort_desc : list num -> list nat.

(** ** load_data *)

(** One cell under [.astype(str)]. *)
Definition astype_str (v : value) : string :=
      match v with
      | VStr s => s
      | VNone => "None"
      | VNaT => "NaT"
      | VFloat x => if nisnan x then "nan" else repr v
      | _ => repr v
      end.

(** [df[c] = pd.to_numeric(df.get(c), errors="coerce").fillna(0.0)];
        without the column [df.get] is [None], [to_numeric] gives a bare
        float, and [.fillna] raises AttributeError. *)
Definition coerce_numeric (c : string) (df : DataFrame) : outcome DataFrame :=
      if has_column c df
      then Done (assign c (fun r => VFloat (fillna0 (to_numeric (cell r c)))) df)
      else Raised.

Definition timestamp_cell (p : option timestamp) : value :=
      match p with Some t => VTimestamp t | None => VNaT end.

(** [.dt.date] on one cell *)
Definition dt_date (v : value) : value :=
      match v with VTimestamp t => VDate (ts_date t) | _ => VNaT end.

(** Lines 24-26.  Without a [period] column the column becomes all
        [None], every row is dropped, and [.dt] raises on the object
        column. *)
Definition parse_period (df : DataFrame) : outcome DataFrame :=
      if has_column "period" df then
        let df1 := assign_series "period"
                     (timestamp_cell <$> to_datetime (column "period" df)) df in
        let df2 := select (fun r => negb (isna (cell r "period"))) df1 in
        Done (assign "period_date" (fun r => dt_date (cell r "period")) df2)
      else Raised.

(** The loader's fixed list: label and sentinel. *)
Definition categoricals : list (string * string) :=
      [ ("distributor", "(sem distribuidora)");
        ("artist", "(sem artista)");
        ("track_title", "(sem faixa)");
        ("release_title", "(sem release)");
        ("store", "(sem plataforma)");
        ("country", "(sem pa" ++ String "237"%char "s)");
        ("currency", "(sem moeda)");
        ("classification", "incerto") ].

(** [.astype(str).replace({"nan": nan, "None": nan}).fillna(fill)] on
        one cell. *)
Definition fill_text (fill : string) (v : value) : string :=
      let s := astype_str v in
      if String.eqb s "nan" || String.eqb s "None" then fill else s.

Definition fill_categorical (df : DataFrame) (cf : string * string)
      : DataFrame :=
      if has_column cf.1 df
      then assign cf.1 (fun r => VStr (fill_text cf.2 (cell r cf.1))) df
      else assign cf.1 (fun _ => VStr cf.2) df.

Definition load_data (src : option DataFrame) : outcome DataFrame :=
      match src with
      | None => Halted
      | Some df =>
          df ← coerce_numeric "net_royalty" df;
          df ← coerce_numeric "units" df;
          df ← parse_period df;
          Done (foldl fill_categorical df categoricals)
      end.


(** ** Sidebar *)

(** What [st.date_input] hands back: one date, or a tuple of dates. *)
Inductive date_value := OneDate (d : Z) | Dates (ds : list Z).

(** The widgets' values in one run of the script. *)
Record sidebar := {
  period_pick : date_value;
  dist_pick : list string;
  class_pick : list string;
  store_pick : list string;
  country_pick : list string;
  search_text : string;
  rev_input : num;
  units_input : num
}.

Definition dates (vs : list value) : list Z :=
  omap (fun v => match v with VDate d => Some d | _ => None end) vs.

(** [Series.min()] of a column of dates: nulls are skipped, and an empty
    column gives NaN, here [None]. *)
Definition series_min (vs : list value) : option Z :=
  match dates vs with
  | [] => None
  | d :: ds => Some (foldl Z.min d ds)
  end.

Definition series_max (vs : list value) : option Z :=
  match dates vs with
  | [] => None
  | d :: ds => Some (foldl Z.max d ds)
  end.

(** [st.sidebar.date_input(_, value=(dmin, dmax), min_value=dmin,
    max_value=dmax)]: Streamlit turns each of them into a date and raises
    StreamlitAPIException on anything else, NaN included. *)
Definition date_input (dmin dmax : option Z) (picked : date_value)
  : outcome date_value :=
  match dmin, dmax with
  | Some _, Some _ => Done picked
  | _, _ => Raised
  end.

(** Lines 62-65. *)
Definition date_bounds (dmin dmax : Z) (date_range : date_value) : Z * Z :=
  match date_range with
  | Dates [a; b] => (a, b)
  | _ => (dmin, dmax)
  end.

(** The names the filter block reads. *)
Record filters := {
  start_date : Z;
  end_date : Z;
  sel_dist : list string;
  sel_class : list string;
  sel_store : list string;
  sel_country : list string;
  search : string;
  min_rev : num;
  min_units : num
}.

(** Lines 62-80. *)
Definition read_sidebar (dmin dmax : Z) (date_range : date_value) (ui : sidebar)
  : filters :=
  {| start_date := (date_bounds dmin dmax date_range).1;
     end_date := (date_bounds dmin dmax date_range).2;
     sel_dist := dist_pick ui;
     sel_class := class_pick ui;
     sel_store := store_pick ui;
     sel_country := country_pick ui;
     search := Text.lower (Text.strip (search_text ui));
     min_rev := rev_input ui;
     min_units := units_input ui |}.

(** ** The filter block *)

Definition date_in (lo hi : Z) (v : value) : bool :=
  match v with
  | VDate d => (lo <=? d)%Z && (d <=? hi)%Z
  | _ => false
  end.

(** Line 87. *)
Definition date_filter (lo hi : Z) (f : DataFrame) : DataFrame :=
  select (fun r => date_in lo hi (cell r "period_date")) f.

(** One cell under [.isin(sel)]. *)
Definition isin (sel : list string) (v : value) : bool :=
  match v with
  | VStr s => bool_decide (s ∈ sel)
  | _ => false
  end.

(** [if sel: f = f[f[c].isin(sel)]] *)
Definition isin_filter (c : string) (sel : list string) (f : DataFrame)
  : DataFrame :=
  match sel with
  | [] => f
  | _ :: _ => select (fun r => isin sel (cell r c)) f
  end.

Definition search_columns : list string :=
  ["track_title"; "release_title"; "artist"; "isrc"; "upc"].

(** The mask of lines 100-103 at one row, over the columns that exist. *)
Definition search_hit (m : string -> bool) (cols : list string)
  (r : gmap string value) : bool :=
  existsb (fun c => m (Text.lower (astype_str (cell r c)))) cols.

(** Lines 98-104.  With none of the five columns the mask is still the
    bare [False] and [f[False]] is a KeyError; with one of them
    [str.contains] compiles the text as a regular expression, and
    [re.error] comes up on a text that is none. *)
Definition search_filter (pat : string) (f : DataFrame) : outcome DataFrame :=
  match pat with
  | EmptyString => Done f
  | String _ _ =>
      match List.filter (fun c => has_column c f) search_columns with
      | [] => Raised
      | cols =>
          match regex pat with
          | None => Raised
          | Some m => Done (select (search_hit m cols) f)
          end
      end
  end.

(** One cell under [>= t]. *)
Definition ge_cell (t : num) (v : value) : bool :=
  match v with
  | VFloat x => nleb t x
  | _ => false
  end.

(** [if t > 0: f = f[f[c] >= t]] *)
Definition min_filter (c : string) (t : num) (f : DataFrame) : DataFrame :=
  if nltb nzero t then select (fun r => ge_cell t (cell r c)) f else f.

(** Lines 85-109. *)
Definition apply_filters (df : DataFrame) (p : filters) : outcome DataFrame :=
  let f := df in
  let f := date_filter (start_date p) (end_date p) f in
  let f := isin_filter "distributor" (sel_dist p) f in
  let f := isin_filter "classification" (sel_class p) f in
  let f := isin_filter "store" (sel_store p) f in
  let f := isin_filter "country" (sel_country p) f in
  f ← search_filter (search p) f;
  let f := min_filter "net_royalty" (min_rev p) f in
  let f := min_filter "units" (min_units p) f in
  Done f.

(** ** Aggregations *)

(** A float cell as [Series.sum()] takes it: a null counts as zero. *)
Definition num_cell (v : value) : num :=
  match v with
  | VFloat x => if nisnan x then nzero else x
  | _ => nzero
  end.

(** [Series.sum()]: the cells added from the first to the last. *)
Definition series_sum (xs : list num) : num := foldl nadd nzero xs.

Definition column_sum (c : string) (rs : list (gmap string value)) : num :=
  series_sum ((fun r => num_cell (cell r c)) <$> rs).

(** Line 114. *)
Definition total_rev (f : DataFrame) : num := column_sum "net_royalty" (rows f).

(** Line 115. *)
Definition total_units (f : DataFrame) : num := column_sum "units" (rows f).

(** A group key: the text of the cell; [groupby] drops a row whose key is
    null.  After [load_data] every key column holds text. *)
Definition key_of (c : string) (r : gmap string value) : option string :=
  match cell r c with
  | VStr s => Some s
  | _ => None
  end.

(** Line 116: [nunique()]. *)
Definition n_tracks (f : DataFrame) : nat :=
  length (remove_dups (omap (key_of "track_title") (rows f))).

(** The keys of [groupby(c)]: each once, in ascending order. *)
Definition group_keys (c : string) (rs : list (gmap string value)) : list string :=
  merge_sort str_le (remove_dups (omap (key_of c) rs)).

Definition in_group (c k : string) (r : gmap string value) : bool :=
  bool_decide (key_of c r = Some k).

(** The rows of group [k], in the order of the frame. *)
Definition group_rows (c k : string) (rs : list (gmap string value))
  : list (gmap string value) :=
  List.filter (in_group c k) rs.

(** A row of [groupby(c)[["net_royalty", "units"]].sum()]. *)
Record group_total := { g_key : string; g_net_royalty : num; g_units : num }.

Definition group_sums (c : string) (rs : list (gmap string value))
  : list group_total :=
  (fun k => {| g_key := k;
               g_net_royalty := column_sum "net_royalty" (group_rows c k rs);
               g_units := column_sum "units" (group_rows c k rs) |})
    <$> group_keys c rs.

(** [.sort_values(key, ascending=False)]: the rows taken in the order the
    indexer gives. *)
Definition sort_values_desc {A : Type} (key : A -> num) (l : list A) : list A :=
  omap (fun i => l !! i) (argsort_desc (key <$> l)).

(** Lines 139, 144, 151, 156. *)
Definition by_dist (f : DataFrame) : list group_total :=
  sort_values_desc g_net_royalty (group_sums "distributor" (rows f)).

Definition by_class (f : DataFrame) : list group_total :=
  sort_values_desc g_net_royalty (group_sums "classification" (rows f)).

Definition by_store (f : DataFrame) : list group_total :=
  take 20 (sort_values_desc g_net_royalty (group_sums "store" (rows f))).

Definition by_country (f : DataFrame) : list group_total :=
  take 20 (sort_values_desc g_net_royalty (group_sums "country" (rows f))).

(** A row of [top_tracks]. *)
Record track_row := {
  t_track_title : string;
  t_revenue : num;
  t_units : num;
  t_distributor : string
}.

(** [sorted(set(s))] on the text of a group's [distributor] cells. *)
Definition sorted_set (rs : list (gmap string value)) : list string :=
  merge_sort str_le (remove_dups (omap (key_of "distributor") rs)).

(** The [.agg(...)] of lines 163-165, before sorting. *)
Definition track_groups (rs : list (gmap string value)) : list track_row :=
  (fun k => let g := group_rows "track_title" k rs in
            {| t_track_title := k;
               t_revenue := column_sum "net_royalty" g;
               t_units := column_sum "units" g;
               t_distributor := Text.join ", " (sorted_set g) |})
    <$> group_keys "track_title" rs.

(** Lines 162-168. *)
Definition top_tracks (f : DataFrame) : list track_row :=
  take 30 (sort_values_desc t_revenue (track_groups (rows f))).

(** ** The script, top to bottom *)

(** The filtered frame of one run: lines 46-109. *)
Definition filtered (src : option DataFrame) (ui : sidebar) : outcome DataFrame :=
  df ← load_data src;
  let dmin := series_min (column "period_date" df) in
  let dmax := series_max (column "period_date" df) in
  date_range ← date_input dmin dmax (period_pick ui);
  match dmin, dmax with
  | Some lo, Some hi => apply_filters df (read_sidebar lo hi date_range ui)
  | _, _ => Raised
  end.

(** ** Vocabulary of the properties *)

(** [f] has the labels of [df] and some of its rows, in their order. *)
Definition narrows (f df : DataFrame) : Prop :=
  columns f = columns df /\ rows f `sublist_of` rows df.

(** The cell is a text that the selection lists. *)
Definition member_of (sel : list string) (v : value) : Prop :=
  exists s, v = VStr s /\ s ∈ sel.

(** Descending order with NaN last: [b] may follow [a]. *)
Definition before (a b : num) : bool := nisnan b || nleb b a.

(** What numpy promises of an indexer whatever the [kind]: it lists every
    position once, and the keys read along it descend. *)
Definition indexes (srt : list num -> list nat) : Prop :=
  forall ks, srt ks ≡ₚ seq 0 (length ks).

Definition descends (srt : list num -> list nat) : Prop :=
  forall ks, Sorted (fun a b => before a b = true) (omap (fun i => ks !! i) (srt ks)).

(** Two sorts that keep both promises.  Each orders the pairs of a
    position and its key by key alone; the second reads the column from
    its last row to its first. *)
Definition pair_before (x y : nat * num) : Prop := before x.2 y.2 = true.
#[global] Instance pair_before_dec : RelDecision pair_before :=
  fun x y => decide (before x.2 y.2 = true).

Definition argsort_forward (ks : list num) : list nat :=
  (merge_sort pair_before (zip (seq 0 (length ks)) ks)).*1.

Definition argsort_backward (ks : list num) : list nat :=
  (merge_sort pair_before (reverse (zip (seq 0 (length ks)) ks))).*1.

(** Rows [a] and [b] of [l] with equal keys keep their order in [l']. *)
Definition ties_keep_order {A : Type} (key : A -> num) (l l' : list A) : Prop :=
  forall i j a b, i < j -> l !! i = Some a -> l !! j = Some b ->
    key a = key b ->
    exists i' j', i' < j' /\ l' !! i' = Some a /\ l' !! j' = Some b.

(** Sums that do not round.  [inj] reads a whole number as a number of
    the column, and within the bound [B] the addition of the column adds
    these exactly. *)
Definition exact_window (inj : Z -> num) (B : Z) : Prop :=
  inj 0%Z = nzero /\
  forall a b : Z, (Z.abs a <= B)%Z -> (Z.abs b <= B)%Z -> (Z.abs (a + b) <= B)%Z ->
    nadd (inj a) (inj b) = inj (a + b)%Z.

(** The numbers [Series.sum()] adds in column [c]. *)
Definition amounts (c : string) (rs : list (gmap string value)) : list num :=
  (fun r => num_cell (cell r c)) <$> rs.

(** Every number is a whole amount, [val] its value, and the absolute
    values add up to at most [B]. *)
Definition whole_amounts (inj : Z -> num) (val : num -> Z) (B : Z)
  (xs : list num) : Prop :=
  Forall (fun x => inj (val x) = x) xs /\ (abs_sum (val <$> xs) <= B)%Z.

(** The search as the specification words it: the typed text, found as it
    stands in the lower-cased cell. *)
Definition spec_search_filter (s : string) (f : DataFrame) : DataFrame :=
  match s with
  | EmptyString => f
  | String _ _ =>
      select (fun r =>
                existsb (fun c => Text.contains (Text.lower (astype_str (cell r c)))
                                    (Text.lower s))
                  (List.filter (fun c => has_column c f) search_columns)) f
  end.

(** The categorical fill as the specification words it: null, empty and
    the texts of a null give the sentinel, anything else its trimmed text. *)
Definition spec_fill_text (fill : string) (v : value) : string :=
  let s := astype_str v in
  if isna v || String.eqb s "" || String.eqb s "nan" || String.eqb s "None"
  then fill else Text.strip s.

End Dashboard.

(** ** The rest of the page

    The masks of the filter block read one row at a time, the choices
    and defaults of the sidebar, the month column of line 131, the
    timeline of line 132 and the frame the export of line 174 reads. *)

Section Page.
Context {N : Numeric}.
Variable repr : value -> string.
Variable regex : string -> option (string -> bool).
Variable to_numeric : value -> num.
Variable to_datetime : list value -> list (option timestamp).
Variable argsort_desc : list num -> list nat.
(** [Timestamp.strftime("%Y-%m")] *)
Variable strftime_ym : timestamp -> string.
(** [int(x)] on a number of the column: its whole part, or [None] where
    Python raises (OverflowError on an infinity, ValueError on NaN). *)
Variable to_int : num -> option Z.

(** The mask of [if sel: f = f[f[c].isin(sel)]] at one row. *)
Definition sel_ok (c : string) (sel : list string) (r : gmap string value) : bool :=
  match sel with
  | [] => true
  | _ :: _ => isin sel (cell r c)
  end.

(** The mask of [if t > 0: f = f[f[c] >= t]] at one row. *)
Definition min_ok (c : string) (t : num) (r : gmap string value) : bool :=
  if nltb nzero t then ge_cell t (cell r c) else true.

(** The mask of lines 98-104 at one row, for a search that compiles. *)
Definition search_ok (pat : string) (cols : list string) (r : gmap string value)
  : bool :=
  match pat with
  | EmptyString => true
  | String _ _ =>
      match regex pat with
      | Some m => search_hit repr m cols r
      | None => false
      end
  end.

(** The searched columns that the frame has. *)
Definition searched (f : DataFrame) : list string :=
  List.filter (fun c => has_column c f) search_columns.

(** Lines 87-109 at one row: every mask at once. *)
Definition passes (p : filters) (cols : list string) (r : gmap string value) : bool :=
  date_in (start_date p) (end_date p) (cell r "period_date")
  && sel_ok "distributor" (sel_dist p) r
  && sel_ok "classification" (sel_class p) r
  && sel_ok "store" (sel_store p) r
  && sel_ok "country" (sel_country p) r
  && search_ok (search p) cols r
  && min_ok "net_royalty" (min_rev p) r
  && min_ok "units" (min_units p) r.

(** [sorted(df[c].unique().tolist())], the choices of a multiselect
    (lines 68-71).  The four columns hold text in every row of the loaded
    frame, and [sorted] orders text by code point. *)
Definition options (c : string) (df : DataFrame) : list string :=
  merge_sort str_le (remove_dups (omap (key_of c) (rows df))).

(** The sidebar as it comes up (lines 59, 73-80): the whole period, every
    distributor and classification ticked, no store, no country, no
    search, both minimums at zero. *)
Definition default_sidebar (df : DataFrame) (dmin dmax : Z) : sidebar :=
  {| period_pick := Dates [dmin; dmax];
     dist_pick := options "distributor" df;
     class_pick := options "classification" df;
     store_pick := [];
     country_pick := [];
     search_text := "";
     rev_input := nzero;
     units_input := nzero |}.

(** ** The monthly timeline and the export *)

(** One cell of [pd.to_datetime(f["period"]).dt.strftime("%Y-%m")] on a
    datetime column: the month of a timestamp, NaN for NaT. *)
Definition month_cell (v : value) : value :=
  match v with
  | VTimestamp t => VStr (strftime_ym t)
  | _ => VNaT
  end.

Definition is_datetime_cell (v : value) : bool :=
  match v with
  | VTimestamp _ | VNaT => true
  | _ => false
  end.

(** Line 131.  The column [period] of the filtered frame is a datetime
    column, on which [pd.to_datetime] is the identity; a [period] of
    another kind is not covered, and without the column [f["period"]]
    is a KeyError.  From here on [f] carries [period_ym]: the tables
    below and the export of line 174 read the frame this returns. *)
Definition add_period_ym (f : DataFrame) : outcome DataFrame :=
  if has_column "period" f then
    if forallb (fun r => is_datetime_cell (cell r "period")) (rows f)
    then Done (assign "period_ym" (fun r => month_cell (cell r "period")) f)
    else NotModelled
  else Raised.

(** The order of [sort_index] on a text index. *)
Definition key_le (a b : string * num) : Prop := str_le a.1 b.1.
#[global] Instance key_le_dec : RelDecision key_le :=
  fun a b => decide (str_le a.1 b.1).

(** Line 132: [f.groupby("period_ym")["net_royalty"].sum().sort_index()]. *)
Definition timeline (f : DataFrame) : outcome (list (string * num)) :=
  g ← add_period_ym f;
  Done (merge_sort key_le
          ((fun k => (k, column_sum "net_royalty" (group_rows "period_ym" k (rows g))))
             <$> group_keys "period_ym" (rows g))).

(** The month a row falls in. *)
Definition month_of (r : gmap string value) : option string :=
  match cell r "period" with
  | VTimestamp t => Some (strftime_ym t)
  | _ => None
  end.

(** The rows of a month, in the order of the frame. *)
Definition month_rows (k : string) (rs : list (gmap string value))
  : list (gmap string value) :=
  List.filter (fun r => bool_decide (month_of r = Some k)) rs.

(** ** The page, top to bottom *)

(** What one run puts on the page and into the export. *)
Record view := {
  v_total_rev : num;
  v_total_units : num;
  v_units_shown : Z;
  v_n_tracks : nat;
  v_timeline : list (string * num);
  v_by_dist : list group_total;
  v_by_class : list group_total;
  v_by_store : list group_total;
  v_by_country : list group_total;
  v_top_tracks : list track_row;
  v_export : DataFrame
}.

(** Lines 114-175 on the filtered frame.  Line 120 shows
    [int(total_units)], and [int] raises on a total that is infinite or
    NaN.  Line 131 writes [period_ym] into the frame, so the timeline,
    the tables below it and the export of line 174 read the frame with
    that column. *)
Definition render (f : DataFrame) : outcome view :=
  match to_int (total_units f) with
  | None => Raised
  | Some shown =>
      g ← add_period_ym f;
      tl ← timeline f;
      Done {| v_total_rev := total_rev f;
              v_total_units := total_units f;
              v_units_shown := shown;
              v_n_tracks := n_tracks f;
              v_timeline := tl;
              v_by_dist := by_dist argsort_desc g;
              v_by_class := by_class argsort_desc g;
              v_by_store := by_store argsort_desc g;
              v_by_country := by_country argsort_desc g;
              v_top_tracks := top_tracks argsort_desc g;
              v_export := g |}
  end.

(** One run of the script. *)
Definition dashboard (src : option DataFrame) (ui : sidebar) : outcome view :=
  f ← filtered repr regex to_numeric to_datetime src ui;
  render f.

(** What a row of a grouped table has to be: a key some row holds, and
    the two sums over the rows with that key. *)
Definition group_of (c : string) (rs : list (gmap string value)) (g : group_total)
  : Prop :=
  (exists r, r ∈ rs /\ key_of c r = Some (g_key g)) /\
  g_net_royalty g = column_sum "net_royalty" (group_rows c (g_key g) rs) /\
  g_units g = column_sum "units" (group_rows c (g_key g) rs).
End Page.

(** ** Sample tables

    Small sources for the closed statements at the end.  Their cells are
    floats, texts and timestamps, so the three library functions below
    only ever meet what they pass through: a float is its own number, a
    timestamp its own date, a text is no date, and [str] is asked of
    nothing. *)

Definition sample_repr {N : Numeric} (v : value) : string := "?".

Definition sample_to_datetime {N : Numeric} (vs : list value)
  : list (option timestamp) :=
  (fun v => match v with VTimestamp t => Some t | _ => None end) <$> vs.

(** The sample engine: a text of ordinary characters and dots compiles
    to its matcher; [None] is [re.error], which is what an unclosed "("
    gets.  The closed statements ask it of no other metacharacter. *)
Definition sample_regex (pat : string) : option (string -> bool) :=
  Re.search_tokens <$> Re.compile pat.

Definition float_to_numeric (v : @value binary64) : float :=
  match v with VFloat x => x | _ => nan end.

(** One row of the source table. *)
Definition fact {N : Numeric} (period distributor track_title : value)
  (net_royalty units : num) : gmap string value :=
  <["period" := period]> (<["distributor" := distributor]>
    (<["track_title" := track_title]> (<["net_royalty" := VFloat net_royalty]>
      (<["units" := VFloat units]> ∅)))).

Definition fact_columns : list string :=
  ["period"; "distributor"; "track_title"; "net_royalty"; "units"].

Definition day {N : Numeric} (d : Z) : value :=
  VTimestamp {| ts_date := d; ts_nanos := 0 |}.

Definition f64 (x : float) : @value binary64 := VFloat (N:=binary64) x.

Definition total64 (k : string) (r u : float) : @group_total binary64 :=
  @Build_group_total binary64 k r u.

Definition track64 (k : string) (r u : float) (d : string) : @track_row binary64 :=
  @Build_track_row binary64 k r u d.

(** A sidebar left as it comes up, but for the date pick and the search. *)
Definition no_filters {N : Numeric} (pick : date_value) (text : string) : sidebar :=
  {| period_pick := pick; dist_pick := []; class_pick := []; store_pick := [];
     country_pick := []; search_text := text; rev_input := nzero;
     units_input := nzero |}.

(** Whether a piece of the script ends with a frame, and that frame. *)
Definition is_done {A : Type} (o : outcome A) : bool :=
  match o with Done _ => true | _ => false end.

Definition frame_of {N : Numeric} (o : outcome DataFrame) : DataFrame :=
  match o with Done f => f | _ => {| columns := []; rows := [] |} end.

Definition load64 (src : @DataFrame binary64) : outcome DataFrame :=
  load_data (N:=binary64) sample_repr float_to_numeric sample_to_datetime (Some src).

Definition run64 (src : @DataFrame binary64) (ui : @sidebar binary64)
  : outcome DataFrame :=
  filtered (N:=binary64) sample_repr sample_regex float_to_numeric sample_to_datetime
    (Some src) ui.

(** Two large amounts that cancel, around a small one. *)
Definition rounding_source : @DataFrame binary64 :=
  {| columns := fact_columns;
     rows := [ fact (N:=binary64) (day 738000) (VStr "A") (VStr "t1") 1e16%float 1%float;
               fact (N:=binary64) (day 738001) (VStr "B") (VStr "t2") 1%float 1%float;
               fact (N:=binary64) (day 738002) (VStr "A") (VStr "t1") (-1e16)%float 1%float ] |}.

(** An artist padded with blanks, and an empty one. *)
Definition padded_source : @DataFrame binary64 :=
  {| columns := fact_columns ++ ["artist"];
     rows := [ <["artist" := VStr " a "]>
                 (fact (N:=binary64) (day 738000) (VStr "A") (VStr "t1") 1%float 1%float);
               <["artist" := VStr ""]>
                 (fact (N:=binary64) (day 738001) (VStr "B") (VStr "t2") 2%float 1%float) ] |}.

Definition dotted_source : @DataFrame binary64 :=
  {| columns := fact_columns;
     rows := [ fact (N:=binary64) (day 738000) (VStr "A") (VStr "abc") 1%float 1%float ] |}.

(** Two distributors with the same revenue. *)
Definition tie_source : @DataFrame binary64 :=
  {| columns := fact_columns;
     rows := [ fact (N:=binary64) (day 738000) (VStr "A") (VStr "t1") 5%float 1%float;
               fact (N:=binary64) (day 738001) (VStr "B") (VStr "t2") 5%float 1%float ] |}.

(** One title under two distributors, and another title. *)
Definition duet_source : @DataFrame binary64 :=
  {| columns := fact_columns;
     rows := [ fact (N:=binary64) (day 738000) (VStr "B") (VStr "song") 10%float 3%float;
               fact (N:=binary64) (day 738031) (VStr "A") (VStr "song") 20%float 4%float;
               fact (N:=binary64) (day 738031) (VStr "A") (VStr "song") 1%float 1%float;
               fact (N:=binary64) (day 738040) (VStr "C") (VStr "other") 50%float 1%float ] |}.

(** A row whose units are infinite. *)
Definition endless_source : @DataFrame binary64 :=
  {| columns := fact_columns;
     rows := [ fact (N:=binary64) (day 738000) (VStr "A") (VStr "t1") 1%float infinity ] |}.

(** A period that is no date. *)
Definition unparsed_source : @DataFrame binary64 :=
  {| columns := fact_columns;
     rows := [ fact (N:=binary64) (VStr "n/a") (VStr "A") (VStr "t1") 1%float 1%float ] |}.

(** ** More sample values *)

(** The month of a timestamp as [strftime("%Y-%m")] prints it, for the
    years of a [Timestamp]: the Gregorian year and month of the ordinal,
    the year on four digits. *)
Definition digit (n : Z) : ascii := ascii_of_N (Z.to_N (48 + n mod 10)).

Definition sample_strftime_ym (t : timestamp) : string :=
  let z := (ts_date t + 305)%Z in
  let era := (z / 146097)%Z in
  let doe := (z - era * 146097)%Z in
  let yoe := ((doe - doe / 1460 + doe / 36524 - doe / 146096) / 365)%Z in
  let doy := (doe - (365 * yoe + yoe / 4 - yoe / 100))%Z in
  let mp := ((5 * doy + 2) / 153)%Z in
  let m := (if mp <? 10 then mp + 3 else mp - 9)%Z in
  let y := (yoe + era * 400 + (if m <=? 2 then 1 else 0))%Z in
  String (digit (y / 1000)) (String (digit (y / 100)) (String (digit (y / 10))
    (String (digit y) (String "-" (String (digit (m / 10))
      (String (digit m) "")))))).

Definition duet_loaded : @DataFrame binary64 := frame_of (load64 duet_source).

(** A sidebar with every kind of filter in use. *)
Definition busy_sidebar : @sidebar binary64 :=
  @Build_sidebar binary64 (Dates [738031; 738040]%Z) ["A"] [] [] [] " SO "
    5%float 0%float.

Definition busy_filters : @filters binary64 :=
  read_sidebar 738000 738040 (Dates [738031; 738040]%Z) busy_sidebar.

(** A period picked end first. *)
Definition inverted_filters : @filters binary64 :=
  read_sidebar 738000 738040 (Dates [738040; 738000]%Z)
    (no_filters (Dates [738040; 738000]%Z) "").

Definition duet_page : @DataFrame binary64 :=
  frame_of (run64 duet_source (no_filters (OneDate 738000) "")).

(** The float of a whole number, and the whole part of a float. *)
Definition Z2f (z : Z) : float :=
  if (z <? 0)%Z then PrimFloat.opp (PrimFloat.of_uint63 (Uint63.of_Z (- z)))
  else PrimFloat.of_uint63 (Uint63.of_Z z).

Definition f2Z (x : float) : Z := default 0%Z (float_to_int x).

Fixpoint whole_from (n : nat) (z : Z) : list Z :=
  match n with
  | O => []
  | S n' => z :: whole_from n' (z + 1)
  end.

(** The whole numbers from [- B] to [B]. *)
Definition whole_range (B : Z) : list Z := whole_from (Z.to_nat (2 * B + 1)) (- B).

(** Every pair of that range whose sum stays in it adds as floats to the
    float of the sum. *)
Definition window_check (B : Z) : bool :=
  let r := whole_range B in
  forallb (fun a =>
    let fa := Z2f a in
    forallb (fun b =>
      (B <? Z.abs (a + b))%Z
      || PrimFloat.Leibniz.eqb (PrimFloat.add fa (Z2f b)) (Z2f (a + b))) r) r.

(** * Properties *)

Open Scope list_scope.

(** ** Lists and masks *)

Lemma filter_sublist {A : Type} (p : A -> bool) (l : list A) :
  List.filter p l `sublist_of` l.
Proof.
  induction l as [|x l IH]; simpl.
  - constructor.
  - destruct (p x); [by apply sublist_skip | by apply sublist_cons].
Qed.

Lemma elem_of_filter_bool {A : Type} (p : A -> bool) (l : list A) (x : A) :
  x ∈ List.filter p l <-> x ∈ l /\ p x = true.
Proof. rewrite !list_elem_of_In. apply filter_In. Qed.

Lemma filter_all {A : Type} (p : A -> bool) (l : list A) :
  Forall (fun x => p x = true) l -> List.filter p l = l.
Proof.
  induction 1 as [|x l Hx _ IH]; simpl; [done|]. by rewrite Hx, IH.
Qed.

(** ** binary64 around zero *)

Lemma float_nonneg_cases (t : float) :
  PrimFloat.leb 0 t = true ->
  PrimFloat.eqb t 0 = true \/ PrimFloat.ltb 0 t = true.
Proof.
  rewrite leb_spec, FloatAxioms.eqb_spec, ltb_spec.
  change (Prim2SF 0) with (S754_zero false).
  destruct (Prim2SF t) as [s|s| |s m e]; try destruct s; cbn; auto.
Qed.

Lemma float_zero_not_positive (t : float) :
  PrimFloat.eqb t 0 = true -> PrimFloat.ltb 0 t = false.
Proof.
  rewrite FloatAxioms.eqb_spec, ltb_spec.
  change (Prim2SF 0) with (S754_zero false).
  destruct (Prim2SF t) as [s|s| |s m e]; try destruct s; cbn; auto.
Qed.

(** ** Exact sums *)

Lemma abs_sum_nonneg (l : list Z) : (0 <= abs_sum l)%Z.
Proof. unfold abs_sum, zsum. induction l as [|z l IH]; cbn; lia. Qed.

Lemma zsum_abs_le (l : list Z) : (Z.abs (zsum l) <= abs_sum l)%Z.
Proof. unfold abs_sum, zsum. induction l as [|z l IH]; cbn in *; lia. Qed.

Lemma zsum_app (l k : list Z) : zsum (l ++ k) = (zsum l + zsum k)%Z.
Proof. unfold zsum. induction l as [|z l IH]; cbn; lia. Qed.

Lemma abs_sum_app (l k : list Z) : abs_sum (l ++ k) = (abs_sum l + abs_sum k)%Z.
Proof. unfold abs_sum. by rewrite fmap_app, zsum_app. Qed.

Lemma zsum_perm (l k : list Z) : l ≡ₚ k -> zsum l = zsum k.
Proof. unfold zsum. induction 1; cbn; lia. Qed.

Lemma abs_sum_perm (l k : list Z) : l ≡ₚ k -> abs_sum l = abs_sum k.
Proof. intros H. unfold abs_sum. apply zsum_perm. by apply fmap_Permutation. Qed.

Section Facts.
Context {N : Numeric}.
Variable repr : value -> string.
Variable regex : string -> option (string -> bool).
Variable to_numeric : value -> num.
Variable to_datetime : list value -> list (option timestamp).
Variable argsort_desc : list num -> list nat.
Variable strftime_ym : timestamp -> string.
Variable to_int : num -> option Z.

(** ** The filter block narrows *)

Lemma narrows_refl (f : DataFrame) : narrows f f.
Proof. by split. Qed.

Lemma narrows_trans (f g h : DataFrame) :
  narrows f g -> narrows g h -> narrows f h.
Proof.
  intros [Hc1 Hr1] [Hc2 Hr2]. split; [congruence|]. by etrans.
Qed.

Lemma select_narrows (p : gmap string value -> bool) (f : DataFrame) :
  narrows (select p f) f.
Proof. split; [done|]. apply filter_sublist. Qed.

Lemma date_filter_narrows (lo hi : Z) (f : DataFrame) :
  narrows (date_filter lo hi f) f.
Proof. apply select_narrows. Qed.

Lemma isin_filter_narrows (c : string) (sel : list string) (f : DataFrame) :
  narrows (isin_filter c sel f) f.
Proof.
  destruct sel; [apply narrows_refl | apply select_narrows].
Qed.

Lemma min_filter_narrows (c : string) (t : num) (f : DataFrame) :
  narrows (min_filter c t f) f.
Proof.
  unfold min_filter. destruct (nltb nzero t);
    [apply select_narrows | apply narrows_refl].
Qed.

Lemma plain_compiles (p : string) :
  Re.plain p = true -> Re.compile p = Some (Re.Lit <$> list_ascii_of_string p).
Proof.
  induction p as [|c p IH]; simpl; [done|].
  intros [Hc Hp]%andb_true_iff. apply negb_true_iff in Hc.
  destruct (Ascii.eqb c ".") eqn:Hdot.
  - apply Ascii.eqb_eq in Hdot. subst c. discriminate Hc.
  - rewrite Hc, (IH Hp). done.
Qed.

Lemma search_filter_cases (pat : string) (f : DataFrame) :
  match search_filter repr regex pat f with
  | Done g => narrows g f
  | Halted => False
  | Raised => pat <> "" /\
              (Forall (fun c => c ∉ columns f) search_columns \/ regex pat = None)
  | NotModelled => False
  end.
Proof.
  unfold search_filter. destruct pat as [|a pat]; [apply narrows_refl|].
  destruct (List.filter _ search_columns) as [|c0 cols] eqn:Hcols.
  - split; [done|]. left. apply Forall_forall. intros c Hc Hin.
    assert (c ∈ List.filter (fun c => has_column c f) search_columns) as Hc'.
    { apply elem_of_filter_bool. split; [done|]. by apply bool_decide_eq_true. }
    rewrite Hcols in Hc'. by apply elem_of_nil in Hc'.
  - destruct (regex (String a pat)) as [m|] eqn:Hre.
    + apply select_narrows.
    + split; [done|]. by right.
Qed.

Lemma apply_filters_cases (df : DataFrame) (p : filters) :
  match apply_filters repr regex df p with
  | Done f => narrows f df
  | Halted => False
  | Raised => search p <> "" /\
              (Forall (fun c => c ∉ columns df) search_columns \/
               regex (search p) = None)
  | NotModelled => False
  end.
Proof.
  unfold apply_filters.
  set (f4 := isin_filter "country" _ _).
  assert (narrows f4 df) as H4.
  { subst f4.
    eapply narrows_trans; [apply isin_filter_narrows|].
    eapply narrows_trans; [apply isin_filter_narrows|].
    eapply narrows_trans; [apply isin_filter_narrows|].
    eapply narrows_trans; [apply isin_filter_narrows|].
    apply date_filter_narrows. }
  pose proof (search_filter_cases (search p) f4) as Hs.
  destruct (search_filter repr regex (search p) f4) as [g| | |]; simpl; try done.
  - eapply narrows_trans; [apply min_filter_narrows|].
    eapply narrows_trans; [apply min_filter_narrows|].
    by eapply narrows_trans.
  - destruct Hs as [Hne [Hs|Hs]]; (split; [done|]); [left|by right].
    destruct H4 as [Hc _]. by rewrite <- Hc.
Qed.

Lemma apply_filters_narrows (df f : DataFrame) (p : filters) :
  apply_filters repr regex df p = Done f -> narrows f df.
Proof.
  intros H. pose proof (apply_filters_cases df p) as Hc. by rewrite H in Hc.
Qed.

(** C1.  For every loaded frame, every value of the filters and every
    search text, whatever the regular-expression engine makes of it: the
    filter block never halts the script, and it always comes to one of
    two ends.  Either it leaves a frame, and that frame has the labels of
    the loaded frame and a sub-sequence of its rows, so no more rows than
    it; or it raises, which happens only with a search typed, when none
    of the five searched columns exists or the text is no regular
    expression. *)
Theorem filter_block_subset (df : DataFrame) (p : filters) :
  match apply_filters repr regex df p with
  | Done f =>
      columns f = columns df /\
      rows f `sublist_of` rows df /\
      (forall r, r ∈ rows f -> r ∈ rows df) /\
      length (rows f) <= length (rows df)
  | Halted => False
  | Raised => search p <> "" /\
              (Forall (fun c => c ∉ columns df) search_columns \/
               regex (search p) = None)
  | NotModelled => False
  end.
Proof.
  pose proof (apply_filters_cases df p) as Hc.
  destruct (apply_filters repr regex df p) as [f| | |]; try done.
  destruct Hc as [Hcols Hrows].
  repeat split; [done|done| |by apply sublist_length].
  intros r Hin. by eapply elem_of_sublist.
Qed.

(** ** Multiselects *)

Lemma isin_member (sel : list string) (v : value) :
  isin sel v = true <-> member_of sel v.
Proof.
  unfold member_of. destruct v as [| |x|s|t|d]; simpl;
    try (split; [discriminate | by intros (s' & ? & _)]).
  rewrite bool_decide_eq_true. split.
  - intros Hin. by exists s.
  - intros (s' & [= ->] & Hin). done.
Qed.

(** C2.  On any column, and so on each of distributor, classification,
    store and country: an empty selection hands the frame back as it is;
    a selection with an entry keeps the rows, in order and as often as
    they occur, whose cell is a text listed in the selection, and no
    other. *)
Theorem multiselect_semantics (c : string) (sel : list string) (f : DataFrame) :
  isin_filter c [] f = f /\
  columns (isin_filter c sel f) = columns f /\
  (sel <> [] ->
   rows (isin_filter c sel f) = List.filter (fun r => isin sel (cell r c)) (rows f)) /\
  (forall v, isin sel v = true <-> member_of sel v) /\
  (forall r, r ∈ rows (isin_filter c sel f) <->
             r ∈ rows f /\ (sel = [] \/ member_of sel (cell r c))).
Proof.
  split; [done|]. split; [by destruct sel|].
  split; [by destruct sel|].
  split; [apply isin_member|].
  intros r. destruct sel as [|x xs]; simpl.
  - split; [by auto | by intros [? _]].
  - rewrite elem_of_filter_bool, isin_member. split.
    + intros [? ?]. auto.
    + intros [? [?|?]]; done.
Qed.

(** ** Numeric minimums *)

Lemma ge_cell_spec (t : num) (v : value) :
  ge_cell t v = true <-> exists x, v = VFloat x /\ nleb t x = true.
Proof.
  destruct v as [| |x|s|ts|d]; simpl;
    try (split; [discriminate | by intros (x' & ? & _)]).
  split; [by exists x | by intros (x' & [= ->] & ?)].
Qed.

Lemma min_filter_off (c : string) (t : num) (f : DataFrame) :
  nltb nzero t = false -> min_filter c t f = f.
Proof. unfold min_filter. by intros ->. Qed.

Lemma min_filter_on (c : string) (t : num) (f : DataFrame) :
  nltb nzero t = true ->
  min_filter c t f = select (fun r => ge_cell t (cell r c)) f.
Proof. unfold min_filter. by intros ->. Qed.

(** ** Search *)

Lemma match_here_prefix (p s : string) :
  Re.match_here (Re.Lit <$> list_ascii_of_string p) s = String.prefix p s.
Proof.
  revert s. induction p as [|a p IH]; intros [|b s]; simpl; try done.
  destruct (ascii_dec a b) as [->|Hne].
  - rewrite Ascii.eqb_refl. apply IH.
  - apply Ascii.eqb_neq in Hne. by rewrite Hne.
Qed.

Lemma search_tokens_contains (p s : string) :
  Re.search_tokens (Re.Lit <$> list_ascii_of_string p) s = Text.contains s p.
Proof.
  induction s as [|b s IH]; cbn [Re.search_tokens Text.contains];
    rewrite match_here_prefix; [done|]. by rewrite IH.
Qed.

(** On a pattern without metacharacters [re.search] is [in]. *)
Lemma plain_search (p s : string) :
  Re.plain p = true -> Re.search p s = Some (Text.contains s p).
Proof.
  intros Hp. unfold Re.search. rewrite (plain_compiles p Hp). simpl.
  by rewrite search_tokens_contains.
Qed.

Lemma search_filter_compiled (pat : string) (f : DataFrame) (m : string -> bool) :
  pat <> "" ->
  List.filter (fun c => has_column c f) search_columns <> [] ->
  regex pat = Some m ->
  search_filter repr regex pat f =
    Done (select (search_hit repr m
                    (List.filter (fun c => has_column c f) search_columns)) f).
Proof.
  intros Hs Hcols Hts. unfold search_filter.
  destruct pat as [|a pat']; [done|].
  destruct (List.filter _ search_columns) as [|c0 cols']; [done|].
  by rewrite Hts.
Qed.

Lemma search_filter_error (pat : string) (f : DataFrame) :
  pat <> "" -> regex pat = None -> search_filter repr regex pat f = Raised.
Proof.
  intros Hs Hre. unfold search_filter. destruct pat as [|a pat']; [done|].
  destruct (List.filter _ search_columns); [done|]. by rewrite Hre.
Qed.

(** The search as the code runs it, over any engine.  The block searches
    for the typed text stripped and lower-cased.  An empty search keeps
    the frame.  Any other is compiled as a regular expression: where that
    fails the script raises, and otherwise it keeps the rows where the
    expression is found in the lower-cased text of one of the five
    columns that exist. *)
Lemma search_filter_semantics (ui : sidebar) (lo hi : Z) (dr : date_value)
  (f : DataFrame) :
  let s := search (read_sidebar lo hi dr ui) in
  let cols := List.filter (fun c => has_column c f) search_columns in
  s = Text.lower (Text.strip (search_text ui)) /\
  (s = "" -> search_filter repr regex s f = Done f) /\
  (s <> "" -> cols <> [] -> forall m, regex s = Some m ->
     search_filter repr regex s f = Done (select (search_hit repr m cols) f)) /\
  (s <> "" -> regex s = None -> search_filter repr regex s f = Raised).
Proof.
  intros s cols. split; [done|]. split; [by intros ->|].
  split.
  - intros Hs Hcols m Hm. by apply search_filter_compiled.
  - apply search_filter_error.
Qed.

(** ** Cells under column assignment *)

Lemma cell_insert (c : string) (v : value) (r : gmap string value) :
  cell (<[c := v]> r) c = v.
Proof. unfold cell. by rewrite lookup_insert_eq. Qed.

Lemma cell_insert_ne (c c' : string) (v : value) (r : gmap string value) :
  c <> c' -> cell (<[c' := v]> r) c = cell r c.
Proof. intros Hne. unfold cell. by rewrite lookup_insert_ne. Qed.

Lemma elem_of_with_column (c c' : string) (cols : list string) :
  c ∈ with_column c' cols <-> c = c' \/ c ∈ cols.
Proof.
  unfold with_column. case_bool_decide as Hin.
  - split; [auto|]. intros [->|?]; done.
  - rewrite elem_of_app, list_elem_of_singleton. clear regex to_int; tauto.
Qed.

Lemma has_column_true (c : string) (df : DataFrame) :
  has_column c df = true <-> c ∈ columns df.
Proof. apply bool_decide_eq_true. Qed.

Lemma has_column_assign_ne (c c' : string) g (df : DataFrame) :
  c <> c' -> has_column c (assign c' g df) = has_column c df.
Proof.
  intros Hne. unfold has_column. apply bool_decide_ext. simpl.
  rewrite elem_of_with_column. clear regex to_int; tauto.
Qed.

(** [l] holds, cell [c] for cell [c], what [l0] holds. *)
Lemma assign_keeps (c c' : string) g (df : DataFrame) :
  c <> c' ->
  Forall2 (fun r0 r => cell r c = cell r0 c) (rows df) (rows (assign c' g df)).
Proof.
  intros Hne. simpl. induction (rows df) as [|r l IH]; simpl; constructor;
    [by apply cell_insert_ne | done].
Qed.

Lemma assign_sets (c : string) g (df : DataFrame) :
  Forall2 (fun r0 r => cell r c = g r0) (rows df) (rows (assign c g df)).
Proof.
  simpl. induction (rows df) as [|r l IH]; simpl; constructor;
    [apply cell_insert | done].
Qed.

Lemma Forall2_cells_trans (c : string) (P : value -> Prop)
  (l0 l1 l2 : list (gmap string value)) :
  Forall2 (fun r0 r => P (cell r c)) l0 l1 ->
  Forall2 (fun r0 r => cell r c = cell r0 c) l1 l2 ->
  Forall2 (fun r0 r => P (cell r c)) l0 l2.
Proof.
  intros H1 H2. revert l2 H2.
  induction H1 as [|r0 r1 l0 l1 Hr _ IH]; intros l2 H2; inversion H2; subst;
    constructor; [congruence | by apply IH].
Qed.

Lemma Forall2_keeps_trans (c : string) (l0 l1 l2 : list (gmap string value)) :
  Forall2 (fun r0 r => cell r c = cell r0 c) l0 l1 ->
  Forall2 (fun r0 r => cell r c = cell r0 c) l1 l2 ->
  Forall2 (fun r0 r => cell r c = cell r0 c) l0 l2.
Proof.
  intros H1 H2. revert l2 H2.
  induction H1 as [|r0 r1 l0 l1 Hr _ IH]; intros l2 H2; inversion H2; subst;
    constructor; [congruence | by apply IH].
Qed.

Lemma keeps_column (c : string) (df df' : DataFrame) :
  Forall2 (fun r0 r => cell r c = cell r0 c) (rows df) (rows df') ->
  column c df' = column c df.
Proof.
  unfold column. induction 1; simpl; [done|]. by f_equal.
Qed.

(** ** load_data, step by step *)

Lemma coerce_numeric_done (c' : string) (df df' : DataFrame) :
  coerce_numeric to_numeric c' df = Done df' ->
  df' = assign c' (fun r => VFloat (fillna0 (to_numeric (cell r c')))) df.
Proof.
  unfold coerce_numeric. destruct (has_column c' df); [|done]. by intros [= <-].
Qed.

(** A row that line 25 keeps came from a source row, its [period] set to a
    timestamp. *)
Lemma dropna_tracks (l : list (gmap string value)) (ps : list (option timestamp)) :
  exists kept, kept `sublist_of` l /\
    Forall2 (fun r0 r => exists t, r = <["period" := VTimestamp t]> r0) kept
      (List.filter (fun r => negb (isna (cell r "period")))
         (zip_with (fun r v => <["period" := v]> r) l (timestamp_cell <$> ps))).
Proof.
  revert ps. induction l as [|r l IH]; intros ps.
  - exists []. split; constructor.
  - destruct ps as [|p ps]; simpl.
    { exists []. split; [apply sublist_nil_l | constructor]. }
    destruct (IH ps) as (kept & Hsub & Hall).
    rewrite cell_insert. destruct p as [t|]; simpl.
    + exists (r :: kept). split; [by apply sublist_skip|].
      constructor; [by exists t | done].
    + exists kept. split; [by apply sublist_cons | done].
Qed.

Lemma dropna_all_nat (l : list (gmap string value)) (ps : list (option timestamp)) :
  Forall (fun p => p = None) ps ->
  List.filter (fun r => negb (isna (cell r "period")))
    (zip_with (fun r v => <["period" := v]> r) l (timestamp_cell <$> ps)) = [].
Proof.
  intros Hps. revert l. induction Hps as [|p ps -> _ IH]; intros [|r l]; simpl;
    try done.
  rewrite cell_insert. simpl. apply IH.
Qed.

Lemma parse_period_rows (df df' : DataFrame) :
  parse_period to_datetime df = Done df' ->
  exists kept, kept `sublist_of` rows df /\
    Forall2 (fun r0 r => exists t,
               r = <["period_date" := VDate (ts_date t)]>
                     (<["period" := VTimestamp t]> r0)) kept (rows df').
Proof.
  unfold parse_period. destruct (has_column "period" df); [|done].
  intros [= <-]. simpl.
  destruct (dropna_tracks (rows df) (to_datetime (column "period" df)))
    as (kept & Hsub & Hall).
  exists kept. split; [done|].
  clear Hsub.
  induction Hall as [|r0 r l0 l [t ->] _ IH]; simpl; constructor; [|done].
  exists t. by rewrite cell_insert.
Qed.

Lemma parse_period_columns (c : string) (df df' : DataFrame) :
  parse_period to_datetime df = Done df' ->
  c <> "period" -> c <> "period_date" ->
  has_column c df' = has_column c df.
Proof.
  unfold parse_period. destruct (has_column "period" df); [|done].
  intros [= <-] H1 H2. unfold has_column. apply bool_decide_ext. simpl.
  rewrite !elem_of_with_column. clear regex to_int; tauto.
Qed.

Lemma Forall2_compose {A B C : Type} (R : A -> B -> Prop) (S : B -> C -> Prop)
  (l0 : list A) (l1 : list B) (l2 : list C) :
  Forall2 R l0 l1 -> Forall2 S l1 l2 ->
  Forall2 (fun a c => exists b, R a b /\ S b c) l0 l2.
Proof.
  intros H1. revert l2. induction H1 as [|a b l0 l1 Hab _ IH]; intros l2 H2;
    inversion H2; subst; constructor; [by exists b | by apply IH].
Qed.

(** A sub-sequence on one side of a row-by-row relation has its
    counterpart on the other. *)
Lemma Forall2_sublist_back {A B : Type} (R : A -> B -> Prop)
  (l0 : list A) (l1 kept1 : list B) :
  Forall2 R l0 l1 -> kept1 `sublist_of` l1 ->
  exists kept0, kept0 `sublist_of` l0 /\ Forall2 R kept0 kept1.
Proof.
  intros H. revert kept1. induction H as [|a b l0 l1 Hab _ IH]; intros kept1 Hsub.
  - apply sublist_nil_r in Hsub as ->. exists []. split; constructor.
  - inversion Hsub as [|x k1 ? Hs|x k1 ? Hs]; subst.
    + destruct (IH _ Hs) as (k0 & Hk0 & HR).
      exists (a :: k0). split; [by apply sublist_skip | by constructor].
    + destruct (IH _ Hs) as (k0 & Hk0 & HR).
      exists k0. split; [by apply sublist_cons | done].
Qed.

Lemma fill_categorical_sets (c fill : string) (df : DataFrame) :
  Forall2 (fun r0 r => cell r c =
             VStr (if has_column c df then fill_text repr fill (cell r0 c) else fill))
    (rows df) (rows (fill_categorical repr df (c, fill))).
Proof.
  unfold fill_categorical. simpl. destruct (has_column c df); apply assign_sets.
Qed.

Lemma fill_categorical_keeps (c : string) (cf : string * string) (df : DataFrame) :
  c <> cf.1 ->
  Forall2 (fun r0 r => cell r c = cell r0 c)
    (rows df) (rows (fill_categorical repr df cf)) /\
  has_column c (fill_categorical repr df cf) = has_column c df.
Proof.
  intros Hne. unfold fill_categorical.
  destruct (has_column cf.1 df); split;
    by (apply assign_keeps || apply has_column_assign_ne).
Qed.

Lemma fill_categorical_has (cf : string * string) (df : DataFrame) :
  cf.1 ∈ columns (fill_categorical repr df cf).
Proof.
  unfold fill_categorical. destruct (has_column cf.1 df); simpl;
    apply elem_of_with_column; by left.
Qed.

(** The loop leaves alone a column it does not list. *)
Lemma fill_loop_keeps (c : string) (cfs : list (string * string)) (df : DataFrame) :
  c ∉ cfs.*1 ->
  Forall2 (fun r0 r => cell r c = cell r0 c)
    (rows df) (rows (foldl (fill_categorical repr) df cfs)) /\
  has_column c (foldl (fill_categorical repr) df cfs) = has_column c df.
Proof.
  revert df. induction cfs as [|cf cfs IH]; intros df Hnin; simpl.
  - split; [|done]. induction (rows df); by constructor.
  - apply not_elem_of_cons in Hnin as [Hne Hnin].
    destruct (fill_categorical_keeps c cf df Hne) as [Hk Hh].
    destruct (IH (fill_categorical repr df cf) Hnin) as [Hk' Hh'].
    split; [|congruence]. by eapply Forall2_keeps_trans.
Qed.

(** What the loop makes of a column it lists. *)
Lemma fill_loop_sets (c fill : string) (cfs : list (string * string))
  (df : DataFrame) :
  NoDup cfs.*1 -> (c, fill) ∈ cfs ->
  Forall2 (fun r0 r => cell r c =
             VStr (if has_column c df then fill_text repr fill (cell r0 c) else fill))
    (rows df) (rows (foldl (fill_categorical repr) df cfs)) /\
  has_column c (foldl (fill_categorical repr) df cfs) = true.
Proof.
  revert df. induction cfs as [|cf cfs IH]; intros df Hnd Hin; simpl.
  - by apply elem_of_nil in Hin.
  - apply NoDup_cons in Hnd as [Hhd Hnd].
    apply elem_of_cons in Hin as [<-|Hin].
    + destruct (fill_loop_keeps c cfs (fill_categorical repr df (c, fill)) Hhd)
        as [Hk Hh].
      split.
      * pose proof (fill_categorical_sets c fill df) as Hs.
        eapply Forall2_impl; [exact (Forall2_compose _ _ _ _ _ Hs Hk)|].
        intros r0 r (r1 & H1 & H2). cbv beta in H1, H2 |- *. congruence.
      * rewrite Hh. apply has_column_true.
        apply (fill_categorical_has (c, fill)).
    + assert (c <> cf.1) as Hne.
      { intros ->. apply Hhd. apply list_elem_of_fmap. by exists (cf.1, fill). }
      destruct (fill_categorical_keeps c cf df Hne) as [Hk Hh].
      destruct (IH (fill_categorical repr df cf) Hnd Hin) as [Hs Hc].
      split; [|done]. rewrite Hh in Hs.
      eapply Forall2_impl; [exact (Forall2_compose _ _ _ _ _ Hk Hs)|].
      intros r0 r (r1 & H1 & H2). cbv beta in H1, H2 |- *. by rewrite H2, H1.
Qed.

Lemma categoricals_nodup : NoDup categoricals.*1.
Proof. by compute_done. Qed.

Lemma categoricals_apart (c fill : string) :
  (c, fill) ∈ categoricals ->
  c <> "net_royalty" /\ c <> "units" /\ c <> "period" /\ c <> "period_date".
Proof.
  unfold categoricals. rewrite !elem_of_cons, elem_of_nil.
  intros H. repeat destruct H as [H|H]; try done;
    injection H as -> _; repeat split; discriminate.
Qed.

Lemma Done_inj {A : Type} (a b : A) : Done a = Done b -> a = b.
Proof. by intros [= ->]. Qed.

Lemma outcome_bind_done {A B : Type} (m : outcome A) (k : A -> outcome B) (b : B) :
  m ≫= k = Done b -> exists a, m = Done a /\ k a = Done b.
Proof. destruct m as [a| | |]; try discriminate. intros H. by exists a. Qed.

(** The shape of a successful load: the three coercions, then the loop. *)
Lemma load_data_done (src df : DataFrame) :
  load_data repr to_numeric to_datetime (Some src) = Done df ->
  exists df1 df2 df3,
    coerce_numeric to_numeric "net_royalty" src = Done df1 /\
    coerce_numeric to_numeric "units" df1 = Done df2 /\
    parse_period to_datetime df2 = Done df3 /\
    df = foldl (fill_categorical repr) df3 categoricals.
Proof.
  unfold load_data. intros H.
  apply outcome_bind_done in H as (df1 & H1 & H).
  apply outcome_bind_done in H as (df2 & H2 & H).
  apply outcome_bind_done in H as (df3 & H3 & H).
  apply Done_inj in H. exists df1, df2, df3. auto.
Qed.

(** Up to the loop: the rows that survive, each traced to its source row,
    agree with it on every column the coercions do not write. *)
Lemma load_prefix_keeps (c : string) (src df1 df2 df3 : DataFrame) :
  coerce_numeric to_numeric "net_royalty" src = Done df1 ->
  coerce_numeric to_numeric "units" df1 = Done df2 ->
  parse_period to_datetime df2 = Done df3 ->
  c <> "net_royalty" -> c <> "units" -> c <> "period" -> c <> "period_date" ->
  has_column c df3 = has_column c src /\
  exists kept, kept `sublist_of` rows src /\
    Forall2 (fun r0 r => cell r c = cell r0 c) kept (rows df3).
Proof.
  intros H1 H2 H3 Hn1 Hn2 Hn3 Hn4.
  apply coerce_numeric_done in H1. apply coerce_numeric_done in H2.
  split.
  - rewrite (parse_period_columns c _ _ H3 Hn3 Hn4). subst df2 df1.
    by rewrite !has_column_assign_ne.
  - destruct (parse_period_rows _ _ H3) as (kept2 & Hsub2 & Hall2).
    assert (Forall2 (fun r0 r => cell r c = cell r0 c) (rows src) (rows df2)) as H02.
    { subst df2 df1. eapply Forall2_keeps_trans; by apply assign_keeps. }
    destruct (Forall2_sublist_back _ _ _ _ H02 Hsub2) as (kept & Hsub & Hk).
    exists kept. split; [done|].
    eapply Forall2_impl; [exact (Forall2_compose _ _ _ _ _ Hk Hall2)|].
    intros r0 r (r1 & Hr1 & t & ->).
    rewrite !cell_insert_ne by done. exact Hr1.
Qed.

(** ** Categorical fill *)

Lemma fill_text_null (fill : string) (v : value) :
  v = VNone \/ (exists x, v = VFloat x /\ nisnan x = true) \/
  v = VStr "nan" \/ v = VStr "None" ->
  fill_text repr fill v = fill.
Proof.
  unfold fill_text.
  intros [->|[(x & -> & Hx)|[->| ->]]]; simpl; try done. by rewrite Hx.
Qed.

Lemma fill_text_other (fill s : string) :
  s <> "nan" -> s <> "None" -> fill_text repr fill (VStr s) = s.
Proof.
  intros H1 H2. unfold fill_text. simpl.
  apply String.eqb_neq in H1, H2. by rewrite H1, H2.
Qed.

(** A listed column after a successful load, row by row against the
    source rows that survive. *)
Lemma load_categorical_cells (src df : DataFrame) (c fill : string) :
  (c, fill) ∈ categoricals ->
  load_data repr to_numeric to_datetime (Some src) = Done df ->
  c ∈ columns df /\
  exists kept, kept `sublist_of` rows src /\
    Forall2 (fun r0 r => cell r c =
               VStr (if has_column c src then fill_text repr fill (cell r0 c)
                     else fill)) kept (rows df).
Proof.
  intros Hin Hload.
  destruct (load_data_done _ _ Hload) as (df1 & df2 & df3 & H1 & H2 & H3 & ->).
  destruct (categoricals_apart c fill Hin) as (Hn1 & Hn2 & Hn3 & Hn4).
  destruct (load_prefix_keeps c _ _ _ _ H1 H2 H3 Hn1 Hn2 Hn3 Hn4)
    as (Hcol & kept & Hsub & Hk).
  destruct (fill_loop_sets c fill categoricals df3 categoricals_nodup Hin)
    as [Hs Hhas].
  rewrite Hcol in Hs.
  split; [by apply has_column_true|].
  exists kept. split; [done|].
  eapply Forall2_impl; [exact (Forall2_compose _ _ _ _ _ Hk Hs)|].
  intros r0 r (r1 & Hr1 & Hr). cbv beta in Hr1, Hr |- *. by rewrite Hr, Hr1.
Qed.

Lemma loaded_has_text (src df : DataFrame) (c fill : string) :
  (c, fill) ∈ categoricals ->
  load_data repr to_numeric to_datetime (Some src) = Done df ->
  Forall (fun r => exists s, cell r c = VStr s) (rows df).
Proof.
  intros Hin Hload.
  destruct (load_categorical_cells _ _ _ _ Hin Hload) as (_ & kept & _ & Hall).
  apply (Forall2_Forall_r _ _ _ _ Hall). apply Forall_forall.
  intros r0 _ r ->. by eexists.
Qed.

(** C4, as the code has it.  For a listed column and its sentinel, after
    a load that succeeds: the column exists; where the source lacks it,
    every row holds the sentinel; where the source has it, every row left
    holds what [fill_text] makes of the cell of its source row, which is
    the sentinel for [None], for NaN and for the texts "nan" and "None",
    and for any other text that text itself, character for character. *)
Theorem load_fills_categoricals (src df : DataFrame) (c fill : string) :
  (c, fill) ∈ categoricals ->
  load_data repr to_numeric to_datetime (Some src) = Done df ->
  c ∈ columns df /\
  (c ∉ columns src -> Forall (fun r => cell r c = VStr fill) (rows df)) /\
  (c ∈ columns src ->
   exists kept, kept `sublist_of` rows src /\
     Forall2 (fun r0 r => cell r c = VStr (fill_text repr fill (cell r0 c)))
       kept (rows df)) /\
  (forall v, v = VNone \/ (exists x, v = VFloat x /\ nisnan x = true) \/
             v = VStr "nan" \/ v = VStr "None" ->
             fill_text repr fill v = fill) /\
  (forall s, s <> "nan" -> s <> "None" -> fill_text repr fill (VStr s) = s).
Proof.
  intros Hin Hload.
  destruct (load_categorical_cells _ _ _ _ Hin Hload) as (Hc & kept & Hsub & Hall).
  split; [done|].
  split; [|split; [|split; [apply fill_text_null | apply fill_text_other]]].
  - intros Hout. apply (Forall2_Forall_r _ _ _ _ Hall). apply Forall_forall.
    intros r0 _ r ->.
    destruct (has_column c src) eqn:Hcs; [|done].
    by apply has_column_true in Hcs.
  - intros Hpresent. exists kept. split; [done|].
    apply has_column_true in Hpresent. by rewrite Hpresent in Hall.
Qed.

(** ** Dates of the loaded frame *)

Lemma period_date_apart : "period_date" ∉ categoricals.*1.
Proof. by compute_done. Qed.

Lemma loaded_has_dates (src df : DataFrame) :
  load_data repr to_numeric to_datetime (Some src) = Done df ->
  Forall (fun r => exists d, cell r "period_date" = VDate d) (rows df).
Proof.
  intros Hload.
  destruct (load_data_done _ _ Hload) as (df1 & df2 & df3 & H1 & H2 & H3 & ->).
  destruct (parse_period_rows _ _ H3) as (kept & _ & Hall).
  destruct (fill_loop_keeps "period_date" categoricals df3 period_date_apart)
    as [Hk _].
  apply (Forall2_Forall_r _ _ _ _ (Forall2_compose _ _ _ _ _ Hall Hk)).
  apply Forall_forall. intros r0 _ r (r1 & (t & ->) & ->).
  exists (ts_date t). apply cell_insert.
Qed.

Lemma foldl_min_le (ds : list Z) (d0 x : Z) :
  x ∈ d0 :: ds -> (foldl Z.min d0 ds <= x)%Z.
Proof.
  revert d0 x. induction ds as [|a ds IH]; intros d0 x Hin; simpl.
  - apply list_elem_of_singleton in Hin as ->. lia.
  - apply elem_of_cons in Hin as [->|Hin].
    + etrans; [apply (IH _ (Z.min d0 a)); by left|]. lia.
    + apply elem_of_cons in Hin as [->|Hin].
      * etrans; [apply (IH _ (Z.min d0 a)); by left|]. lia.
      * apply IH. by right.
Qed.

Lemma foldl_max_ge (ds : list Z) (d0 x : Z) :
  x ∈ d0 :: ds -> (x <= foldl Z.max d0 ds)%Z.
Proof.
  revert d0 x. induction ds as [|a ds IH]; intros d0 x Hin; simpl.
  - apply list_elem_of_singleton in Hin as ->. lia.
  - apply elem_of_cons in Hin as [->|Hin].
    + etrans; [|apply (IH _ (Z.max d0 a)); by left]. lia.
    + apply elem_of_cons in Hin as [->|Hin].
      * etrans; [|apply (IH _ (Z.max d0 a)); by left]. lia.
      * apply IH. by right.
Qed.

Lemma elem_of_dates (d : Z) (vs : list value) :
  VDate d ∈ vs -> d ∈ dates vs.
Proof.
  intros Hin. unfold dates. apply list_elem_of_omap. by exists (VDate d).
Qed.

Lemma series_min_le (vs : list value) (lo d : Z) :
  series_min vs = Some lo -> VDate d ∈ vs -> (lo <= d)%Z.
Proof.
  unfold series_min. intros Hmin Hin%elem_of_dates.
  destruct (dates vs) as [|d0 ds]; [done|]. injection Hmin as <-.
  by apply foldl_min_le.
Qed.

Lemma series_max_ge (vs : list value) (hi d : Z) :
  series_max vs = Some hi -> VDate d ∈ vs -> (d <= hi)%Z.
Proof.
  unfold series_max. intros Hmax Hin%elem_of_dates.
  destruct (dates vs) as [|d0 ds]; [done|]. injection Hmax as <-.
  by apply foldl_max_ge.
Qed.

Lemma date_in_spec (a b : Z) (v : value) :
  date_in a b v = true <-> exists d, v = VDate d /\ (a <= d <= b)%Z.
Proof.
  destruct v as [| |x|s|t|d]; simpl;
    try (split; [discriminate | by intros (d' & ? & _)]).
  rewrite andb_true_iff, !Z.leb_le. split.
  - intros [? ?]. by exists d.
  - by intros (d' & [= ->] & ?).
Qed.

(** C9.  The date mask keeps the rows whose [period_date] is a date
    within [a, b], ends included, and no other.  A pair from the widget
    gives the two bounds; one date, or a tuple that is not a pair, gives
    the minimum and the maximum of the loaded frame, the widget call
    itself going through; and between those two the mask keeps every row
    of the loaded frame. *)
Theorem date_range_filter (src df : DataFrame) (lo hi : Z) :
  load_data repr to_numeric to_datetime (Some src) = Done df ->
  series_min (column "period_date" df) = Some lo ->
  series_max (column "period_date" df) = Some hi ->
  (forall a b f,
     columns (date_filter a b f) = columns f /\
     rows (date_filter a b f) =
       List.filter (fun r => date_in a b (cell r "period_date")) (rows f)) /\
  (forall a b v, date_in a b v = true <-> exists d, v = VDate d /\ (a <= d <= b)%Z) /\
  (forall a b, date_bounds lo hi (Dates [a; b]) = (a, b)) /\
  (forall d, date_bounds lo hi (OneDate d) = (lo, hi)) /\
  (forall ds, length ds <> 2 -> date_bounds lo hi (Dates ds) = (lo, hi)) /\
  (forall picked, date_input (Some lo) (Some hi) picked = Done picked) /\
  date_filter lo hi df = df.
Proof.
  intros Hload Hmin Hmax.
  split; [done|]. split; [apply date_in_spec|].
  split; [done|]. split; [done|].
  split; [by intros [|a [|b [|? ?]]]|]. split; [done|].
  pose proof (loaded_has_dates _ _ Hload) as Hdates.
  unfold date_filter, select. destruct df as [cols rs]. simpl in *. f_equal.
  apply filter_all. apply Forall_forall. intros r Hr.
  destruct (proj1 (Forall_forall _ _) Hdates r Hr) as [d Hd].
  rewrite Hd. apply date_in_spec. exists d. split; [done|].
  assert (VDate d ∈ column "period_date" {| columns := cols; rows := rs |}) as Hin.
  { unfold column. simpl. apply list_elem_of_fmap. by exists r. }
  split; [by eapply series_min_le | by eapply series_max_ge].
Qed.

(** ** A table without a parseable period *)

Lemma series_min_nil (df : DataFrame) :
  rows df = [] -> series_min (column "period_date" df) = None.
Proof. unfold series_min, column. by intros ->. Qed.

Lemma series_max_nil (df : DataFrame) :
  rows df = [] -> series_max (column "period_date" df) = None.
Proof. unfold series_max, column. by intros ->. Qed.

Lemma load_data_no_period (src df : DataFrame) :
  rows src = [] \/ Forall (fun p => p = None) (to_datetime (column "period" src)) ->
  load_data repr to_numeric to_datetime (Some src) = Done df ->
  rows df = [].
Proof.
  intros Hsrc Hload.
  destruct (load_data_done _ _ Hload) as (df1 & df2 & df3 & H1 & H2 & H3 & ->).
  apply coerce_numeric_done in H1. apply coerce_numeric_done in H2.
  assert (rows df3 = []) as H3'.
  { revert H3. unfold parse_period. destruct (has_column "period" df2); [|done].
    intros [= <-]. simpl.
    assert (column "period" df2 = column "period" src) as ->.
    { apply keeps_column. subst df2 df1.
      eapply Forall2_keeps_trans; by apply assign_keeps. }
    destruct Hsrc as [Hnil|Hnat].
    - subst df2 df1. simpl. by rewrite Hnil.
    - by rewrite dropna_all_nat. }
  destruct (fill_loop_keeps "period_date" categoricals df3 period_date_apart)
    as [Hk _].
  rewrite H3' in Hk. by apply Forall2_nil_inv_l in Hk.
Qed.

Lemma load_data_outcomes (src : DataFrame) :
  load_data repr to_numeric to_datetime (Some src) = Raised \/
  exists df, load_data repr to_numeric to_datetime (Some src) = Done df.
Proof.
  unfold load_data, coerce_numeric, parse_period.
  destruct (has_column "net_royalty" src); [|by left]. simpl.
  destruct (has_column "units" _); [|by left]. simpl.
  destruct (has_column "period" _); [|by left]. simpl.
  right. by eexists.
Qed.

(** C10.  When the source has no row, or no [period] of it parses: a
    load that succeeds leaves a frame without rows, whose [period_date]
    has neither minimum nor maximum; and the script ends in an exception,
    at the date widget if not before, and puts no page out. *)
Theorem no_period_no_dashboard (src : DataFrame) (ui : sidebar) :
  rows src = [] \/ Forall (fun p => p = None) (to_datetime (column "period" src)) ->
  (forall df, load_data repr to_numeric to_datetime (Some src) = Done df ->
     rows df = [] /\
     series_min (column "period_date" df) = None /\
     series_max (column "period_date" df) = None /\
     date_input (series_min (column "period_date" df))
       (series_max (column "period_date" df)) (period_pick ui) = Raised) /\
  filtered repr regex to_numeric to_datetime (Some src) ui = Raised /\
  dashboard repr regex to_numeric to_datetime argsort_desc strftime_ym to_int
    (Some src) ui = Raised.
Proof.
  intros Hsrc.
  assert (forall df, load_data repr to_numeric to_datetime (Some src) = Done df ->
     rows df = [] /\
     series_min (column "period_date" df) = None /\
     series_max (column "period_date" df) = None /\
     date_input (series_min (column "period_date" df))
       (series_max (column "period_date" df)) (period_pick ui) = Raised) as Hdone.
  { intros df Hload. pose proof (load_data_no_period _ _ Hsrc Hload) as Hnil.
    rewrite (series_min_nil _ Hnil), (series_max_nil _ Hnil). done. }
  split; [exact Hdone|].
  assert (filtered repr regex to_numeric to_datetime (Some src) ui = Raised) as Hf.
  { unfold filtered.
    destruct (load_data_outcomes src) as [->|[df Hload]]; [done|].
    rewrite Hload. simpl. destruct (Hdone df Hload) as (_ & _ & _ & ->). done. }
  split; [exact Hf|]. unfold dashboard. by rewrite Hf.
Qed.

(** ** sort_values *)

Lemma omap_lookup_seq {A : Type} (l1 l2 : list A) :
  omap (fun i => (l1 ++ l2) !! i) (seq (length l1) (length l2)) = l2.
Proof.
  revert l1. induction l2 as [|x l2 IH]; intros l1; simpl; [done|].
  rewrite list_lookup_middle by done. f_equal.
  specialize (IH (l1 ++ [x])).
  rewrite <- app_assoc, length_app in IH. simpl in IH.
  by rewrite Nat.add_1_r in IH.
Qed.

Lemma omap_lookup_all {A : Type} (l : list A) :
  omap (fun i => l !! i) (seq 0 (length l)) = l.
Proof. apply (omap_lookup_seq [] l). Qed.

Lemma omap_lookup_fmap {A B : Type} (f : A -> B) (l : list A) (idx : list nat) :
  omap (fun i => (f <$> l) !! i) idx = f <$> omap (fun i => l !! i) idx.
Proof.
  induction idx as [|i idx IH]; simpl; [done|].
  rewrite list_lookup_fmap. destruct (l !! i); simpl; [f_equal|]; apply IH.
Qed.

Lemma Sorted_unmap {A B : Type} (R : relation B) (f : A -> B) (l : list A) :
  Sorted R (f <$> l) -> Sorted (fun a b => R (f a) (f b)) l.
Proof.
  induction l as [|x l IH]; simpl; intros Hs; [constructor|].
  apply Sorted_inv in Hs as [Hs Hhd]. constructor; [by apply IH|].
  destruct l; simpl in *; constructor. by apply HdRel_inv in Hhd.
Qed.

Lemma Sorted_take {A : Type} (R : relation A) (n : nat) (l : list A) :
  Sorted R l -> Sorted R (take n l).
Proof.
  revert n. induction l as [|x l IH]; intros [|n] Hs; simpl; try constructor.
  - apply IH. by apply Sorted_inv in Hs as [? _].
  - apply Sorted_inv in Hs as [_ Hhd].
    destruct l, n; simpl; constructor. by apply HdRel_inv in Hhd.
Qed.

Lemma sort_values_perm {A : Type} (key : A -> num) (l : list A) :
  indexes argsort_desc -> sort_values_desc argsort_desc key l ≡ₚ l.
Proof.
  intros Hidx. unfold sort_values_desc.
  rewrite (Hidx (key <$> l)), length_fmap. by rewrite omap_lookup_all.
Qed.

Lemma sort_values_sorted {A : Type} (key : A -> num) (l : list A) :
  descends argsort_desc ->
  Sorted (fun a b => before (key a) (key b) = true)
    (sort_values_desc argsort_desc key l).
Proof.
  intros Hdesc. unfold sort_values_desc.
  apply (Sorted_unmap (fun a b => before a b = true) key).
  rewrite <- omap_lookup_fmap. apply Hdesc.
Qed.

(** ** groupby *)

#[global] Instance str_le_total : Total str_le.
Proof. intros a b. apply String.leb_total. Qed.

Lemma group_keys_nodup (c : string) (rs : list (gmap string value)) :
  NoDup (group_keys c rs).
Proof.
  unfold group_keys. rewrite merge_sort_Permutation. apply NoDup_remove_dups.
Qed.

Lemma elem_of_group_keys (c k : string) (rs : list (gmap string value)) :
  k ∈ group_keys c rs <-> exists r, r ∈ rs /\ key_of c r = Some k.
Proof.
  unfold group_keys.
  by rewrite merge_sort_Permutation, elem_of_remove_dups, list_elem_of_omap.
Qed.

Lemma group_keys_sorted (c : string) (rs : list (gmap string value)) :
  Sorted str_le (group_keys c rs).
Proof. apply (Sorted_merge_sort str_le). Qed.

Lemma filter_split {A : Type} (p : A -> bool) (l : list A) :
  List.filter p l ++ List.filter (fun x => negb (p x)) l ≡ₚ l.
Proof.
  induction l as [|x l IH]; simpl; [done|].
  destruct (p x); simpl; [by rewrite IH|].
  by rewrite <- Permutation_middle, IH.
Qed.

Lemma group_rows_rest (c k k' : string) (rs : list (gmap string value)) :
  k <> k' ->
  group_rows c k' (List.filter (fun r => negb (in_group c k r)) rs) =
  group_rows c k' rs.
Proof.
  intros Hne. unfold group_rows, in_group.
  induction rs as [|r rs IH]; simpl; [done|].
  destruct (bool_decide (key_of c r = Some k)) eqn:Hk; simpl.
  - apply bool_decide_eq_true in Hk.
    rewrite bool_decide_eq_false_2 by congruence. done.
  - by rewrite IH.
Qed.

(** The groups, laid end to end, are the rows that have a key: each row
    once, none twice. *)
Lemma groups_partition (c : string) (ks : list string)
  (rs : list (gmap string value)) :
  NoDup ks ->
  Forall (fun r => exists k, k ∈ ks /\ key_of c r = Some k) rs ->
  mjoin ((fun k => group_rows c k rs) <$> ks) ≡ₚ rs.
Proof.
  revert rs. induction ks as [|k ks IH]; intros rs Hnd Hall; csimpl.
  - destruct rs as [|r rs]; [done|].
    apply Forall_cons in Hall as [(k & Hk & _) _]. by apply elem_of_nil in Hk.
  - apply NoDup_cons in Hnd as [Hk Hnd].
    set (rest := List.filter (fun r => negb (in_group c k r)) rs).
    assert ((fun k' => group_rows c k' rs) <$> ks =
            (fun k' => group_rows c k' rest) <$> ks) as ->.
    { apply list_fmap_ext. intros i k' Hk'. symmetry. apply group_rows_rest.
      intros ->. apply Hk. by eapply list_elem_of_lookup_2. }
    rewrite (IH rest Hnd).
    + apply filter_split.
    + apply Forall_forall. intros r [Hr Hout]%elem_of_filter_bool.
      destruct (proj1 (Forall_forall _ _) Hall r Hr) as (k' & Hk' & Hkey).
      exists k'. split; [|done].
      apply elem_of_cons in Hk' as [->|Hk']; [|done].
      apply negb_true_iff, bool_decide_eq_false in Hout. done.
Qed.

(** ** Sums without rounding *)

Section Window.
Variable inj : Z -> num.
Variable val : num -> Z.
Variable B : Z.
Hypothesis window : exact_window inj B.

Lemma window_foldl (zs : list Z) (acc : Z) :
  (Z.abs acc + abs_sum zs <= B)%Z ->
  foldl nadd (inj acc) (inj <$> zs) = inj (acc + zsum zs)%Z.
Proof.
  revert acc. induction zs as [|z zs IH]; intros acc Hb.
  - cbn. f_equal. unfold zsum. cbn. lia.
  - cbn [fmap list_fmap foldl]. change (list_fmap Z num inj zs) with (inj <$> zs).
    pose proof (abs_sum_nonneg zs) as Hnn.
    assert (abs_sum (z :: zs) = Z.abs z + abs_sum zs)%Z as Hc by reflexivity.
    rewrite (proj2 window acc z) by lia.
    rewrite IH by lia. f_equal.
    assert (zsum (z :: zs) = z + zsum zs)%Z as -> by reflexivity. lia.
Qed.

Lemma window_sum (zs : list Z) :
  (abs_sum zs <= B)%Z -> series_sum (inj <$> zs) = inj (zsum zs).
Proof.
  intros Hb. unfold series_sum. rewrite <- (proj1 window).
  rewrite window_foldl by (cbn; lia). done.
Qed.

Lemma whole_amounts_inj (xs : list num) :
  Forall (fun x => inj (val x) = x) xs -> inj <$> (val <$> xs) = xs.
Proof.
  induction 1 as [|x xs Hx _ IH]; [done|]. cbn. by rewrite Hx, IH.
Qed.

Lemma whole_sum (xs : list num) :
  whole_amounts inj val B xs -> series_sum xs = inj (zsum (val <$> xs)).
Proof.
  intros [Hall Hb]. rewrite <- (whole_amounts_inj xs Hall) at 1.
  by apply window_sum.
Qed.

Lemma whole_amounts_app (xs ys : list num) :
  whole_amounts inj val B (xs ++ ys) ->
  whole_amounts inj val B xs /\ whole_amounts inj val B ys.
Proof.
  intros [Hall Hb]. apply Forall_app in Hall as [Hx Hy].
  rewrite fmap_app, abs_sum_app in Hb.
  pose proof (abs_sum_nonneg (val <$> xs)). pose proof (abs_sum_nonneg (val <$> ys)).
  split; (split; [done|lia]).
Qed.

Lemma whole_amounts_perm (xs ys : list num) :
  xs ≡ₚ ys -> whole_amounts inj val B xs -> whole_amounts inj val B ys.
Proof.
  intros Hp [Hall Hb]. split; [by rewrite <- Hp|].
  by rewrite <- (abs_sum_perm _ _ (fmap_Permutation val _ _ Hp)).
Qed.

(** The sums of the parts, added in any order, give the sum of the
    whole. *)
Lemma whole_parts (ls : list (list num)) :
  whole_amounts inj val B (mjoin ls) ->
  Forall (fun l => series_sum l = inj (zsum (val <$> l))) ls /\
  (abs_sum ((fun l => zsum (val <$> l)) <$> ls) <= abs_sum (val <$> mjoin ls))%Z /\
  zsum ((fun l => zsum (val <$> l)) <$> ls) = zsum (val <$> mjoin ls).
Proof.
  induction ls as [|l ls IH]; intros Hw.
  - split; [constructor|]. split; [reflexivity|done].
  - cbn [mjoin list_join] in Hw |- *. change (list_join num ls) with (mjoin ls) in *.
    apply whole_amounts_app in Hw as [Hl Hls].
    destruct (IH Hls) as (Hall & Hle & Heq).
    split; [constructor; [by apply whole_sum | done]|].
    rewrite fmap_app, abs_sum_app, zsum_app. cbn [fmap list_fmap].
    change (list_fmap (list num) Z (fun l => zsum (val <$> l)) ls)
      with ((fun l => zsum (val <$> l)) <$> ls).
    assert (forall z zs, abs_sum (z :: zs) = Z.abs z + abs_sum zs)%Z as Hc by done.
    assert (forall z zs, zsum (z :: zs) = z + zsum zs)%Z as Hc' by done.
    rewrite Hc, Hc'. split; [|by rewrite Heq].
    apply Z.add_le_mono; [apply zsum_abs_le | exact Hle].
Qed.

Lemma whole_parts_sum (ls : list (list num)) (xs : list num) :
  whole_amounts inj val B (mjoin ls) ->
  xs ≡ₚ series_sum <$> ls ->
  series_sum xs = series_sum (mjoin ls) /\
  series_sum xs = inj (zsum (val <$> mjoin ls)).
Proof.
  intros Hw Hp. destruct (whole_parts ls Hw) as (Hall & Hle & Heq).
  assert (series_sum <$> ls = inj <$> ((fun l => zsum (val <$> l)) <$> ls)) as Hs.
  { rewrite <- list_fmap_compose. apply Forall_fmap_ext. exact Hall. }
  rewrite Hs in Hp.
  apply (Permutation_map_inv inj) in Hp as (zs & -> & Hzs).
  assert (series_sum (map inj zs) = inj (zsum (val <$> mjoin ls))) as Hx.
  { change (map inj zs) with (inj <$> zs). rewrite window_sum.
    - by rewrite <- (zsum_perm _ _ Hzs), Heq.
    - rewrite <- (abs_sum_perm _ _ Hzs). destruct Hw as [_ Hb]. lia. }
  split; [|done]. by rewrite Hx, (whole_sum _ Hw).
Qed.

Lemma mjoin_fmap {A K : Type} (h : A -> num) (g : K -> list A) (ks : list K) :
  mjoin ((fun k => h <$> g k) <$> ks) = h <$> mjoin (g <$> ks).
Proof.
  induction ks as [|k ks IH]; csimpl; [done|]. by rewrite fmap_app, IH.
Qed.

(** Group totals, added in any order, give the column total when every
    row has a key and the column holds whole amounts within the bound. *)
Lemma group_sums_total (c c' : string) (rs : list (gmap string value))
  (xs : list num) :
  whole_amounts inj val B (amounts c' rs) ->
  Forall (fun r => is_Some (key_of c r)) rs ->
  xs ≡ₚ (fun k => column_sum c' (group_rows c k rs)) <$> group_keys c rs ->
  series_sum xs = column_sum c' rs /\
  column_sum c' rs = inj (zsum (val <$> amounts c' rs)).
Proof.
  intros Hw Hkeys Hxs.
  assert (mjoin ((fun k => group_rows c k rs) <$> group_keys c rs) ≡ₚ rs) as Hperm.
  { apply groups_partition; [apply group_keys_nodup|].
    apply Forall_forall. intros r Hr.
    destruct (proj1 (Forall_forall _ _) Hkeys r Hr) as [k Hk].
    exists k. split; [|done]. apply elem_of_group_keys. by exists r. }
  set (ls := (fun k => amounts c' (group_rows c k rs)) <$> group_keys c rs).
  assert (mjoin ls ≡ₚ amounts c' rs) as Hj.
  { unfold ls, amounts. rewrite mjoin_fmap. by apply fmap_Permutation. }
  assert (whole_amounts inj val B (mjoin ls)) as Hwl
    by (by apply (whole_amounts_perm (amounts c' rs))).
  assert (xs ≡ₚ series_sum <$> ls) as Hxs'.
  { rewrite Hxs. unfold ls. by rewrite <- list_fmap_compose. }
  destruct (whole_parts_sum ls xs Hwl Hxs') as [_ Hx].
  unfold column_sum. fold (amounts c' rs). rewrite (whole_sum _ Hw), Hx.
  split; [|done]. f_equal. apply zsum_perm. by apply fmap_Permutation.
Qed.

End Window.

(** ** The filtered frame of a run *)

Lemma filtered_done (src : option DataFrame) (ui : sidebar) (f : DataFrame) :
  filtered repr regex to_numeric to_datetime src ui = Done f ->
  exists src0 df lo hi,
    src = Some src0 /\
    load_data repr to_numeric to_datetime (Some src0) = Done df /\
    series_min (column "period_date" df) = Some lo /\
    series_max (column "period_date" df) = Some hi /\
    apply_filters repr regex df (read_sidebar lo hi (period_pick ui) ui) = Done f.
Proof.
  unfold filtered. intros H. destruct src as [src0|]; [|discriminate H].
  apply outcome_bind_done in H as (df & Hl & H).
  destruct (series_min (column "period_date" df)) as [lo|] eqn:Hmin;
    [|discriminate H].
  destruct (series_max (column "period_date" df)) as [hi|] eqn:Hmax;
    [|discriminate H].
  exists src0, df, lo, hi.
  split; [reflexivity|]. split; [exact Hl|]. split; [exact Hmin|].
  split; [exact Hmax | exact H].
Qed.

Lemma filtered_has_text (src : option DataFrame) (ui : sidebar) (f : DataFrame)
  (c fill : string) :
  (c, fill) ∈ categoricals ->
  filtered repr regex to_numeric to_datetime src ui = Done f ->
  Forall (fun r => exists s, cell r c = VStr s) (rows f).
Proof.
  intros Hin Hf.
  destruct (filtered_done _ _ _ Hf) as (src0 & df & lo & hi & -> & Hl & _ & _ & Ha).
  pose proof (loaded_has_text _ _ _ _ Hin Hl) as Hall.
  destruct (apply_filters_narrows _ _ _ Ha) as [_ Hsub].
  apply Forall_forall. intros r Hr.
  apply (proj1 (Forall_forall _ _) Hall). by eapply elem_of_sublist.
Qed.

Lemma filtered_has_keys (src : option DataFrame) (ui : sidebar) (f : DataFrame)
  (c fill : string) :
  (c, fill) ∈ categoricals ->
  filtered repr regex to_numeric to_datetime src ui = Done f ->
  Forall (fun r => is_Some (key_of c r)) (rows f).
Proof.
  intros Hin Hf. eapply Forall_impl; [by eapply filtered_has_text|].
  intros r [s Hs]. unfold key_of. rewrite Hs. by eexists.
Qed.

Lemma distributor_listed : ("distributor", "(sem distribuidora)") ∈ categoricals.
Proof. unfold categoricals. by left. Qed.

(** C6, as the code has it.  On the filtered frame of any run, grouping
    by distributor loses no row and counts none twice: the groups laid
    end to end are a rearrangement of the rows, and the sorted table is a
    rearrangement of the group totals.  Whenever the additions do not
    round — the revenues are whole amounts and their absolute values add
    up within a bound below which the column's addition is exact — the
    revenue totals of the table add up to the total revenue of the page,
    and both are the exact sum of the amounts. *)
Theorem grouped_revenue_complete (src : option DataFrame)
  (ui : sidebar) (f : DataFrame) :
  indexes argsort_desc ->
  filtered repr regex to_numeric to_datetime src ui = Done f ->
  mjoin ((fun k => group_rows "distributor" k (rows f))
           <$> group_keys "distributor" (rows f)) ≡ₚ rows f /\
  by_dist argsort_desc f ≡ₚ group_sums "distributor" (rows f) /\
  (forall (inj : Z -> num) (val : num -> Z) (B : Z),
     exact_window inj B ->
     whole_amounts inj val B (amounts "net_royalty" (rows f)) ->
     series_sum (g_net_royalty <$> by_dist argsort_desc f) = total_rev f /\
     total_rev f = inj (zsum (val <$> amounts "net_royalty" (rows f)))).
Proof.
  intros Hidx Hf.
  pose proof (filtered_has_keys _ _ _ _ _ distributor_listed Hf) as Hkeys.
  split; [|split].
  - apply groups_partition; [apply group_keys_nodup|].
    apply Forall_forall. intros r Hr.
    destruct (proj1 (Forall_forall _ _) Hkeys r Hr) as [k Hk].
    exists k. split; [|done]. apply elem_of_group_keys. by exists r.
  - by apply sort_values_perm.
  - intros inj val B Hwin Hw. unfold total_rev.
    apply (group_sums_total inj val B Hwin "distributor"); [done|done|].
    unfold by_dist.
    rewrite (sort_values_perm g_net_royalty (group_sums "distributor" (rows f)) Hidx).
    unfold group_sums. by rewrite <- list_fmap_compose.
Qed.

(** ** Top tracks *)




(** With an indexer that lists every position once and along which the
    keys descend, each grouped table is a rearrangement of its group
    totals in which revenue descends (the store and country tables its
    first 20 rows, Top Tracks its first 30). *)
Lemma grouped_tables_descend (f : DataFrame) :
  indexes argsort_desc -> descends argsort_desc ->
  let desc := fun a b : group_total =>
                before (g_net_royalty a) (g_net_royalty b) = true in
  (by_dist argsort_desc f ≡ₚ group_sums "distributor" (rows f) /\
   Sorted desc (by_dist argsort_desc f)) /\
  (by_class argsort_desc f ≡ₚ group_sums "classification" (rows f) /\
   Sorted desc (by_class argsort_desc f)) /\
  (exists full, full ≡ₚ group_sums "store" (rows f) /\ Sorted desc full /\
                by_store argsort_desc f = take 20 full) /\
  (exists full, full ≡ₚ group_sums "country" (rows f) /\ Sorted desc full /\
                by_country argsort_desc f = take 20 full) /\
  (exists full, full ≡ₚ track_groups (rows f) /\
                Sorted (fun a b => before (t_revenue a) (t_revenue b) = true) full /\
                top_tracks argsort_desc f = take 30 full) /\
  Sorted desc (by_store argsort_desc f) /\
  Sorted desc (by_country argsort_desc f) /\
  Sorted (fun a b => before (t_revenue a) (t_revenue b) = true)
    (top_tracks argsort_desc f).
Proof.
  intros Hidx Hdesc desc.
  repeat split;
    try (by apply sort_values_perm);
    try (by apply sort_values_sorted);
    try (eexists; split; [by apply sort_values_perm|];
         split; [by apply sort_values_sorted | done]);
    apply Sorted_take; by apply sort_values_sorted.
Qed.

End Facts.

(** ** The order of binary64 *)

Lemma SFleb_total (x y : spec_float) :
  x <> S754_nan -> y <> S754_nan -> SFleb x y = true \/ SFleb y x = true.
Proof.
  intros Hx Hy. unfold SFleb.
  destruct x as [sx|sx| |sx mx ex], y as [sy|sy| |sy my ey]; try done;
    simpl; try (destruct sx); try (destruct sy); simpl; auto;
    rewrite (Z.compare_antisym ex ey);
    destruct (ex ?= ey)%Z; simpl; auto;
    pose proof (Pos.compare_cont_antisym mx my Eq) as H; simpl in H;
    rewrite <- H; destruct (Pos.compare_cont Eq mx my); simpl; auto.
Qed.

Lemma is_nan_false (a : float) : PrimFloat.is_nan a = false -> Prim2SF a <> S754_nan.
Proof.
  unfold PrimFloat.is_nan. rewrite FloatAxioms.eqb_spec. intros H Hn.
  rewrite Hn in H. discriminate H.
Qed.

Lemma binary64_before_total (a b : float) :
  @before binary64 a b = true \/ @before binary64 b a = true.
Proof.
  unfold before. simpl.
  destruct (PrimFloat.is_nan a) eqn:Ha; [by right|].
  destruct (PrimFloat.is_nan b) eqn:Hb; [by left|]. simpl.
  rewrite !leb_spec.
  apply SFleb_total; by apply is_nan_false.
Qed.

(** ** Sorts that keep the promises

    Wherever any two keys compare one way or the other, sorting the pairs
    of position and key by key gives an indexer that lists every position
    once and along which the keys descend, from whichever end the column
    is read. *)

Section Sorts.
Context {N : Numeric}.
Hypothesis before_total : forall a b : num, before a b = true \/ before b a = true.

#[local] Instance pair_before_total : Total (@pair_before N).
Proof. intros x y. apply before_total. Qed.

Lemma zip_seq_lookup (pre ks : list num) :
  Forall (fun p : nat * num => (pre ++ ks) !! p.1 = Some p.2)
    (zip (seq (length pre) (length ks)) ks).
Proof.
  revert pre. induction ks as [|k ks IH]; intros pre; simpl; constructor.
  - simpl. by rewrite list_lookup_middle.
  - specialize (IH (pre ++ [k])).
    rewrite <- app_assoc, length_app in IH. simpl in IH.
    by rewrite Nat.add_1_r in IH.
Qed.

Lemma omap_lookup_pairs (ks : list num) (ps : list (nat * num)) :
  Forall (fun p : nat * num => ks !! p.1 = Some p.2) ps ->
  omap (fun i => ks !! i) ps.*1 = ps.*2.
Proof.
  induction 1 as [|p ps Hp _ IH]; csimpl; [done|]. by rewrite Hp, IH.
Qed.

Lemma pairs_sort_indexes (ks : list num) (ps : list (nat * num)) :
  ps ≡ₚ zip (seq 0 (length ks)) ks ->
  (merge_sort pair_before ps).*1 ≡ₚ seq 0 (length ks).
Proof.
  intros Hps. rewrite merge_sort_Permutation, Hps.
  rewrite fst_zip; [done|]. by rewrite length_seq.
Qed.

Lemma pairs_sort_descends (ks : list num) (ps : list (nat * num)) :
  ps ≡ₚ zip (seq 0 (length ks)) ks ->
  Sorted (fun a b => before a b = true)
    (omap (fun i => ks !! i) (merge_sort pair_before ps).*1).
Proof.
  intros Hps. rewrite omap_lookup_pairs.
  - apply (Sorted_fmap snd pair_before); [by intros x y|].
    apply (Sorted_merge_sort pair_before).
  - rewrite merge_sort_Permutation, Hps. apply (zip_seq_lookup [] ks).
Qed.

Lemma argsort_forward_indexes : indexes argsort_forward.
Proof. intros ks. by apply pairs_sort_indexes. Qed.


Lemma argsort_backward_indexes : indexes argsort_backward.
Proof. intros ks. apply pairs_sort_indexes, reverse_Permutation. Qed.

Lemma argsort_backward_descends : descends argsort_backward.
Proof. intros ks. apply pairs_sort_descends, reverse_Permutation. Qed.

End Sorts.

(** * Closed statements *)

Lemma done_frame {N : Numeric} (o : outcome DataFrame) :
  is_done o = true -> o = Done (frame_of o).
Proof. by destruct o. Qed.

(** C3.  On binary64, for either minimum (revenue on [net_royalty],
    units on [units]): a threshold equal to zero hands the frame back as
    it is, rows at zero included; a threshold above zero keeps the rows
    whose cell is a number at or above it, and no other; and a threshold
    that is not below zero is one or the other. *)
Theorem minimum_thresholds (c : string) (t : float) (f : @DataFrame binary64) :
  (PrimFloat.eqb t 0%float = true -> min_filter (N:=binary64) c t f = f) /\
  (PrimFloat.ltb 0%float t = true ->
     columns (min_filter (N:=binary64) c t f) = columns f /\
     rows (min_filter (N:=binary64) c t f) =
       List.filter (fun r => ge_cell (N:=binary64) t (cell r c)) (rows f)) /\
  (forall v, ge_cell (N:=binary64) t v = true <->
             exists x, v = VFloat x /\ PrimFloat.leb t x = true) /\
  (PrimFloat.leb 0%float t = true ->
     PrimFloat.eqb t 0%float = true \/ PrimFloat.ltb 0%float t = true).
Proof.
  split; [|split; [|split]].
  - intros Hz. apply (min_filter_off (N:=binary64)).
    by apply float_zero_not_positive.
  - intros Hpos. by rewrite (min_filter_on (N:=binary64) c t f Hpos).
  - intros v. apply (ge_cell_spec (N:=binary64)).
  - apply float_nonneg_cases.
Qed.

Example zero_threshold_keeps_zero_rows :
  length (rows (min_filter (N:=binary64) "net_royalty" 0%float
                  {| columns := fact_columns;
                     rows := [fact (N:=binary64) (day 1) (VStr "A") (VStr "t")
                                0%float 0%float] |})) = 1.
Proof. reflexivity. Qed.

(** C4 as the specification words it fails: the loader neither trims a
    text nor takes an empty text for a null. *)
Lemma load_keeps_padding_and_empty :
  is_done (load64 padded_source) = true /\
  column "artist" padded_source = [VStr " a "; VStr ""] /\
  column "artist" (frame_of (load64 padded_source)) = [VStr " a "; VStr ""] /\
  spec_fill_text (N:=binary64) sample_repr "(sem artista)"
    <$> column "artist" padded_source = ["a"; "(sem artista)"].
Proof. repeat split; vm_compute; reflexivity. Qed.

Lemma load_fills_categoricals_witness :
  is_done (load64 padded_source) = true /\
  "artist" ∈ columns (frame_of (load64 padded_source)).
Proof.
  split; [vm_compute; reflexivity|].
  refine (proj1 (load_fills_categoricals (N:=binary64) sample_repr float_to_numeric
                   sample_to_datetime padded_source
                   (frame_of (load64 padded_source))
                   "artist" "(sem artista)" _ _)).
  - by compute_done.
  - apply (done_frame (load64 padded_source)). vm_compute; reflexivity.
Defined.

(** C5.  The search is a test for a sub-string only by intent.  The
    block lower-cases the typed text and the cells and asks
    [str.contains] for the one in the other, but leaves [regex] at its
    default, so the text is run as a regular expression.  At the search
    "a.c" the row titled "abc" is kept, although "abc" does not hold
    "a.c" and the sub-string search keeps no row; at the search "(" the
    script raises, where the sub-string search finds the row by the "("
    of its artist, "(sem artista)". *)
Theorem search_dot_matches_any :
  is_done (load64 dotted_source) = true /\
  column "track_title" (frame_of (load64 dotted_source)) = [VStr "abc"] /\
  Text.contains "abc" "a.c" = false /\
  is_done (search_filter (N:=binary64) sample_repr sample_regex "a.c"
             (frame_of (load64 dotted_source))) = true /\
  column "track_title"
    (frame_of (search_filter (N:=binary64) sample_repr sample_regex "a.c"
                 (frame_of (load64 dotted_source)))) = [VStr "abc"] /\
  rows (spec_search_filter (N:=binary64) sample_repr "a.c"
          (frame_of (load64 dotted_source))) = [] /\
  search_filter (N:=binary64) sample_repr sample_regex "("
    (frame_of (load64 dotted_source)) = Raised /\
  column "artist" (frame_of (load64 dotted_source)) = [VStr "(sem artista)"] /\
  column "track_title"
    (spec_search_filter (N:=binary64) sample_repr "("
       (frame_of (load64 dotted_source))) = [VStr "abc"].
Proof. repeat split; vm_compute; reflexivity. Qed.

(** C6 as stated fails on binary64: 1e16 + 1 - 1e16 is 0 row by row,
    while the groups give 0 for A and 1 for B, which add up to 1 in
    whichever order the sort leaves them. *)
Lemma rounding_breaks_the_total :
  is_done (run64 rounding_source (no_filters (OneDate 738000) "")) = true /\
  column "net_royalty"
    (frame_of (run64 rounding_source (no_filters (OneDate 738000) "")))
    = [f64 1e16; f64 1; f64 (-1e16)] /\
  total_rev (frame_of (run64 rounding_source (no_filters (OneDate 738000) "")))
    = 0%float /\
  by_dist (N:=binary64) argsort_forward
    (frame_of (run64 rounding_source (no_filters (OneDate 738000) "")))
    = [total64 "B" 1 1; total64 "A" 0 2] /\
  series_sum (N:=binary64)
    (g_net_royalty <$> by_dist (N:=binary64) argsort_forward
       (frame_of (run64 rounding_source (no_filters (OneDate 738000) ""))))
    = 1%float /\
  (forall srt : list float -> list nat, indexes (N:=binary64) srt ->
     series_sum (N:=binary64)
       (g_net_royalty <$> by_dist (N:=binary64) srt
          (frame_of (run64 rounding_source (no_filters (OneDate 738000) ""))))
     = 1%float).
Proof.
  split; [vm_compute; reflexivity|]. split; [vm_compute; reflexivity|].
  split; [vm_compute; reflexivity|]. split; [vm_compute; reflexivity|].
  split; [vm_compute; reflexivity|].
  intros srt Hidx. unfold by_dist.
  pose proof (sort_values_perm (N:=binary64) srt g_net_royalty
                (group_sums "distributor"
                   (rows (frame_of (run64 rounding_source
                                      (no_filters (OneDate 738000) "")))))
                Hidx) as Hp.
  assert (group_sums (N:=binary64) "distributor"
            (rows (frame_of (run64 rounding_source
                               (no_filters (OneDate 738000) ""))))
          = [total64 "A" 0 2; total64 "B" 1 1]) as Hg by (vm_compute; reflexivity).
  rewrite Hg in Hp |- *. symmetry in Hp.
  apply Permutation_length_2_inv in Hp as [-> | ->]; vm_compute; reflexivity.
Qed.

(** ** Floats that add without rounding *)

Lemma in_whole_from (n : nat) (z a : Z) :
  (z <= a < z + Z.of_nat n)%Z -> In a (whole_from n z).
Proof.
  revert z. induction n as [|n IH]; intros z Ha; [lia|]. cbn.
  destruct (Z.eq_dec z a) as [->|Hne]; [by left|]. right. apply IH. lia.
Qed.

Lemma in_whole_range (B a : Z) : (Z.abs a <= B)%Z -> In a (whole_range B).
Proof. intros Ha. apply in_whole_from. lia. Qed.

Lemma window_checked (B : Z) :
  window_check B = true -> exact_window (N:=binary64) Z2f B.
Proof.
  intros H. split; [reflexivity|]. intros a b Ha Hb Hab.
  unfold window_check in H. cbv zeta in H. rewrite forallb_forall in H.
  specialize (H a (in_whole_range B a Ha)). rewrite forallb_forall in H.
  specialize (H b (in_whole_range B b Hb)).
  apply orb_true_iff in H as [H|H]; [apply Z.ltb_lt in H; lia|].
  by apply FloatAxioms.Leibniz.eqb_spec in H.
Qed.

Lemma binary64_window : exact_window (N:=binary64) Z2f 512.
Proof. apply window_checked. vm_compute. reflexivity. Qed.

Example whole_floats :
  f2Z 2.75%float = 2%Z /\ f2Z (-2.75)%float = (-2)%Z /\
  f2Z 1e16%float = (10 ^ 16)%Z /\ f2Z 0%float = 0%Z /\
  float_to_int infinity = None /\ float_to_int nan = None /\
  Z2f 50 = 50%float /\ Z2f (-3) = (-3)%float.
Proof. repeat split; vm_compute; reflexivity. Qed.

(** The sample table of two titles holds whole amounts well within the
    bound. *)
Lemma duet_revenue_whole :
  whole_amounts (N:=binary64) Z2f f2Z 512 (amounts "net_royalty" (rows duet_page)).
Proof.
  assert (amounts (N:=binary64) "net_royalty" (rows duet_page)
          = [10; 20; 1; 50]%float) as -> by (vm_compute; reflexivity).
  split; [repeat constructor; vm_compute; reflexivity|].
  apply Z.leb_le. vm_compute; reflexivity.
Qed.

Lemma duet_units_whole :
  whole_amounts (N:=binary64) Z2f f2Z 512 (amounts "units" (rows duet_page)).
Proof.
  assert (amounts (N:=binary64) "units" (rows duet_page)
          = [3; 4; 1; 1]%float) as -> by (vm_compute; reflexivity).
  split; [repeat constructor; vm_compute; reflexivity|].
  apply Z.leb_le. vm_compute; reflexivity.
Qed.

Lemma grouped_revenue_complete_witness :
  is_done (run64 duet_source (no_filters (OneDate 738000) "")) = true /\
  amounts (N:=binary64) "net_royalty" (rows duet_page) = [10; 20; 1; 50]%float /\
  by_dist (N:=binary64) argsort_forward duet_page
    = [total64 "C" 50 1; total64 "A" 21 5; total64 "B" 10 3] /\
  total_rev duet_page = 81%float /\
  series_sum (N:=binary64)
    (g_net_royalty <$> by_dist (N:=binary64) argsort_forward duet_page)
  = total_rev duet_page.
Proof.
  split; [vm_compute; reflexivity|]. split; [vm_compute; reflexivity|].
  split; [vm_compute; reflexivity|]. split; [vm_compute; reflexivity|].
  refine (proj1 (proj2 (proj2 (grouped_revenue_complete (N:=binary64) sample_repr
                                 sample_regex float_to_numeric sample_to_datetime
                                 argsort_forward (Some duet_source)
                                 (no_filters (OneDate 738000) "") duet_page _ _))
                   Z2f f2Z 512%Z binary64_window duet_revenue_whole)).
  - apply argsort_forward_indexes.
  - apply (done_frame (run64 duet_source (no_filters (OneDate 738000) ""))).
    vm_compute; reflexivity.
Defined.

(** The case of the specification: one title under distributors "B" and
    "A" comes out as one row, its revenue their sum, its distributor
    "A, B". *)
Example duet_top_tracks :
  top_tracks (N:=binary64) argsort_forward
    (frame_of (run64 duet_source (no_filters (OneDate 738000) "")))
  = [track64 "other" 50 1 "C"; track64 "song" 31 8 "A, B"].
Proof. vm_compute; reflexivity. Qed.


(** The two promises alone leave the order of ties open: an indexer that
    keeps both puts B before A, which tie at 5 and stood A before B. *)
Lemma tie_order_not_fixed :
  indexes (N:=binary64) argsort_backward /\
  descends (N:=binary64) argsort_backward /\
  is_done (run64 tie_source (no_filters (OneDate 738000) "")) = true /\
  group_sums "distributor"
    (rows (frame_of (run64 tie_source (no_filters (OneDate 738000) ""))))
  = [total64 "A" 5 1; total64 "B" 5 1] /\
  by_dist (N:=binary64) argsort_backward
    (frame_of (run64 tie_source (no_filters (OneDate 738000) "")))
  = [total64 "B" 5 1; total64 "A" 5 1] /\
  (ties_keep_order (N:=binary64) g_net_royalty
     (group_sums "distributor"
        (rows (frame_of (run64 tie_source (no_filters (OneDate 738000) "")))))
     (by_dist (N:=binary64) argsort_backward
        (frame_of (run64 tie_source (no_filters (OneDate 738000) ""))))
   -> False).
Proof.
  split; [apply argsort_backward_indexes|].
  split; [apply argsort_backward_descends, binary64_before_total|].
  split; [vm_compute; reflexivity|].
  split; [vm_compute; reflexivity|]. split; [vm_compute; reflexivity|].
  intros Hties.
  edestruct (Hties 0 1) as (i' & j' & Hlt & Hi & Hj);
    [lia | vm_compute; reflexivity | vm_compute; reflexivity | reflexivity |].
  destruct i' as [|[|i']]; vm_compute in Hi; try discriminate Hi.
  destruct j' as [|[|j']]; vm_compute in Hj; try discriminate Hj; lia.
Qed.

Lemma date_range_filter_witness :
  is_done (load64 duet_source) = true /\
  series_min (column "period_date" (frame_of (load64 duet_source)))
    = Some 738000%Z /\
  series_max (column "period_date" (frame_of (load64 duet_source)))
    = Some 738040%Z /\
  date_bounds 738000 738040 (OneDate 738031) = (738000%Z, 738040%Z) /\
  date_filter 738000 738040 (frame_of (load64 duet_source))
    = frame_of (load64 duet_source).
Proof.
  split; [vm_compute; reflexivity|].
  split; [vm_compute; reflexivity|]. split; [vm_compute; reflexivity|].
  split; [reflexivity|].
  refine (proj2 (proj2 (proj2 (proj2 (proj2 (proj2
            (date_range_filter (N:=binary64) sample_repr float_to_numeric
               sample_to_datetime duet_source (frame_of (load64 duet_source))
               738000 738040 _ _ _))))))).
  - apply (done_frame (load64 duet_source)). vm_compute; reflexivity.
  - vm_compute; reflexivity.
  - vm_compute; reflexivity.
Defined.

Lemma no_period_no_dashboard_witness :
  Forall (fun p => p = None)
    (sample_to_datetime (column (N:=binary64) "period" unparsed_source)) /\
  dashboard (N:=binary64) sample_repr sample_regex float_to_numeric sample_to_datetime
    argsort_forward sample_strftime_ym float_to_int (Some unparsed_source) (no_filters (OneDate 738000) "")
  = Raised.
Proof.
  assert (Forall (fun p => p = None)
            (sample_to_datetime (column (N:=binary64) "period" unparsed_source)))
    as Hnone by (repeat constructor).
  split; [exact Hnone|].
  refine (proj2 (proj2 (no_period_no_dashboard (N:=binary64) sample_repr
                          sample_regex float_to_numeric sample_to_datetime
                          argsort_forward sample_strftime_ym float_to_int
                          unparsed_source (no_filters (OneDate 738000) "") _))).
  right. exact Hnone.
Defined.

(** * The rest of the script *)


Lemma filter_filter_and {A : Type} (p q : A -> bool) (l : list A) :
  List.filter q (List.filter p l) = List.filter (fun x => p x && q x) l.
Proof.
  induction l as [|x l IH]; simpl; [done|].
  destruct (p x); simpl; [destruct (q x)|]; by rewrite IH.
Qed.

Lemma filter_true {A : Type} (l : list A) : List.filter (fun _ => true) l = l.
Proof. induction l; simpl; congruence. Qed.

Section PageFacts.
Context {N : Numeric}.
Variable repr : value -> string.
Variable regex : string -> option (string -> bool).
Variable to_numeric : value -> num.
Variable to_datetime : list value -> list (option timestamp).
Variable argsort_desc : list num -> list nat.
Variable strftime_ym : timestamp -> string.
Variable to_int : num -> option Z.

Lemma isin_filter_rows (c : string) (sel : list string) (f : DataFrame) :
  columns (isin_filter c sel f) = columns f /\
  rows (isin_filter c sel f) = List.filter (sel_ok c sel) (rows f).
Proof.
  destruct sel; simpl; [|done]. by rewrite filter_true.
Qed.

Lemma min_filter_rows (c : string) (t : num) (f : DataFrame) :
  columns (min_filter c t f) = columns f /\
  rows (min_filter c t f) = List.filter (min_ok c t) (rows f).
Proof.
  unfold min_filter, min_ok. destruct (nltb nzero t); simpl; [done|].
  by rewrite filter_true.
Qed.

Lemma search_filter_rows (pat : string) (f g : DataFrame) :
  search_filter repr regex pat f = Done g ->
  columns g = columns f /\
  rows g = List.filter (search_ok repr regex pat (searched f)) (rows f).
Proof.
  unfold search_filter, search_ok, searched. destruct pat as [|a pat].
  - intros [= <-]. by rewrite filter_true.
  - destruct (List.filter _ search_columns) as [|c0 cols]; [done|].
    destruct (regex (String a pat)) as [m|]; [|done].
    by intros [= <-].
Qed.

Lemma searched_columns (f g : DataFrame) :
  columns f = columns g -> searched f = searched g.
Proof.
  intros Hc. unfold searched, has_column. by rewrite Hc.
Qed.

Lemma select_all (p : gmap string value -> bool) (f : DataFrame) :
  Forall (fun r => p r = true) (rows f) -> select p f = f.
Proof.
  intros H. destruct f as [cols rs]. unfold select. cbn [columns rows] in *.
  f_equal. by apply filter_all.
Qed.

Lemma isin_all_options (c : string) (f : DataFrame) :
  Forall (fun r => exists s, cell r c = VStr s) (rows f) ->
  isin_filter c (options c f) f = f.
Proof.
  intros H. unfold isin_filter. destruct (options c f) as [|k ks] eqn:E; [done|].
  rewrite <- E. apply select_all. rewrite Forall_forall in H |- *.
  intros r Hr. destruct (H r Hr) as [s Hs]. rewrite Hs. cbn [isin].
  apply bool_decide_eq_true. unfold options.
  apply (elem_of_group_keys c s (rows f)). exists r. split; [done|].
  unfold key_of. by rewrite Hs.
Qed.

Lemma date_filter_full (src df : DataFrame) (lo hi : Z) :
  load_data repr to_numeric to_datetime (Some src) = Done df ->
  series_min (column "period_date" df) = Some lo ->
  series_max (column "period_date" df) = Some hi ->
  date_filter lo hi df = df.
Proof.
  intros Hl Hlo Hhi. apply select_all.
  pose proof (loaded_has_dates _ _ _ _ _ Hl) as Hd.
  rewrite Forall_forall in Hd |- *. intros r Hr. destruct (Hd r Hr) as [d Hc].
  assert (VDate d ∈ column "period_date" df) as Hin.
  { unfold column. apply list_elem_of_fmap. exists r. by rewrite Hc. }
  rewrite Hc. cbn [date_in]. apply andb_true_intro. split; apply Z.leb_le.
  - by apply (series_min_le _ _ _ Hlo).
  - by apply (series_max_ge _ _ _ Hhi).
Qed.

Lemma filtered_eval (src : option DataFrame) (ui : sidebar) (df : DataFrame)
  (lo hi : Z) :
  load_data repr to_numeric to_datetime src = Done df ->
  series_min (column "period_date" df) = Some lo ->
  series_max (column "period_date" df) = Some hi ->
  filtered repr regex to_numeric to_datetime src ui =
  apply_filters repr regex df (read_sidebar lo hi (period_pick ui) ui).
Proof.
  intros Hl Hlo Hhi. unfold filtered. rewrite Hl.
  cbn [mbind outcome_bind]. rewrite Hlo, Hhi. reflexivity.
Qed.

Lemma search_filter_same_columns (pat : string) (g g' x : DataFrame) :
  columns g = columns g' ->
  search_filter repr regex pat g = Done x ->
  exists x', search_filter repr regex pat g' = Done x'.
Proof.
  intros Hc. unfold search_filter. destruct pat as [|a pat]; [by eexists|].
  fold (searched g) (searched g'). rewrite (searched_columns g g' Hc).
  destruct (searched g') as [|c0 cols]; [done|].
  destruct (regex (String a pat)); [by eexists|done].
Qed.

Lemma filter_idem {A : Type} (p : A -> bool) (l : list A) :
  List.filter p (List.filter p l) = List.filter p l.
Proof.
  rewrite filter_filter_and. apply filter_ext. intros x. apply andb_diag.
Qed.

Lemma frame_eq (f g : DataFrame) :
  columns f = columns g -> rows f = rows g -> f = g.
Proof. destruct f, g. cbn. by intros -> ->. Qed.

Lemma apply_filters_mask (df f : DataFrame) (p : filters) :
  apply_filters repr regex df p = Done f ->
  columns f = columns df /\
  rows f = List.filter (passes repr regex p (searched df)) (rows df).
Proof.
  unfold apply_filters. intros H.
  apply outcome_bind_done in H as (g & Hs & H). apply Done_inj in H. subst f.
  destruct (search_filter_rows _ _ _ Hs) as [Hgc Hgr].
  assert (forall c sel h, columns (isin_filter c sel h) = columns h) as Hic
    by (intros; apply isin_filter_rows).
  assert (forall c sel h, rows (isin_filter c sel h)
            = List.filter (sel_ok c sel) (rows h)) as Hir
    by (intros; apply isin_filter_rows).
  assert (forall c t h, columns (min_filter c t h) = columns h) as Hmc
    by (intros; apply min_filter_rows).
  assert (forall c t h, rows (min_filter c t h)
            = List.filter (min_ok c t) (rows h)) as Hmr
    by (intros; apply min_filter_rows).
  split.
  - rewrite !Hmc, Hgc, !Hic. done.
  - rewrite !Hmr, Hgr, !Hir.
    rewrite (searched_columns _ df) by (rewrite !Hic; done).
    unfold date_filter, select. cbn [rows].
    rewrite !filter_filter_and. apply filter_ext. intros r. unfold passes.
    by rewrite !andb_assoc.
Qed.

Lemma apply_filters_same_columns (df df' f : DataFrame) (p : filters) :
  columns df = columns df' ->
  apply_filters repr regex df p = Done f ->
  exists f', apply_filters repr regex df' p = Done f'.
Proof.
  intros Hc. unfold apply_filters. intros H.
  apply outcome_bind_done in H as (g & Hs & _).
  eapply (search_filter_same_columns _ _
            (isin_filter "country" (sel_country p)
               (isin_filter "store" (sel_store p)
                  (isin_filter "classification" (sel_class p)
                     (isin_filter "distributor" (sel_dist p)
                        (date_filter (start_date p) (end_date p) df'))))))
    in Hs as [x' Hx'].
  - rewrite Hx'. cbn [mbind outcome_bind]. by eexists.
  - rewrite !(proj1 (isin_filter_rows _ _ _)). exact Hc.
Qed.

(** X2.  Filtering is idempotent.  For every value of the filters and
    every search text with which the filter block ends with a frame
    (with any other it raises), the block run again on that frame with
    the same filters gives the frame back. *)
Theorem apply_filters_idempotent (df f : DataFrame) (p : filters) :
  apply_filters repr regex df p = Done f ->
  apply_filters repr regex f p = Done f.
Proof.
  intros H. destruct (apply_filters_mask _ _ _ H) as [Hc Hr].
  destruct (apply_filters_same_columns df f f p (eq_sym Hc) H) as [f' H'].
  rewrite H'. f_equal.
  destruct (apply_filters_mask _ _ _ H') as [Hc' Hr'].
  apply frame_eq; [done|].
  rewrite Hr', (searched_columns f df Hc), Hr. apply filter_idem.
Qed.

(** X3.  The page as it first comes up shows the whole table: with the
    widgets at their defaults (the full period, every distributor and
    classification ticked, no store, no country, no search text, both
    minimums at zero) the filter block returns the loaded frame itself. *)
Theorem default_sidebar_shows_all (src df : DataFrame) (lo hi : Z) :
  nltb nzero nzero = false ->
  load_data repr to_numeric to_datetime (Some src) = Done df ->
  series_min (column "period_date" df) = Some lo ->
  series_max (column "period_date" df) = Some hi ->
  filtered repr regex to_numeric to_datetime (Some src) (default_sidebar df lo hi)
    = Done df.
Proof.
  intros Hz Hl Hlo Hhi. rewrite (filtered_eval _ _ df lo hi Hl Hlo Hhi).
  unfold apply_filters, read_sidebar, default_sidebar.
  cbn [start_date end_date sel_dist sel_class sel_store sel_country search
       min_rev min_units period_pick dist_pick class_pick store_pick
       country_pick search_text rev_input units_input date_bounds fst snd].
  rewrite (date_filter_full src df lo hi Hl Hlo Hhi).
  rewrite isin_all_options
    by (eapply (loaded_has_text repr to_numeric to_datetime src df
                  "distributor" "(sem distribuidora)"); [compute_done|done]).
  rewrite isin_all_options
    by (eapply (loaded_has_text repr to_numeric to_datetime src df
                  "classification" "incerto"); [compute_done|done]).
  cbn [isin_filter]. change (Text.lower (Text.strip "")) with "".
  cbn [search_filter mbind outcome_bind].
  by rewrite !min_filter_off.
Qed.

(** X4.  Ticking every option of a multiselect shows what ticking none
    shows: on the loaded frame the filter on a categorical column with
    all of that column's options selected keeps every row. *)
Theorem all_options_is_no_selection (src df : DataFrame) (c fill : string) :
  (c, fill) ∈ categoricals ->
  load_data repr to_numeric to_datetime (Some src) = Done df ->
  isin_filter c (options c df) df = isin_filter c [] df.
Proof.
  intros Hc Hl. cbn [isin_filter]. apply isin_all_options.
  by apply (loaded_has_text repr to_numeric to_datetime src df c fill).
Qed.

(** X12.  A period whose end lies before its start selects nothing. *)
Theorem inverted_period_is_empty (df f : DataFrame) (p : filters) :
  (end_date p < start_date p)%Z ->
  apply_filters repr regex df p = Done f ->
  rows f = [].
Proof.
  intros Hlt H. destruct (apply_filters_mask _ _ _ H) as [_ Hr]. rewrite Hr.
  clear Hr H. induction (rows df) as [|r rs IH]; [done|]. cbn [List.filter].
  replace (passes repr regex p (searched df) r) with false; [exact IH|].
  unfold passes. destruct (cell r "period_date"); cbn [date_in andb]; try done.
  destruct (Z.leb_spec (start_date p) d), (Z.leb_spec d (end_date p));
    cbn [andb]; try done. lia.
Qed.

Lemma loaded_search_cases (src df : DataFrame) (p : filters) :
  load_data repr to_numeric to_datetime (Some src) = Done df ->
  apply_filters repr regex df p <> Halted /\
  apply_filters repr regex df p <> NotModelled /\
  (apply_filters repr regex df p = Raised <->
   search p <> "" /\ regex (search p) = None) /\
  ((exists f, apply_filters repr regex df p = Done f) <->
   search p = "" \/ is_Some (regex (search p))).
Proof.
  intros Hl.
  assert ("track_title" ∈ columns df) as Ht.
  { apply (load_categorical_cells repr to_numeric to_datetime src df
             "track_title" "(sem faixa)"); [compute_done|done]. }
  assert (Forall (fun c => c ∉ columns df) search_columns -> False) as Hcol.
  { intros Hno. rewrite Forall_forall in Hno.
    apply (Hno "track_title"); [compute_done|done]. }
  pose proof (apply_filters_cases repr regex df p) as Hcases.
  assert (apply_filters repr regex df p = Raised ->
          search p <> "" /\ regex (search p) = None) as Hr.
  { intros E. rewrite E in Hcases. destruct Hcases as [Hne [Hno|Hre]]; [|done].
    by destruct Hcol. }
  assert (search p = "" \/ is_Some (regex (search p)) ->
          exists f, apply_filters repr regex df p = Done f) as Hd.
  { intros Hs. destruct (apply_filters repr regex df p) as [f| | |] eqn:E;
      [by eexists|done| |done].
    destruct (Hr eq_refl) as [Hne Hnone].
    destruct Hs as [Hs|[m Hm]]; [done|congruence]. }
  split; [intros E; by rewrite E in Hcases|].
  split; [intros E; by rewrite E in Hcases|].
  split; [split; [exact Hr|]|split; [|exact Hd]].
  - intros [Hne Hnone].
    destruct (apply_filters repr regex df p) as [f| | |] eqn:E; try done.
    unfold apply_filters in E. apply outcome_bind_done in E as (g & Hg & _).
    rewrite search_filter_error in Hg; done.
  - intros [f Hf]. destruct (search p) as [|a s'] eqn:Es; [by left|]. right.
    destruct (regex (String a s')) as [m|] eqn:Hm; [by eexists|].
    unfold apply_filters in Hf. apply outcome_bind_done in Hf as (g & Hg & _).
    rewrite Es in Hg. rewrite search_filter_error in Hg; done.
Qed.

(** X11.  After a load the search cannot hit the missing-column error:
    the loader makes [track_title], [release_title] and [artist], so the
    mask is never the bare [False].  On a loaded frame the filter block
    never halts the script; it raises exactly when a search is typed
    that is no regular expression, and ends with a frame otherwise. *)
Theorem search_finds_a_column (src df : DataFrame) (p : filters) :
  load_data repr to_numeric to_datetime (Some src) = Done df ->
  apply_filters repr regex df p <> Halted /\
  apply_filters repr regex df p <> NotModelled /\
  (apply_filters repr regex df p = Raised <->
   search p <> "" /\ regex (search p) = None) /\
  ((exists f, apply_filters repr regex df p = Done f) <->
   search p = "" \/ is_Some (regex (search p))).
Proof. apply loaded_search_cases. Qed.

Lemma series_bounds_exist (df : DataFrame) :
  rows df <> [] ->
  Forall (fun r => exists d, cell r "period_date" = VDate d) (rows df) ->
  exists lo hi, series_min (column "period_date" df) = Some lo /\
                series_max (column "period_date" df) = Some hi.
Proof.
  unfold series_min, series_max, column.
  destruct (rows df) as [|r rs]; [done|]. intros _ Hall.
  inversion Hall as [|? ? [d Hd] _]; subst.
  cbn [fmap list_fmap]. rewrite Hd. cbn. by eexists _, _.
Qed.

(** ** The loader, case by case *)

Lemma has_column_assign_same (c : string) g (df : DataFrame) :
  has_column c df = true -> columns (assign c g df) = columns df.
Proof.
  unfold has_column, assign, with_column. cbn [columns]. by intros ->.
Qed.

Lemma load_data_cases (src : option DataFrame) :
  match load_data repr to_numeric to_datetime src with
  | Done df =>
      exists s, src = Some s /\
        "net_royalty" ∈ columns s /\ "units" ∈ columns s /\ "period" ∈ columns s
  | Halted => src = None
  | Raised =>
      exists s, src = Some s /\
        ("net_royalty" ∉ columns s \/ "units" ∉ columns s \/ "period" ∉ columns s)
  | NotModelled => False
  end.
Proof.
  destruct src as [s|]; [|done]. unfold load_data, coerce_numeric.
  destruct (has_column "net_royalty" s) eqn:E1; cbn [mbind outcome_bind].
  2:{ exists s. split; [done|]. left. intros H. apply has_column_true in H.
      congruence. }
  rewrite has_column_assign_ne by done.
  destruct (has_column "units" s) eqn:E2; cbn [mbind outcome_bind].
  2:{ exists s. split; [done|]. right. left. intros H.
      apply has_column_true in H. congruence. }
  unfold parse_period. rewrite !has_column_assign_ne by done.
  destruct (has_column "period" s) eqn:E3; cbn [mbind outcome_bind].
  2:{ exists s. split; [done|]. right. right. intros H.
      apply has_column_true in H. congruence. }
  exists s. by rewrite <- !has_column_true.
Qed.

(** X6.  What the loader comes to, case by case: it stops the script
    exactly when the file is missing; with the file there it raises
    exactly when one of [net_royalty], [units], [period] is not a column
    of it, and otherwise returns a frame. *)
Theorem load_data_outcome (src : option DataFrame) :
  (load_data repr to_numeric to_datetime src = Halted <-> src = None) /\
  (load_data repr to_numeric to_datetime src = Raised <->
   exists s, src = Some s /\
     ("net_royalty" ∉ columns s \/ "units" ∉ columns s \/ "period" ∉ columns s)) /\
  ((exists df, load_data repr to_numeric to_datetime src = Done df) <->
   exists s, src = Some s /\
     "net_royalty" ∈ columns s /\ "units" ∈ columns s /\ "period" ∈ columns s) /\
  load_data repr to_numeric to_datetime src <> NotModelled.
Proof.
  pose proof (load_data_cases src) as H.
  destruct (load_data repr to_numeric to_datetime src) as [df| | |] eqn:E.
  - destruct H as (s & -> & H1 & H2 & H3).
    split; [split; done|]. split; [|split; [|done]].
    + split; [done|]. intros (s' & [= <-] & [H|[H|H]]); by destruct H.
    + split; [|by eexists]. intros _. by exists s.
  - subst src. split; [done|]. split; [|split; [|done]].
    + split; [done|]. by intros (s & ? & _).
    + split; [by intros [df ?]|]. by intros (s & ? & _).
  - destruct H as (s & -> & H). split; [split; done|].
    split; [|split; [|done]].
    + split; [|done]. intros _. by exists s.
    + split; [by intros [df ?]|].
      intros (s' & [= <-] & H1 & H2 & H3). by destruct H as [H|[H|H]]; destruct H.
  - done.
Qed.

Lemma Forall2_both {A B : Type} (R S : A -> B -> Prop) (l : list A) (k : list B) :
  Forall2 R l k -> Forall2 S l k -> Forall2 (fun a b => R a b /\ S a b) l k.
Proof.
  intros H. induction H; intros H'; inversion H'; subst; constructor; auto.
Qed.

Lemma Forall_sublist_of {A : Type} (P : A -> Prop) (k l : list A) :
  k `sublist_of` l -> Forall P l -> Forall P k.
Proof.
  intros Hsub Hl. apply Forall_forall. intros x Hx.
  apply (proj1 (Forall_forall _ _) Hl). by eapply elem_of_sublist.
Qed.

Lemma net_royalty_apart : "net_royalty" ∉ categoricals.*1.
Proof. by compute_done. Qed.

Lemma units_apart : "units" ∉ categoricals.*1.
Proof. by compute_done. Qed.

Lemma period_apart : "period" ∉ categoricals.*1.
Proof. by compute_done. Qed.

Lemma assign_sets_all (c : string) g (df : DataFrame) (P : value -> Prop) :
  (forall r0, P (g r0)) -> Forall (fun r => P (cell r c)) (rows (assign c g df)).
Proof.
  intros H. unfold assign. cbn [rows]. apply Forall_fmap, Forall_forall.
  intros r _. cbn. rewrite cell_insert. apply H.
Qed.

Lemma assign_keeps_all (c c' : string) g (df : DataFrame) (P : value -> Prop) :
  c <> c' -> Forall (fun r => P (cell r c)) (rows df) ->
  Forall (fun r => P (cell r c)) (rows (assign c' g df)).
Proof.
  intros Hne H. unfold assign. cbn [rows]. apply Forall_fmap.
  eapply Forall_impl; [exact H|]. intros r Hr. cbn.
  by rewrite cell_insert_ne.
Qed.

(** A number column of the loaded frame holds what line 20 or 21 put
    there. *)
Lemma loaded_numeric_cells (src df : DataFrame) (c : string) :
  c = "net_royalty" \/ c = "units" ->
  load_data repr to_numeric to_datetime (Some src) = Done df ->
  Forall (fun r => exists x, cell r c = VFloat (fillna0 x)) (rows df).
Proof.
  intros Hc Hload.
  destruct (load_data_done _ _ _ _ _ Hload) as (df1 & df2 & df3 & H1 & H2 & H3 & ->).
  apply coerce_numeric_done in H1. apply coerce_numeric_done in H2.
  assert (Forall (fun r => exists x, cell r c = VFloat (fillna0 x)) (rows df2)) as H02.
  { subst df2 df1. destruct Hc as [-> | ->].
    - apply (assign_keeps_all _ _ _ _ (fun v => exists x, v = VFloat (fillna0 x)));
        [done|].
      apply (assign_sets_all _ _ _ (fun v => exists x, v = VFloat (fillna0 x))).
      by eexists.
    - apply (assign_sets_all _ _ _ (fun v => exists x, v = VFloat (fillna0 x))).
      by eexists. }
  destruct (parse_period_rows _ _ _ H3) as (kept & Hsub & Hall).
  assert (c <> "period" /\ c <> "period_date" /\ c ∉ categoricals.*1) as (Hn1 & Hn2 & Hn3).
  { destruct Hc as [-> | ->]; repeat split; try done;
      [apply net_royalty_apart | apply units_apart]. }
  destruct (fill_loop_keeps repr c categoricals df3 Hn3) as [Hk _].
  apply (Forall2_Forall_r _ _ _ _ (Forall2_compose _ _ _ _ _ Hall Hk)).
  pose proof (Forall_sublist_of _ _ _ Hsub H02) as Hkept.
  eapply Forall_impl; [exact Hkept|].
  intros r0 [x Hx] r (r1 & (t & ->) & ->).
  rewrite !cell_insert_ne by done. by exists x.
Qed.

(** X8.  In the loaded frame [net_royalty] and [units] hold a float in
    every row, and never NaN: what does not read as a number has become
    zero. *)
Theorem loaded_numbers_are_numbers (src df : DataFrame) :
  nisnan nzero = false ->
  load_data repr to_numeric to_datetime (Some src) = Done df ->
  Forall (fun r =>
            (exists x, cell r "net_royalty" = VFloat x /\ nisnan x = false /\
                       num_cell (cell r "net_royalty") = x) /\
            (exists u, cell r "units" = VFloat u /\ nisnan u = false /\
                       num_cell (cell r "units") = u)) (rows df).
Proof.
  intros Hz Hload.
  assert (forall x, nisnan (fillna0 x) = false) as Hfill.
  { intros x. unfold fillna0. by destruct (nisnan x) eqn:E. }
  pose proof (loaded_numeric_cells src df "net_royalty" (or_introl eq_refl) Hload) as Hr.
  pose proof (loaded_numeric_cells src df "units" (or_intror eq_refl) Hload) as Hu.
  rewrite Forall_forall in Hr, Hu |- *. intros r Hin.
  destruct (Hr r Hin) as [x Hx]. destruct (Hu r Hin) as [u Hu'].
  split; [exists (fillna0 x) | exists (fillna0 u)];
    (split; [done|]; split; [apply Hfill|]).
  - rewrite Hx. cbn [num_cell]. by rewrite Hfill.
  - rewrite Hu'. cbn [num_cell]. by rewrite Hfill.
Qed.

Lemma loaded_periods (src df : DataFrame) :
  load_data repr to_numeric to_datetime (Some src) = Done df ->
  Forall (fun r => exists t, cell r "period" = VTimestamp t /\
                             cell r "period_date" = VDate (ts_date t)) (rows df).
Proof.
  intros Hload.
  destruct (load_data_done _ _ _ _ _ Hload) as (df1 & df2 & df3 & H1 & H2 & H3 & ->).
  destruct (parse_period_rows _ _ _ H3) as (kept & _ & Hall).
  destruct (fill_loop_keeps repr "period_date" categoricals df3 period_date_apart)
    as [Hk _].
  destruct (fill_loop_keeps repr "period" categoricals df3 period_apart)
    as [Hk' _].
  pose proof (Forall2_both _ _ _ _ Hk Hk') as Hboth.
  apply (Forall2_Forall_r _ _ _ _ (Forall2_compose _ _ _ _ _ Hall Hboth)).
  apply Forall_forall. intros r0 _ r (r1 & (t & ->) & Hd & Hp).
  exists t. rewrite Hp, Hd. rewrite cell_insert.
  rewrite cell_insert_ne by done. by rewrite cell_insert.
Qed.

(** X9.  No row of the loaded frame is without a period: [period] holds
    a timestamp in every row, and [period_date] the calendar day of that
    timestamp. *)
Theorem loaded_periods_are_timestamps (src df : DataFrame) :
  load_data repr to_numeric to_datetime (Some src) = Done df ->
  Forall (fun r => exists t, cell r "period" = VTimestamp t /\
                             cell r "period_date" = VDate (ts_date t) /\
                             isna (cell r "period") = false) (rows df).
Proof.
  intros Hload. eapply Forall_impl; [exact (loaded_periods _ _ Hload)|].
  intros r (t & Hp & Hd). exists t. by rewrite Hp, Hd.
Qed.

(** ** Labels and row count of the loaded frame *)

Lemma with_column_prefix (c : string) (cols : list string) :
  cols `prefix_of` with_column c cols.
Proof.
  unfold with_column. destruct (bool_decide (c ∈ cols)); [done|].
  by apply prefix_app_r.
Qed.

Lemma with_column_nodup (c : string) (cols : list string) :
  NoDup cols -> NoDup (with_column c cols).
Proof.
  intros H. unfold with_column. destruct (bool_decide (c ∈ cols)) eqn:E; [done|].
  apply bool_decide_eq_false in E. apply NoDup_app. split; [done|].
  split; [|apply NoDup_singleton].
  intros x Hx Hx'. apply list_elem_of_singleton in Hx' as ->. done.
Qed.

Lemma fill_categorical_columns (cf : string * string) (df : DataFrame) :
  columns (fill_categorical repr df cf) = with_column cf.1 (columns df).
Proof. unfold fill_categorical. by destruct (has_column cf.1 df). Qed.

Lemma fill_loop_columns (cfs : list (string * string)) (df : DataFrame) :
  columns df `prefix_of` columns (foldl (fill_categorical repr) df cfs) /\
  (NoDup (columns df) -> NoDup (columns (foldl (fill_categorical repr) df cfs))) /\
  (forall c, c ∈ columns (foldl (fill_categorical repr) df cfs) <->
             c ∈ columns df \/ c ∈ cfs.*1).
Proof.
  revert df. induction cfs as [|cf cfs IH]; intros df; cbn [foldl].
  - split; [done|]. split; [done|]. intros c. rewrite fmap_nil, elem_of_nil. clear regex to_int; tauto.
  - destruct (IH (fill_categorical repr df cf)) as (Hp & Hn & Hm).
    rewrite fill_categorical_columns in Hp, Hn, Hm.
    split; [|split].
    + etransitivity; [apply (with_column_prefix cf.1)|exact Hp].
    + intros H. by apply Hn, with_column_nodup.
    + intros c. rewrite Hm, elem_of_with_column, fmap_cons, elem_of_cons. clear regex to_int; tauto.
Qed.

Lemma load_data_columns (src df : DataFrame) :
  load_data repr to_numeric to_datetime (Some src) = Done df ->
  exists df3,
    df = foldl (fill_categorical repr) df3 categoricals /\
    columns df3 = with_column "period_date" (columns src).
Proof.
  intros Hload.
  pose proof (load_data_cases (Some src)) as Hc. rewrite Hload in Hc.
  destruct Hc as (s & [= <-] & Hn & Hu & Hp).
  destruct (load_data_done _ _ _ _ _ Hload) as (df1 & df2 & df3 & H1 & H2 & H3 & ->).
  exists df3. split; [done|].
  apply coerce_numeric_done in H1. apply coerce_numeric_done in H2.
  assert (columns df2 = columns src) as Hc2.
  { subst df2 df1. rewrite has_column_assign_same.
    - apply has_column_assign_same. by apply has_column_true.
    - rewrite has_column_assign_ne by done. by apply has_column_true. }
  unfold parse_period in H3.
  destruct (has_column "period" df2) eqn:E; [|done].
  apply Done_inj in H3. subst df3. cbn [assign columns select assign_series].
  rewrite Hc2. f_equal. unfold with_column.
  by rewrite (bool_decide_eq_true_2 _ Hp).
Qed.

(** X7.  The loader keeps the table's labels and adds no row: the labels
    of the source come first and in their order, after them
    [period_date] and the categorical columns the source lacks, nothing
    else; labels that were distinct stay distinct; and the loaded frame
    has at most the rows of the source. *)
Theorem load_keeps_labels (src df : DataFrame) :
  load_data repr to_numeric to_datetime (Some src) = Done df ->
  columns src `prefix_of` columns df /\
  (forall c, c ∈ columns df <->
             c ∈ columns src \/ c = "period_date" \/ c ∈ categoricals.*1) /\
  (NoDup (columns src) -> NoDup (columns df)) /\
  length (rows df) <= length (rows src).
Proof.
  intros Hload.
  destruct (load_data_columns _ _ Hload) as (df3 & -> & Hc3).
  destruct (fill_loop_columns categoricals df3) as (Hp & Hn & Hm).
  rewrite Hc3 in Hp, Hn, Hm.
  split; [|split; [|split]].
  - etransitivity; [apply (with_column_prefix "period_date")|exact Hp].
  - intros c. rewrite Hm, elem_of_with_column. clear regex to_int; tauto.
  - intros H. by apply Hn, with_column_nodup.
  - destruct (load_categorical_cells repr to_numeric to_datetime src _
                "artist" "(sem artista)" ltac:(compute_done) Hload)
      as (_ & kept & Hsub & Hall).
    rewrite <- (Forall2_length _ _ _ Hall). by apply sublist_length.
Qed.

(** ** A page without rows *)

Lemma omap_lookup_nil {A : Type} (idx : list nat) :
  omap (fun i => (@nil A) !! i) idx = [].
Proof. induction idx as [|i idx IH]; [done|]. by cbn. Qed.

Lemma sort_values_nil {A : Type} (key : A -> num) :
  sort_values_desc argsort_desc key (@nil A) = [].
Proof. unfold sort_values_desc. apply omap_lookup_nil. Qed.

(** X14.  When no row passes the filters the page still renders: both
    totals are zero, the count of tracks is zero and every table is
    empty, whatever the sort does on an empty column. *)
Theorem empty_selection_page (f : DataFrame) :
  rows f = [] ->
  total_rev f = nzero /\ total_units f = nzero /\ n_tracks f = 0 /\
  by_dist argsort_desc f = [] /\ by_class argsort_desc f = [] /\
  by_store argsort_desc f = [] /\ by_country argsort_desc f = [] /\
  top_tracks argsort_desc f = [] /\
  (has_column "period" f = true -> timeline strftime_ym f = Done []).
Proof.
  intros H.
  unfold total_rev, total_units, n_tracks, by_dist, by_class, by_store,
    by_country, top_tracks, timeline, add_period_ym. rewrite H.
  change (group_sums _ []) with (@nil group_total).
  change (track_groups []) with (@nil track_row).
  rewrite !sort_values_nil. repeat split. intros ->.
  cbn [forallb mbind outcome_bind assign rows]. by rewrite H.
Qed.

(** ** How many rows a table has *)

Lemma sort_values_length {A : Type} (key : A -> num) (l : list A) :
  indexes argsort_desc -> length (sort_values_desc argsort_desc key l) = length l.
Proof. intros H. by rewrite (sort_values_perm argsort_desc key l H). Qed.

Lemma group_sums_length (c : string) (rs : list (gmap string value)) :
  length (group_sums c rs) = length (group_keys c rs).
Proof. unfold group_sums. by rewrite length_fmap. Qed.

Lemma track_groups_length (f : DataFrame) :
  length (track_groups (rows f)) = n_tracks f.
Proof.
  unfold track_groups, n_tracks, group_keys.
  by rewrite length_fmap, merge_sort_Permutation.
Qed.

(** X15.  The size of each table: one row for each distinct distributor
    and for each distinct classification among the filtered rows; for
    stores and countries the same cut at twenty; and the top-tracks table
    has as many rows as the page counts unique tracks, cut at thirty. *)
Theorem table_sizes (f : DataFrame) :
  indexes argsort_desc ->
  length (by_dist argsort_desc f) = length (group_keys "distributor" (rows f)) /\
  length (by_class argsort_desc f) = length (group_keys "classification" (rows f)) /\
  length (by_store argsort_desc f) = 20 `min` length (group_keys "store" (rows f)) /\
  length (by_country argsort_desc f)
    = 20 `min` length (group_keys "country" (rows f)) /\
  length (top_tracks argsort_desc f) = 30 `min` n_tracks f.
Proof.
  intros H. unfold by_dist, by_class, by_store, by_country, top_tracks.
  rewrite !length_take, !sort_values_length, !group_sums_length,
    track_groups_length by done.
  done.
Qed.

(** ** The rows of a grouped table *)

Lemma group_sums_keys (c : string) (rs : list (gmap string value)) :
  g_key <$> group_sums c rs = group_keys c rs.
Proof.
  unfold group_sums. rewrite <- list_fmap_compose. apply list_fmap_id.
Qed.

Lemma group_sums_rows (c : string) (rs : list (gmap string value)) :
  Forall (group_of c rs) (group_sums c rs).
Proof.
  apply Forall_forall. intros g Hg. unfold group_sums in Hg.
  apply list_elem_of_fmap in Hg as (k & -> & Hk). split; [|done].
  by apply elem_of_group_keys.
Qed.

Lemma sorted_groups (c : string) (rs : list (gmap string value)) (n : nat) :
  indexes argsort_desc ->
  NoDup (g_key <$> take n (sort_values_desc argsort_desc g_net_royalty
                             (group_sums c rs))) /\
  Forall (group_of c rs)
    (take n (sort_values_desc argsort_desc g_net_royalty (group_sums c rs))).
Proof.
  intros H.
  pose proof (sort_values_perm argsort_desc g_net_royalty (group_sums c rs) H) as Hp.
  split.
  - refine (sublist_NoDup _ _ _ (fmap_sublist g_key _ _ (sublist_take _ n))).
    rewrite Hp, group_sums_keys. apply group_keys_nodup.
  - apply Forall_take. rewrite Hp. apply group_sums_rows.
Qed.

Lemma sorted_groups_members (c : string) (rs : list (gmap string value)) (k : string) :
  indexes argsort_desc ->
  k ∈ g_key <$> sort_values_desc argsort_desc g_net_royalty (group_sums c rs) <->
  exists r, r ∈ rs /\ key_of c r = Some k.
Proof.
  intros H.
  rewrite (sort_values_perm argsort_desc g_net_royalty (group_sums c rs) H).
  rewrite group_sums_keys. apply elem_of_group_keys.
Qed.

(** X16.  What a row of a grouped table is: its key is a value some
    filtered row holds in the grouping column, no key comes twice, and
    its two numbers are the sums of [net_royalty] and of [units] over
    exactly the filtered rows with that key.  The tables by distributor
    and by classification have such a row for every key present. *)
Theorem grouped_tables_rows (f : DataFrame) :
  indexes argsort_desc ->
  (NoDup (g_key <$> by_dist argsort_desc f) /\
   Forall (group_of "distributor" (rows f)) (by_dist argsort_desc f) /\
   forall k, k ∈ g_key <$> by_dist argsort_desc f <->
             exists r, r ∈ rows f /\ key_of "distributor" r = Some k) /\
  (NoDup (g_key <$> by_class argsort_desc f) /\
   Forall (group_of "classification" (rows f)) (by_class argsort_desc f) /\
   forall k, k ∈ g_key <$> by_class argsort_desc f <->
             exists r, r ∈ rows f /\ key_of "classification" r = Some k) /\
  (NoDup (g_key <$> by_store argsort_desc f) /\
   Forall (group_of "store" (rows f)) (by_store argsort_desc f)) /\
  (NoDup (g_key <$> by_country argsort_desc f) /\
   Forall (group_of "country" (rows f)) (by_country argsort_desc f)).
Proof.
  intros H.
  pose proof (fun c => sorted_groups c (rows f)
                         (length (sort_values_desc argsort_desc g_net_royalty
                                    (group_sums c (rows f)))) H) as Hall.
  pose proof (fun c => sorted_groups c (rows f) 20 H) as Hcut.
  unfold by_dist, by_class, by_store, by_country.
  split; [|split; [|split]].
  - destruct (Hall "distributor") as [Hn Hf]. rewrite firstn_all in Hn, Hf.
    split; [done|]. split; [done|]. intros k. by apply sorted_groups_members.
  - destruct (Hall "classification") as [Hn Hf]. rewrite firstn_all in Hn, Hf.
    split; [done|]. split; [done|]. intros k. by apply sorted_groups_members.
  - apply Hcut.
  - apply Hcut.
Qed.

(** ** Totals of the other tables *)

Lemma sorted_group_sums (inj : Z -> num) (val : num -> Z) (B : Z) (c : string)
  (rs : list (gmap string value)) :
  exact_window inj B ->
  indexes argsort_desc ->
  Forall (fun r => is_Some (key_of c r)) rs ->
  whole_amounts inj val B (amounts "net_royalty" rs) ->
  whole_amounts inj val B (amounts "units" rs) ->
  series_sum (g_net_royalty <$> sort_values_desc argsort_desc g_net_royalty
                                  (group_sums c rs))
    = column_sum "net_royalty" rs /\
  series_sum (g_units <$> sort_values_desc argsort_desc g_net_royalty
                            (group_sums c rs))
    = column_sum "units" rs.
Proof.
  intros Hwin Hidx Hk Hr Hu.
  pose proof (sort_values_perm argsort_desc g_net_royalty (group_sums c rs) Hidx) as Hp.
  split.
  - apply (group_sums_total inj val B Hwin c "net_royalty"); [done|done|].
    rewrite Hp. unfold group_sums. by rewrite <- list_fmap_compose.
  - apply (group_sums_total inj val B Hwin c "units"); [done|done|].
    rewrite Hp. unfold group_sums. by rewrite <- list_fmap_compose.
Qed.

Lemma sorted_track_sums (inj : Z -> num) (val : num -> Z) (B : Z)
  (rs : list (gmap string value)) :
  exact_window inj B ->
  indexes argsort_desc ->
  Forall (fun r => is_Some (key_of "track_title" r)) rs ->
  whole_amounts inj val B (amounts "net_royalty" rs) ->
  whole_amounts inj val B (amounts "units" rs) ->
  series_sum (t_revenue <$> sort_values_desc argsort_desc t_revenue (track_groups rs))
    = column_sum "net_royalty" rs /\
  series_sum (t_units <$> sort_values_desc argsort_desc t_revenue (track_groups rs))
    = column_sum "units" rs.
Proof.
  intros Hwin Hidx Hk Hr Hu.
  pose proof (sort_values_perm argsort_desc t_revenue (track_groups rs) Hidx) as Hp.
  split.
  - apply (group_sums_total inj val B Hwin "track_title" "net_royalty"); [done|done|].
    rewrite Hp. unfold track_groups. by rewrite <- list_fmap_compose.
  - apply (group_sums_total inj val B Hwin "track_title" "units"); [done|done|].
    rewrite Hp. unfold track_groups. by rewrite <- list_fmap_compose.
Qed.

(** X17.  Whenever the additions do not round — revenue and units are
    whole amounts whose absolute values add up within a bound below which
    the column's addition is exact — every table of the page accounts
    for the whole selection in both of its numbers: the units by
    distributor, revenue and units by classification, and, as long as
    the cut at twenty or thirty rows drops nothing, revenue and units by
    store, by country and by track add up to the two totals of the
    page. *)
Theorem grouped_totals_complete (src : option DataFrame)
  (ui : sidebar) (f : DataFrame) (inj : Z -> num) (val : num -> Z) (B : Z) :
  exact_window inj B ->
  indexes argsort_desc ->
  filtered repr regex to_numeric to_datetime src ui = Done f ->
  whole_amounts inj val B (amounts "net_royalty" (rows f)) ->
  whole_amounts inj val B (amounts "units" (rows f)) ->
  series_sum (g_units <$> by_dist argsort_desc f) = total_units f /\
  series_sum (g_net_royalty <$> by_class argsort_desc f) = total_rev f /\
  series_sum (g_units <$> by_class argsort_desc f) = total_units f /\
  (length (group_keys "store" (rows f)) <= 20 ->
   series_sum (g_net_royalty <$> by_store argsort_desc f) = total_rev f /\
   series_sum (g_units <$> by_store argsort_desc f) = total_units f) /\
  (length (group_keys "country" (rows f)) <= 20 ->
   series_sum (g_net_royalty <$> by_country argsort_desc f) = total_rev f /\
   series_sum (g_units <$> by_country argsort_desc f) = total_units f) /\
  (n_tracks f <= 30 ->
   series_sum (t_revenue <$> top_tracks argsort_desc f) = total_rev f /\
   series_sum (t_units <$> top_tracks argsort_desc f) = total_units f).
Proof.
  intros Hwin Hidx Hf Hr Hu.
  assert (forall c fill, (c, fill) ∈ categoricals ->
            Forall (fun r => is_Some (key_of c r)) (rows f)) as Hkeys.
  { intros c fill Hin.
    by apply (filtered_has_keys repr regex to_numeric to_datetime src ui f c fill). }
  unfold by_dist, by_class, by_store, by_country, top_tracks, total_rev, total_units.
  split; [|split; [|split; [|split; [|split]]]].
  - apply (sorted_group_sums inj val B); try done.
    apply (Hkeys _ "(sem distribuidora)"). compute_done.
  - apply (sorted_group_sums inj val B); try done.
    apply (Hkeys _ "incerto"). compute_done.
  - apply (sorted_group_sums inj val B); try done.
    apply (Hkeys _ "incerto"). compute_done.
  - intros Hle. rewrite take_ge
      by (by rewrite sort_values_length, group_sums_length).
    apply (sorted_group_sums inj val B); try done.
    apply (Hkeys _ "(sem plataforma)"). compute_done.
  - intros Hle. rewrite take_ge
      by (by rewrite sort_values_length, group_sums_length).
    apply (sorted_group_sums inj val B); try done.
    apply (Hkeys "country" ("(sem pa" ++ String "237"%char "s)")%string).
    compute_done.
  - intros Hle. rewrite take_ge
      by (by rewrite sort_values_length, track_groups_length).
    apply (sorted_track_sums inj val B); try done.
    apply (Hkeys _ "(sem faixa)"). compute_done.
Qed.

(** ** The choices of a multiselect *)

(** X5.  A multiselect offers each value of its column once, in
    ascending order of code points, and nothing else. *)
Theorem options_are_the_values (c : string) (df : DataFrame) :
  Sorted str_le (options c df) /\ NoDup (options c df) /\
  forall k, k ∈ options c df <-> exists r, r ∈ rows df /\ cell r c = VStr k.
Proof.
  split; [apply group_keys_sorted|]. split; [apply group_keys_nodup|].
  intros k. unfold options. rewrite (elem_of_group_keys c k (rows df)).
  split; intros (r & Hr & Hk); exists r; (split; [done|]); unfold key_of in *.
  - by destruct (cell r c); try done; injection Hk as ->.
  - by rewrite Hk.
Qed.

(** ** The fill, twice *)

(** X10.  Filling a categorical column twice is filling it once: the
    text the fill leaves in a cell is never one the fill replaces. *)
Theorem fill_text_idempotent (c fill : string) (v : value) :
  (c, fill) ∈ categoricals ->
  fill_text repr fill (VStr (fill_text repr fill v)) = fill_text repr fill v.
Proof.
  intros Hin.
  assert (fill <> "nan" /\ fill <> "None") as [Hn1 Hn2].
  { unfold categoricals in Hin. rewrite !elem_of_cons, elem_of_nil in Hin.
    repeat destruct Hin as [Hin|Hin]; try done;
      injection Hin as _ ->; split; discriminate. }
  assert (fill_text repr fill v <> "nan" /\ fill_text repr fill v <> "None")
    as [H1 H2].
  { unfold fill_text.
    destruct (String.eqb (astype_str repr v) "nan"
              || String.eqb (astype_str repr v) "None") eqn:E; [done|].
    apply orb_false_elim in E as [E1 E2].
    by apply String.eqb_neq in E1, E2. }
  by apply fill_text_other.
Qed.

Lemma search_filter_done_iff (pat : string) (f : DataFrame) :
  (exists g, search_filter repr regex pat f = Done g) <->
  pat = "" \/ (searched f <> [] /\ is_Some (regex pat)).
Proof.
  unfold search_filter, searched. destruct pat as [|a pat].
  { split; [by left|by eexists]. }
  destruct (List.filter _ search_columns) as [|c0 cols].
  { split; [by intros [g ?]|]. by intros [?|[? _]]. }
  destruct (regex (String a pat)) as [m|].
  - split; [|by eexists]. intros _. right. split; [done|by eexists].
  - split; [by intros [g ?]|]. intros [?|[_ [m ?]]]; done.
Qed.

Lemma apply_filters_done_iff (df : DataFrame) (p : filters) :
  (exists f, apply_filters repr regex df p = Done f) <->
  search p = "" \/ (searched df <> [] /\ is_Some (regex (search p))).
Proof.
  unfold apply_filters.
  set (g := isin_filter "country" _ _).
  assert (searched g = searched df) as Hg.
  { apply searched_columns. unfold g.
    by rewrite !(proj1 (isin_filter_rows _ _ _)). }
  rewrite <- Hg, <- search_filter_done_iff. split.
  - intros [f Hf]. apply outcome_bind_done in Hf as (x & Hx & _). by exists x.
  - intros [x Hx]. rewrite Hx. cbn [mbind outcome_bind]. by eexists.
Qed.

(** X1.  For every value of the filters and every search text: the
    filter block ends with a frame exactly when the search is empty, or
    one of the searched columns exists and the text is a regular
    expression; and whenever it ends with a frame, that frame has the
    labels of the loaded frame and exactly the rows that pass every mask
    at once: the masks are combined by "and", each one read off the row
    itself, so neither their order nor the other rows matter. *)
Theorem filters_are_one_mask (df : DataFrame) (p : filters) :
  ((exists f, apply_filters repr regex df p = Done f) <->
   search p = "" \/ (searched df <> [] /\ is_Some (regex (search p)))) /\
  forall f, apply_filters repr regex df p = Done f ->
  columns f = columns df /\
  rows f = List.filter (passes repr regex p (searched df)) (rows df) /\
  forall r, r ∈ rows f <->
    r ∈ rows df /\
    date_in (start_date p) (end_date p) (cell r "period_date") = true /\
    sel_ok "distributor" (sel_dist p) r = true /\
    sel_ok "classification" (sel_class p) r = true /\
    sel_ok "store" (sel_store p) r = true /\
    sel_ok "country" (sel_country p) r = true /\
    search_ok repr regex (search p) (searched df) r = true /\
    min_ok "net_royalty" (min_rev p) r = true /\
    min_ok "units" (min_units p) r = true.
Proof.
  split; [apply apply_filters_done_iff|].
  intros f H. destruct (apply_filters_mask _ _ _ H) as [Hc Hr].
  split; [done|]. split; [done|]. intros r.
  rewrite Hr, elem_of_filter_bool. unfold passes.
  rewrite !andb_true_iff. tauto.
Qed.

(** ** The month column and the timeline *)

Lemma key_of_fmap (c : string) (h : gmap string value -> gmap string value)
  (rs : list (gmap string value)) :
  (forall r, cell (h r) c = cell r c) ->
  omap (key_of c) (h <$> rs) = omap (key_of c) rs.
Proof.
  intros Hh. apply list_omap_ext. apply Forall2_fmap_l, Forall_Forall2_diag.
  apply Forall_forall. intros r _. change (key_of c (h r) = key_of c r).
  unfold key_of. by rewrite Hh.
Qed.

Lemma filter_fmap {A B : Type} (p : B -> bool) (q : A -> bool) (h : A -> B)
  (l : list A) :
  (forall x, p (h x) = q x) -> List.filter p (h <$> l) = h <$> List.filter q l.
Proof.
  intros Hh. induction l as [|x l IH]; [done|]. cbn. rewrite Hh.
  destruct (q x); cbn; by rewrite IH.
Qed.

Lemma group_rows_fmap (c k : string) (h : gmap string value -> gmap string value)
  (rs : list (gmap string value)) :
  (forall r, cell (h r) c = cell r c) ->
  group_rows c k (h <$> rs) = h <$> group_rows c k rs.
Proof.
  intros Hh. apply filter_fmap. intros r. unfold in_group, key_of. by rewrite Hh.
Qed.

Lemma column_sum_fmap (c : string) (h : gmap string value -> gmap string value)
  (rs : list (gmap string value)) :
  (forall r, cell (h r) c = cell r c) ->
  column_sum c (h <$> rs) = column_sum c rs.
Proof.
  intros Hh. unfold column_sum. rewrite <- list_fmap_compose. f_equal.
  apply list_fmap_ext. intros i r _. cbn. by rewrite Hh.
Qed.

Lemma group_keys_fmap (c : string) (h : gmap string value -> gmap string value)
  (rs : list (gmap string value)) :
  (forall r, cell (h r) c = cell r c) ->
  group_keys c (h <$> rs) = group_keys c rs.
Proof. intros Hh. unfold group_keys. by rewrite key_of_fmap. Qed.

Lemma group_sums_fmap (c : string) (h : gmap string value -> gmap string value)
  (rs : list (gmap string value)) :
  (forall c', c' <> "period_ym" -> forall r, cell (h r) c' = cell r c') ->
  c <> "period_ym" ->
  group_sums c (h <$> rs) = group_sums c rs.
Proof.
  intros Hh Hc. unfold group_sums. rewrite group_keys_fmap by by apply Hh.
  apply list_fmap_ext. intros i k _.
  rewrite group_rows_fmap by by apply Hh.
  by rewrite !column_sum_fmap by by apply Hh.
Qed.

Lemma track_groups_fmap (h : gmap string value -> gmap string value)
  (rs : list (gmap string value)) :
  (forall c', c' <> "period_ym" -> forall r, cell (h r) c' = cell r c') ->
  track_groups (h <$> rs) = track_groups rs.
Proof.
  intros Hh. unfold track_groups. rewrite group_keys_fmap by by apply Hh.
  apply list_fmap_ext. intros i k _. cbv zeta.
  rewrite group_rows_fmap by by apply Hh.
  rewrite !column_sum_fmap by by apply Hh.
  unfold sorted_set. by rewrite key_of_fmap by by apply Hh.
Qed.

Lemma add_period_ym_done (f g : DataFrame) :
  add_period_ym strftime_ym f = Done g ->
  g = assign "period_ym" (fun r => month_cell strftime_ym (cell r "period")) f.
Proof.
  unfold add_period_ym. destruct (has_column "period" f); [|done].
  destruct (forallb _ (rows f)); [|done]. by intros [= <-].
Qed.

Lemma period_ym_tables (f g : DataFrame) :
  add_period_ym strftime_ym f = Done g ->
  by_dist argsort_desc g = by_dist argsort_desc f /\
  by_class argsort_desc g = by_class argsort_desc f /\
  by_store argsort_desc g = by_store argsort_desc f /\
  by_country argsort_desc g = by_country argsort_desc f /\
  top_tracks argsort_desc g = top_tracks argsort_desc f.
Proof.
  intros H. apply add_period_ym_done in H. subst g.
  set (h := fun r : gmap string value =>
              <["period_ym" := month_cell strftime_ym (cell r "period")]> r).
  assert (forall c', c' <> "period_ym" -> forall r, cell (h r) c' = cell r c') as Hh.
  { intros c' Hc r. unfold h. by rewrite cell_insert_ne. }
  unfold by_dist, by_class, by_store, by_country, top_tracks, assign.
  cbn [columns rows]. fold h.
  by rewrite !group_sums_fmap, track_groups_fmap by (done || by apply Hh).
Qed.

(** X20.  The helper column changes nothing but itself.  Line 131 writes
    [period_ym] into the filtered frame before the tables are built and
    before the export: the frame keeps its labels, with [period_ym] last
    if it is new, and its rows, equal to what they were in every other
    column; so both totals, the count of tracks and the five tables come
    out as they would without the column. *)
Theorem period_ym_leaves_tables (f g : DataFrame) :
  add_period_ym strftime_ym f = Done g ->
  columns g = with_column "period_ym" (columns f) /\
  Forall2 (fun r r' => cell r' "period_ym" = month_cell strftime_ym (cell r "period") /\
                       forall c, c <> "period_ym" -> cell r' c = cell r c)
    (rows f) (rows g) /\
  total_rev g = total_rev f /\ total_units g = total_units f /\
  n_tracks g = n_tracks f /\
  by_dist argsort_desc g = by_dist argsort_desc f /\
  by_class argsort_desc g = by_class argsort_desc f /\
  by_store argsort_desc g = by_store argsort_desc f /\
  by_country argsort_desc g = by_country argsort_desc f /\
  top_tracks argsort_desc g = top_tracks argsort_desc f.
Proof.
  intros H. apply add_period_ym_done in H. subst g.
  set (h := fun r : gmap string value =>
              <["period_ym" := month_cell strftime_ym (cell r "period")]> r).
  assert (forall c', c' <> "period_ym" -> forall r, cell (h r) c' = cell r c') as Hh.
  { intros c' Hc r. unfold h. by rewrite cell_insert_ne. }
  unfold total_rev, total_units, n_tracks, by_dist, by_class, by_store,
    by_country, top_tracks, assign. cbn [columns rows]. fold h.
  rewrite !group_sums_fmap, track_groups_fmap, !column_sum_fmap, key_of_fmap
    by (done || by apply Hh).
  split; [done|]. split; [|done].
  apply Forall2_fmap_r, Forall_Forall2_diag, Forall_forall. intros r _.
  split; [apply cell_insert|]. intros c Hc. by apply Hh.
Qed.

Lemma filtered_periods (src : option DataFrame) (ui : sidebar) (f : DataFrame) :
  filtered repr regex to_numeric to_datetime src ui = Done f ->
  has_column "period" f = true /\
  Forall (fun r => exists t, cell r "period" = VTimestamp t) (rows f).
Proof.
  intros Hf.
  destruct (filtered_done _ _ _ _ _ _ _ Hf)
    as (src0 & df & lo & hi & -> & Hl & _ & _ & Ha).
  destruct (apply_filters_narrows _ _ _ _ _ Ha) as [Hc Hsub].
  split.
  - unfold has_column. rewrite Hc. apply bool_decide_eq_true.
    destruct (load_data_columns _ _ Hl) as (df3 & -> & Hc3).
    apply (fill_loop_columns categoricals df3). left. rewrite Hc3.
    apply elem_of_with_column. right.
    pose proof (load_data_cases (Some src0)) as Hcs. rewrite Hl in Hcs.
    by destruct Hcs as (s & [= <-] & _ & _ & Hp).
  - apply (Forall_sublist_of _ _ _ Hsub).
    eapply Forall_impl; [exact (loaded_periods _ _ Hl)|].
    intros r (t & Hp & _). by exists t.
Qed.

Lemma add_period_ym_runs (f : DataFrame) :
  has_column "period" f = true ->
  Forall (fun r => exists t, cell r "period" = VTimestamp t) (rows f) ->
  add_period_ym strftime_ym f
  = Done (assign "period_ym" (fun r => month_cell strftime_ym (cell r "period")) f).
Proof.
  intros Hc Hall. unfold add_period_ym. rewrite Hc.
  replace (forallb _ (rows f)) with true; [done|].
  symmetry. apply forallb_forall. intros r Hr. apply list_elem_of_In in Hr.
  destruct (proj1 (Forall_forall _ _) Hall r Hr) as [t ->]. done.
Qed.

#[local] Instance key_le_total : Total (@key_le N).
Proof. intros a b. apply (str_le_total a.1 b.1). Qed.

(** The index of the timeline, before [sort_index]. *)
Lemma month_keys (f : DataFrame) :
  let g := assign "period_ym" (fun r => month_cell strftime_ym (cell r "period")) f in
  omap (key_of "period_ym") (rows g) = omap (month_of strftime_ym) (rows f).
Proof.
  cbv zeta. unfold assign. cbn [rows]. apply list_omap_ext.
  apply Forall2_fmap_l, Forall_Forall2_diag, Forall_forall. intros r _.
  change (key_of "period_ym"
            (<["period_ym" := month_cell strftime_ym (cell r "period")]> r)
          = month_of strftime_ym r).
  unfold key_of, month_of. rewrite cell_insert. by destruct (cell r "period").
Qed.

Lemma month_group (f : DataFrame) (k : string) :
  let g := assign "period_ym" (fun r => month_cell strftime_ym (cell r "period")) f in
  column_sum "net_royalty" (group_rows "period_ym" k (rows g))
  = column_sum "net_royalty" (month_rows strftime_ym k (rows f)).
Proof.
  cbv zeta. unfold assign, group_rows, month_rows. cbn [rows].
  rewrite (filter_fmap _ (fun r => bool_decide (month_of strftime_ym r = Some k))).
  - apply column_sum_fmap. intros r. by rewrite cell_insert_ne.
  - intros r. unfold in_group, key_of, month_of. rewrite cell_insert.
    apply bool_decide_ext. by destruct (cell r "period").
Qed.

(** X18.  The timeline has one point for each month in which a filtered
    row falls and none for a month without rows; the months come in
    ascending order, each once, and the value at a month is the sum of
    [net_royalty] over the filtered rows of that month. *)
Theorem timeline_months (src : option DataFrame) (ui : sidebar) (f : DataFrame) :
  filtered repr regex to_numeric to_datetime src ui = Done f ->
  exists tl, timeline strftime_ym f = Done tl /\
    Sorted str_le tl.*1 /\ NoDup tl.*1 /\
    (forall k, k ∈ tl.*1 <->
               exists r, r ∈ rows f /\ month_of strftime_ym r = Some k) /\
    Forall (fun kv => kv.2 = column_sum "net_royalty"
                               (month_rows strftime_ym kv.1 (rows f))) tl.
Proof.
  intros Hf. destruct (filtered_periods _ _ _ Hf) as [Hc Hall].
  unfold timeline. rewrite (add_period_ym_runs f Hc Hall).
  cbn [mbind outcome_bind]. eexists. split; [reflexivity|].
  set (g := assign "period_ym" _ f).
  set (base := (fun k => (k, column_sum "net_royalty"
                               (group_rows "period_ym" k (rows g))))
                 <$> group_keys "period_ym" (rows g)).
  assert (base.*1 = group_keys "period_ym" (rows g)) as Hkeys.
  { unfold base. rewrite <- list_fmap_compose. apply list_fmap_id. }
  assert (merge_sort key_le base ≡ₚ base) as Hp by apply merge_sort_Permutation.
  split; [|split; [|split]].
  - apply (Sorted_fmap fst key_le str_le); [by intros x y|].
    apply (Sorted_merge_sort key_le).
  - rewrite Hp, Hkeys. apply group_keys_nodup.
  - intros k. rewrite Hp, Hkeys. unfold group_keys.
    rewrite merge_sort_Permutation, elem_of_remove_dups.
    unfold g. rewrite (month_keys f). apply list_elem_of_omap.
  - rewrite Hp. unfold base. apply Forall_fmap, Forall_forall. intros k _.
    cbn [fst snd]. apply (month_group f k).
Qed.

(** X19.  Whenever the additions do not round — the revenues are whole
    amounts whose absolute values add up within a bound below which the
    column's addition is exact — the points of the timeline add up to
    the total revenue of the page. *)
Theorem timeline_total (src : option DataFrame) (ui : sidebar)
  (f : DataFrame) (inj : Z -> num) (val : num -> Z) (B : Z) :
  exact_window inj B ->
  filtered repr regex to_numeric to_datetime src ui = Done f ->
  whole_amounts inj val B (amounts "net_royalty" (rows f)) ->
  exists tl, timeline strftime_ym f = Done tl /\
    series_sum tl.*2 = total_rev f /\
    total_rev f = inj (zsum (val <$> amounts "net_royalty" (rows f))).
Proof.
  intros Hwin Hf Hw. destruct (filtered_periods _ _ _ Hf) as [Hc Hall].
  unfold timeline. rewrite (add_period_ym_runs f Hc Hall).
  cbn [mbind outcome_bind]. eexists. split; [reflexivity|].
  set (g := assign "period_ym" _ f).
  assert (amounts "net_royalty" (rows g) = amounts "net_royalty" (rows f)) as Ha.
  { unfold g, assign, amounts. cbn [rows]. rewrite <- list_fmap_compose.
    apply list_fmap_ext. intros i r _. cbn. by rewrite cell_insert_ne. }
  assert (column_sum "net_royalty" (rows g) = total_rev f) as Hg.
  { unfold total_rev, column_sum. fold (amounts "net_royalty" (rows g)).
    by rewrite Ha. }
  rewrite <- Hg, <- Ha.
  apply (group_sums_total inj val B Hwin "period_ym" "net_royalty").
  - by rewrite Ha.
  - unfold g, assign. cbn [rows]. apply Forall_fmap.
    eapply Forall_impl; [exact Hall|]. intros r [t Ht]. cbn.
    unfold key_of. rewrite cell_insert, Ht. by eexists.
  - etransitivity; [apply fmap_Permutation, merge_sort_Permutation|].
    by rewrite <- list_fmap_compose.
Qed.

(** ** Whether the page renders *)

Lemma render_cases (f : DataFrame) :
  has_column "period" f = true ->
  Forall (fun r => exists t, cell r "period" = VTimestamp t) (rows f) ->
  match to_int (total_units f) with
  | None => render argsort_desc strftime_ym to_int f = Raised
  | Some shown =>
      exists g tl,
        add_period_ym strftime_ym f = Done g /\
        timeline strftime_ym f = Done tl /\
        render argsort_desc strftime_ym to_int f
        = Done {| v_total_rev := total_rev f;
                  v_total_units := total_units f;
                  v_units_shown := shown;
                  v_n_tracks := n_tracks f;
                  v_timeline := tl;
                  v_by_dist := by_dist argsort_desc g;
                  v_by_class := by_class argsort_desc g;
                  v_by_store := by_store argsort_desc g;
                  v_by_country := by_country argsort_desc g;
                  v_top_tracks := top_tracks argsort_desc g;
                  v_export := g |}
  end.
Proof.
  intros Hc Hall. unfold render.
  destruct (to_int (total_units f)) as [shown|]; [|done].
  unfold timeline. rewrite (add_period_ym_runs f Hc Hall).
  cbn [mbind outcome_bind]. by eexists _, _.
Qed.

(** X13.  With at least one dated row the script gets as far as the
    page, and whether the page comes up is decided in two places.  A
    search text that is no regular expression raises in the filter
    block.  Otherwise the filtered frame exists, and the page raises
    exactly when [int] has no value for the units total (an infinite or
    NaN total, at line 120); in every other case it renders: the totals
    and the count of the filtered frame, the whole part of the units
    total, the timeline, and the tables and the export read off the
    frame with [period_ym], the tables being those of the filtered
    frame. *)
Theorem page_renders (src df : DataFrame) (ui : sidebar) :
  load_data repr to_numeric to_datetime (Some src) = Done df ->
  rows df <> [] ->
  let s := Text.lower (Text.strip (search_text ui)) in
  let page := dashboard repr regex to_numeric to_datetime argsort_desc
                strftime_ym to_int (Some src) ui in
  (s <> "" /\ regex s = None -> page = Raised) /\
  (s = "" \/ is_Some (regex s) ->
   exists f,
     filtered repr regex to_numeric to_datetime (Some src) ui = Done f /\
     (to_int (total_units f) = None -> page = Raised) /\
     (forall shown, to_int (total_units f) = Some shown ->
        exists v, page = Done v /\
          v_total_rev v = total_rev f /\ v_total_units v = total_units f /\
          v_units_shown v = shown /\ v_n_tracks v = n_tracks f /\
          timeline strftime_ym f = Done (v_timeline v) /\
          add_period_ym strftime_ym f = Done (v_export v) /\
          v_by_dist v = by_dist argsort_desc f /\
          v_by_class v = by_class argsort_desc f /\
          v_by_store v = by_store argsort_desc f /\
          v_by_country v = by_country argsort_desc f /\
          v_top_tracks v = top_tracks argsort_desc f)).
Proof.
  intros Hl Hrows s page.
  destruct (series_bounds_exist df Hrows
              (loaded_has_dates repr to_numeric to_datetime _ _ Hl))
    as (lo & hi & Hlo & Hhi).
  pose proof (loaded_search_cases src df
                (read_sidebar lo hi (period_pick ui) ui) Hl)
    as (_ & _ & Hraise & Hdone).
  assert (filtered repr regex to_numeric to_datetime (Some src) ui
          = apply_filters repr regex df (read_sidebar lo hi (period_pick ui) ui))
    as Hfe by apply (filtered_eval (Some src) ui df lo hi Hl Hlo Hhi).
  split.
  - intros Hs. unfold page, dashboard. rewrite Hfe.
    by rewrite (proj2 Hraise Hs).
  - intros Hs. destruct (proj2 Hdone Hs) as [f Hf]. exists f.
    rewrite Hfe. split; [exact Hf|].
    assert (page = render argsort_desc strftime_ym to_int f) as Hp.
    { unfold page, dashboard. by rewrite Hfe, Hf. }
    assert (filtered repr regex to_numeric to_datetime (Some src) ui = Done f)
      as Hff by (by rewrite Hfe).
    destruct (filtered_periods _ _ _ Hff) as [Hc Hall].
    pose proof (render_cases f Hc Hall) as Hr.
    split.
    + intros Hnone. rewrite Hnone in Hr. by rewrite Hp.
    + intros shown Hsome. rewrite Hsome in Hr.
      destruct Hr as (g & tl & Hg & Htl & Hr).
      eexists. split; [by rewrite Hp, Hr|]. cbn.
      destruct (period_ym_tables f g Hg) as (H1 & H2 & H3 & H4 & H5).
      by rewrite H1, H2, H3, H4, H5.
Qed.

End PageFacts.

(** * Closed statements, continued *)

Example sample_months :
  sample_strftime_ym {| ts_date := 738000; ts_nanos := 0 |} = "2021-07" /\
  sample_strftime_ym {| ts_date := 738031; ts_nanos := 0 |} = "2021-08" /\
  sample_strftime_ym {| ts_date := 730120; ts_nanos := 0 |} = "2000-01" /\
  sample_strftime_ym {| ts_date := 719162; ts_nanos := 0 |} = "1969-12" /\
  sample_strftime_ym {| ts_date := 693596; ts_nanos := 0 |} = "1900-01".
Proof. repeat split; vm_compute; reflexivity. Qed.

Lemma filters_are_one_mask_witness :
  is_done (apply_filters sample_repr sample_regex duet_loaded busy_filters) = true /\
  column "net_royalty" (frame_of (apply_filters sample_repr sample_regex duet_loaded busy_filters))
    = [f64 20] /\
  rows (frame_of (apply_filters sample_repr sample_regex duet_loaded busy_filters))
    = List.filter (passes sample_repr sample_regex busy_filters (searched duet_loaded))
        (rows duet_loaded).
Proof.
  split; [vm_compute; reflexivity|]. split; [vm_compute; reflexivity|].
  refine (proj1 (proj2 (proj2 (filters_are_one_mask (N:=binary64) sample_repr
                                 sample_regex duet_loaded busy_filters)
                          (frame_of (apply_filters sample_repr sample_regex duet_loaded
                                       busy_filters)) _))).
  apply (done_frame (apply_filters sample_repr sample_regex duet_loaded busy_filters)).
  vm_compute; reflexivity.
Defined.

Lemma apply_filters_idempotent_witness :
  is_done (apply_filters sample_repr sample_regex duet_loaded busy_filters) = true /\
  apply_filters sample_repr sample_regex
    (frame_of (apply_filters sample_repr sample_regex duet_loaded busy_filters)) busy_filters
  = Done (frame_of (apply_filters sample_repr sample_regex duet_loaded busy_filters)).
Proof.
  split; [vm_compute; reflexivity|].
  refine (apply_filters_idempotent (N:=binary64) sample_repr sample_regex duet_loaded _
            busy_filters _).
  apply (done_frame (apply_filters sample_repr sample_regex duet_loaded busy_filters)).
  vm_compute; reflexivity.
Defined.

Lemma default_sidebar_shows_all_witness :
  is_done (load64 duet_source) = true /\
  series_min (column "period_date" duet_loaded) = Some 738000%Z /\
  series_max (column "period_date" duet_loaded) = Some 738040%Z /\
  dist_pick (default_sidebar duet_loaded 738000 738040) = ["A"; "B"; "C"] /\
  run64 duet_source (default_sidebar duet_loaded 738000 738040) = Done duet_loaded.
Proof.
  split; [vm_compute; reflexivity|].
  split; [vm_compute; reflexivity|]. split; [vm_compute; reflexivity|].
  split; [vm_compute; reflexivity|].
  refine (default_sidebar_shows_all (N:=binary64) sample_repr sample_regex float_to_numeric
            sample_to_datetime duet_source duet_loaded 738000 738040 _ _ _ _).
  - vm_compute; reflexivity.
  - apply (done_frame (load64 duet_source)). vm_compute; reflexivity.
  - vm_compute; reflexivity.
  - vm_compute; reflexivity.
Defined.

Lemma all_options_is_no_selection_witness :
  is_done (load64 duet_source) = true /\
  options "store" duet_loaded = ["(sem plataforma)"] /\
  isin_filter "store" (options "store" duet_loaded) duet_loaded
  = isin_filter "store" [] duet_loaded.
Proof.
  split; [vm_compute; reflexivity|]. split; [vm_compute; reflexivity|].
  refine (all_options_is_no_selection (N:=binary64) sample_repr float_to_numeric
            sample_to_datetime duet_source duet_loaded "store" "(sem plataforma)"
            _ _).
  - by compute_done.
  - apply (done_frame (load64 duet_source)). vm_compute; reflexivity.
Defined.

Lemma loaded_numbers_are_numbers_witness :
  is_done (load64 unparsed_source) = true /\
  is_done (load64 duet_source) = true /\
  Forall (fun r => exists x, cell r "net_royalty" = f64 x /\
                             PrimFloat.is_nan x = false) (rows duet_loaded).
Proof.
  split; [vm_compute; reflexivity|]. split; [vm_compute; reflexivity|].
  refine (Forall_impl _ _ _
            (loaded_numbers_are_numbers (N:=binary64) sample_repr float_to_numeric
               sample_to_datetime duet_source duet_loaded _ _) _).
  - vm_compute; reflexivity.
  - apply (done_frame (load64 duet_source)). vm_compute; reflexivity.
  - intros r [(x & Hx & Hn & _) _]. by exists x.
Defined.

Lemma loaded_periods_are_timestamps_witness :
  is_done (load64 duet_source) = true /\
  Forall (fun r => exists t, cell r "period" = VTimestamp t /\
                             cell r "period_date" = VDate (ts_date t) /\
                             isna (cell r "period") = false) (rows duet_loaded).
Proof.
  split; [vm_compute; reflexivity|].
  refine (loaded_periods_are_timestamps (N:=binary64) sample_repr float_to_numeric
            sample_to_datetime duet_source duet_loaded _).
  apply (done_frame (load64 duet_source)). vm_compute; reflexivity.
Defined.

Lemma load_keeps_labels_witness :
  is_done (load64 padded_source) = true /\
  columns (frame_of (load64 padded_source))
    = fact_columns ++ ["artist"; "period_date"; "release_title"; "store";
                       "country"; "currency"; "classification"] /\
  columns padded_source `prefix_of` columns (frame_of (load64 padded_source)) /\
  length (rows (frame_of (load64 padded_source))) <= length (rows padded_source).
Proof.
  split; [vm_compute; reflexivity|]. split; [vm_compute; reflexivity|].
  pose proof (load_keeps_labels (N:=binary64) sample_repr float_to_numeric
                sample_to_datetime padded_source (frame_of (load64 padded_source))
                (done_frame (load64 padded_source) eq_refl)) as H.
  exact (conj (proj1 H) (proj2 (proj2 (proj2 H)))).
Defined.

Lemma empty_selection_page_witness :
  is_done (apply_filters sample_repr sample_regex duet_loaded inverted_filters) = true /\
  rows (frame_of (apply_filters sample_repr sample_regex duet_loaded inverted_filters)) = [] /\
  total_rev (frame_of (apply_filters sample_repr sample_regex duet_loaded inverted_filters))
    = 0%float /\
  top_tracks (N:=binary64) argsort_forward
    (frame_of (apply_filters sample_repr sample_regex duet_loaded inverted_filters)) = [].
Proof.
  split; [vm_compute; reflexivity|]. split; [vm_compute; reflexivity|].
  pose proof (empty_selection_page (N:=binary64) argsort_forward sample_strftime_ym
                (frame_of (apply_filters sample_repr sample_regex duet_loaded inverted_filters))
                eq_refl) as H.
  exact (conj (proj1 H)
           (proj1 (proj2 (proj2 (proj2 (proj2 (proj2 (proj2 (proj2 H))))))))).
Defined.

Lemma table_sizes_witness :
  n_tracks duet_page = 2 /\
  length (top_tracks (N:=binary64) argsort_forward duet_page)
    = 30 `min` n_tracks duet_page.
Proof.
  split; [vm_compute; reflexivity|].
  refine (proj2 (proj2 (proj2 (proj2
            (table_sizes (N:=binary64) argsort_forward duet_page _))))).
  apply argsort_forward_indexes.
Defined.

Lemma grouped_tables_rows_witness :
  g_key <$> by_dist (N:=binary64) argsort_forward duet_page = ["C"; "A"; "B"] /\
  NoDup (g_key <$> by_dist (N:=binary64) argsort_forward duet_page) /\
  Forall (group_of "distributor" (rows duet_page))
    (by_dist (N:=binary64) argsort_forward duet_page).
Proof.
  split; [vm_compute; reflexivity|].
  pose proof (proj1 (grouped_tables_rows (N:=binary64) argsort_forward duet_page
                       argsort_forward_indexes)) as H.
  exact (conj (proj1 H) (proj1 (proj2 H))).
Defined.

Lemma grouped_totals_complete_witness :
  is_done (run64 duet_source (no_filters (OneDate 738000) "")) = true /\
  amounts (N:=binary64) "units" (rows duet_page) = [3; 4; 1; 1]%float /\
  by_dist (N:=binary64) argsort_forward duet_page
    = [total64 "C" 50 1; total64 "A" 21 5; total64 "B" 10 3] /\
  total_units duet_page = 9%float /\
  series_sum (N:=binary64) (g_units <$> by_dist (N:=binary64) argsort_forward duet_page)
  = total_units duet_page.
Proof.
  split; [vm_compute; reflexivity|]. split; [vm_compute; reflexivity|].
  split; [vm_compute; reflexivity|]. split; [vm_compute; reflexivity|].
  refine (proj1 (grouped_totals_complete (N:=binary64) sample_repr sample_regex
                   float_to_numeric sample_to_datetime argsort_forward
                   (Some duet_source) (no_filters (OneDate 738000) "")
                   duet_page Z2f f2Z 512%Z binary64_window _ _
                   duet_revenue_whole duet_units_whole)).
  - apply argsort_forward_indexes.
  - apply (done_frame (run64 duet_source (no_filters (OneDate 738000) ""))).
    vm_compute; reflexivity.
Defined.

Lemma timeline_months_witness :
  is_done (run64 duet_source (no_filters (OneDate 738000) "")) = true /\
  timeline sample_strftime_ym duet_page
    = Done [("2021-07", 10%float); ("2021-08", 21%float); ("2021-09", 50%float)] /\
  exists tl, timeline sample_strftime_ym duet_page = Done tl /\
             Sorted str_le tl.*1 /\ NoDup tl.*1.
Proof.
  split; [vm_compute; reflexivity|]. split; [vm_compute; reflexivity|].
  destruct (timeline_months (N:=binary64) sample_repr sample_regex float_to_numeric
              sample_to_datetime sample_strftime_ym (Some duet_source)
              (no_filters (OneDate 738000) "") duet_page
              (done_frame (run64 duet_source (no_filters (OneDate 738000) ""))
                 eq_refl)) as (tl & Ht & Hs & Hn & _).
  exists tl. auto.
Defined.

Lemma timeline_total_witness :
  is_done (run64 duet_source (no_filters (OneDate 738000) "")) = true /\
  timeline sample_strftime_ym duet_page
    = Done [("2021-07", 10%float); ("2021-08", 21%float); ("2021-09", 50%float)] /\
  total_rev duet_page = 81%float /\
  exists tl, timeline sample_strftime_ym duet_page = Done tl /\
             series_sum (N:=binary64) tl.*2 = total_rev duet_page /\
             total_rev duet_page
             = Z2f (zsum (f2Z <$> amounts (N:=binary64) "net_royalty" (rows duet_page))).
Proof.
  split; [vm_compute; reflexivity|]. split; [vm_compute; reflexivity|].
  split; [vm_compute; reflexivity|].
  refine (timeline_total (N:=binary64) sample_repr sample_regex float_to_numeric
            sample_to_datetime sample_strftime_ym (Some duet_source)
            (no_filters (OneDate 738000) "") duet_page Z2f f2Z 512%Z
            binary64_window _ duet_revenue_whole).
  apply (done_frame (run64 duet_source (no_filters (OneDate 738000) ""))).
  vm_compute; reflexivity.
Defined.

Lemma period_ym_leaves_tables_witness :
  is_done (add_period_ym sample_strftime_ym duet_page) = true /\
  column "period_ym" (frame_of (add_period_ym sample_strftime_ym duet_page))
    = [VStr "2021-07"; VStr "2021-08"; VStr "2021-08"; VStr "2021-09"] /\
  top_tracks (N:=binary64) argsort_forward
    (frame_of (add_period_ym sample_strftime_ym duet_page))
  = top_tracks (N:=binary64) argsort_forward duet_page.
Proof.
  split; [vm_compute; reflexivity|]. split; [vm_compute; reflexivity|].
  pose proof (period_ym_leaves_tables (N:=binary64) argsort_forward
                sample_strftime_ym duet_page
                (frame_of (add_period_ym sample_strftime_ym duet_page))
                (done_frame (add_period_ym sample_strftime_ym duet_page) eq_refl))
    as H.
  exact (proj2 (proj2 (proj2 (proj2 (proj2 (proj2 (proj2 (proj2 (proj2 H))))))))).
Defined.

Lemma inverted_period_is_empty_witness :
  (end_date inverted_filters < start_date inverted_filters)%Z /\
  is_done (apply_filters sample_repr sample_regex duet_loaded inverted_filters) = true /\
  rows (frame_of (apply_filters sample_repr sample_regex duet_loaded inverted_filters)) = [].
Proof.
  split; [reflexivity|]. split; [vm_compute; reflexivity|].
  refine (inverted_period_is_empty (N:=binary64) sample_repr sample_regex duet_loaded _
            inverted_filters _ _).
  - reflexivity.
  - apply (done_frame (apply_filters sample_repr sample_regex duet_loaded inverted_filters)).
    vm_compute; reflexivity.
Defined.

Lemma search_finds_a_column_witness :
  is_done (load64 duet_source) = true /\
  search busy_filters = "so" /\
  is_done (apply_filters sample_repr sample_regex duet_loaded busy_filters) = true /\
  (apply_filters sample_repr sample_regex duet_loaded busy_filters = Raised <->
   search busy_filters <> "" /\ sample_regex (search busy_filters) = None).
Proof.
  split; [vm_compute; reflexivity|]. split; [vm_compute; reflexivity|].
  split; [vm_compute; reflexivity|].
  refine (proj1 (proj2 (proj2 (search_finds_a_column (N:=binary64) sample_repr
                                 sample_regex float_to_numeric sample_to_datetime
                                 duet_source duet_loaded busy_filters _)))).
  apply (done_frame (load64 duet_source)). vm_compute; reflexivity.
Defined.

Lemma fill_text_idempotent_witness :
  fill_text (N:=binary64) sample_repr "(sem artista)" (VStr "None") = "(sem artista)" /\
  fill_text (N:=binary64) sample_repr "(sem artista)"
    (VStr (fill_text (N:=binary64) sample_repr "(sem artista)" (VStr "None")))
  = fill_text (N:=binary64) sample_repr "(sem artista)" (VStr "None").
Proof.
  split; [vm_compute; reflexivity|].
  refine (fill_text_idempotent (N:=binary64) sample_repr "artist" "(sem artista)"
            (VStr "None") _).
  by compute_done.
Defined.

Lemma length_nonempty {A : Type} (l : list A) (n : nat) :
  length l = S n -> l <> [].
Proof. by intros H ->. Qed.

(** A total of units that is infinite: the row loads, passes the
    filters, and line 120 raises. *)
Example infinite_units_stop_the_page :
  is_done (run64 endless_source (no_filters (OneDate 738000) "")) = true /\
  total_units (frame_of (run64 endless_source (no_filters (OneDate 738000) "")))
    = infinity /\
  dashboard (N:=binary64) sample_repr sample_regex float_to_numeric sample_to_datetime
    argsort_forward sample_strftime_ym float_to_int (Some endless_source)
    (no_filters (OneDate 738000) "") = Raised.
Proof. repeat split; vm_compute; reflexivity. Qed.

Lemma page_renders_witness :
  is_done (load64 duet_source) = true /\
  length (rows duet_loaded) = 4 /\
  sample_regex "so" <> None /\
  exists f, run64 duet_source busy_sidebar = Done f /\
    (float_to_int (total_units f) = None ->
     dashboard (N:=binary64) sample_repr sample_regex float_to_numeric
       sample_to_datetime argsort_forward sample_strftime_ym float_to_int
       (Some duet_source) busy_sidebar = Raised).
Proof.
  split; [vm_compute; reflexivity|]. split; [vm_compute; reflexivity|].
  split; [vm_compute; discriminate|].
  destruct (proj2 (page_renders (N:=binary64) sample_repr sample_regex
                     float_to_numeric sample_to_datetime argsort_forward
                     sample_strftime_ym float_to_int duet_source duet_loaded
                     busy_sidebar
                     (done_frame (load64 duet_source) eq_refl)
                     (length_nonempty (rows duet_loaded) 3 eq_refl))
              (or_intror (mk_is_Some _ _ eq_refl))) as (f & Hf & Hnone & _).
  exists f. split; [exact Hf | exact Hnone].
Defined.
